(** * Quota-gated ad monetization engine: a shallow embedding

    The development follows the JavaScript sources of the orchestrator:

    - [services/ad-server/cpm-optimizer.js]  (module [CPMOptimizer])
    - the ad campaign model and the schema    (module [AdCampaignModel])
    - [services/ad-server/ad-manager.js]      (module [PremiumAdManager])
    - the user model                          (module [UserModel])
    - [middleware/ad-middleware.js]           (module [AdMiddleware])
    - the task orchestrator                   (module [Orchestrator])

    Conventions.  JavaScript numbers are modelled by exact rationals [Q]
    (every constant of the sources is a short decimal); [undefined] is
    [None]; an [async] method whose database statement can be rejected is a
    function that receives the outcome of each statement it issues
    ([ok : bool]: the server accepts and executes it) and returns an [Exn]
    value where the source lets the error escape; [new Date()] and [NOW()]
    are explicit clock readings; tables of the MySQL schema are lists of
    row records, or a [gmap] from the primary key when rows are only
    addressed by key.

    Column values reach JavaScript the way the mysql2 driver delivers them
    with the connection options of the sources (none beyond the
    credentials): a [DECIMAL] column as its decimal text, so that [<] and
    [>] between two such values compare strings, while arithmetic
    converts the text to the number; a JSON column already parsed where
    the server has a native JSON type, and as its text where JSON is an
    alias of a text type; a bind parameter that is [undefined] makes
    [execute] reject the statement before it is sent.

    Property names looked up in the object literals of the sources (the
    tier and country tables) range over the strings that are not names of
    members of [Object.prototype]; [JS.Object_prototype_keys] lists
    those. *)

From stdpp Require Import gmap strings list pretty.
From Stdlib Require Import QArith Qround ZArith Lia Lqa.

Local Open Scope string_scope.
Local Open Scope Z_scope.

(* ===================================================================== *)
(** * Part I: the model                                                   *)
(* ===================================================================== *)

(** ** JavaScript primitives *)

Module JS.

(** Outcome of a call that may throw (a rejected promise). *)
Inductive Exn (A : Type) : Type :=
| Ok (a : A)
| Throw (msg : string).
Arguments Ok {A} a.
Arguments Throw {A} msg.

(** Sequencing ([await] of a call that may reject): written
    [x ← m; k] below. *)
#[global] Instance Exn_ret : MRet Exn := fun A a => Ok a.
#[global] Instance Exn_bind : MBind Exn := fun A B k m =>
  match m with
  | Ok a => k a
  | Throw e => Throw e
  end.

(** [try { body } catch (error) { handler }] *)
Definition try_catch {A} (body : Exn A) (handler : string -> A) : A :=
  match body with
  | Ok a => a
  | Throw e => handler e
  end.

(** [a < b] and [a > b] on numbers. *)
Definition Qltb (a b : Q) : bool := negb (Qle_bool b a).

(** [v || d] where [v] is a number or [undefined]: [0] and [undefined]
    are falsy. *)
Definition or_default (v : option Q) (d : Q) : Q :=
  match v with
  | Some x => if Qeq_bool x 0%Q then d else x
  | None => d
  end.

(** [v > c] where [v] may be [undefined] (the comparison is then false). *)
Definition gt (v : option Q) (c : Q) : bool :=
  match v with
  | Some x => Qltb c x
  | None => false
  end.

(** [v < c] where [v] may be [undefined]. *)
Definition lt (v : option Q) (c : Q) : bool :=
  match v with
  | Some x => Qltb x c
  | None => false
  end.

Definition Math_max (a b : Q) : Q := if Qle_bool a b then b else a.

(** [Math.round]: the nearest integer, halves rounded up. *)
Definition Math_round (x : Q) : Q := inject_Z (Qfloor (x + (1 # 2))).

(** Property read [obj[key]] where the key itself may be [undefined]. *)
Definition prop (obj : gmap string Q) (key : option string) : option Q :=
  match key with
  | Some k => obj !! k
  | None => None
  end.

(** The names every object literal inherits from [Object.prototype]: a
    read of one of them does not give [undefined]. *)
Definition Object_prototype_keys : list string :=
  ["constructor"; "hasOwnProperty"; "isPrototypeOf"; "propertyIsEnumerable";
   "toLocaleString"; "toString"; "valueOf"; "__proto__";
   "__defineGetter__"; "__defineSetter__"; "__lookupGetter__";
   "__lookupSetter__"].

(** [a < b] and [a > b] between two strings: the order of the code units. *)
Definition str_lt (a b : string) : bool := String.ltb a b.
Definition str_gt (a b : string) : bool := String.ltb b a.

(** [array.toString()] of an array of strings. *)
Definition Array_toString (l : list string) : string := String.concat "," l.

(** *** [JSON.parse]

    Only whether the text is accepted matters below; the recognizer
    follows the JSON grammar.  Characters are told apart by their code. *)

Definition code (c : Ascii.ascii) : nat := Ascii.nat_of_ascii c.

Definition is_ws (c : Ascii.ascii) : bool :=
  ((code c =? 9) || (code c =? 10) || (code c =? 13) || (code c =? 32))%nat.

Definition is_digit (c : Ascii.ascii) : bool :=
  ((48 <=? code c) && (code c <=? 57))%nat.

Definition is_hex (c : Ascii.ascii) : bool :=
  is_digit c
  || ((65 <=? code c) && (code c <=? 70))%nat
  || ((97 <=? code c) && (code c <=? 102))%nat.

(** The characters that may follow a backslash, [u] apart:
    quote, backslash, slash, b, f, n, r, t. *)
Definition is_escape (c : Ascii.ascii) : bool :=
  existsb (Nat.eqb (code c)) [34; 92; 47; 98; 102; 110; 114; 116]%nat.

Fixpoint skip_ws (s : string) : string :=
  match s with
  | String c r => if is_ws c then skip_ws r else s
  | EmptyString => s
  end.

Fixpoint skip_digits (s : string) : string :=
  match s with
  | String c r => if is_digit c then skip_digits r else s
  | EmptyString => s
  end.

(** One or more digits. *)
Definition digits (s : string) : option string :=
  match s with
  | String c r => if is_digit c then Some (skip_digits r) else None
  | EmptyString => None
  end.

Fixpoint strip_prefix (p s : string) : option string :=
  match p, s with
  | EmptyString, _ => Some s
  | String a p', String b s' =>
      if Ascii.eqb a b then strip_prefix p' s' else None
  | String _ _, EmptyString => None
  end.

(** A number: an optional minus sign; then 0, or a digit from 1 to 9
    followed by any digits; then, optionally, a point and one or more
    digits; then, optionally, e or E, an optional sign and one or more
    digits.  The rest of the text is returned. *)
Definition json_number (s : string) : option string :=
  let unsigned :=
    match s with
    | String c r => if (code c =? 45)%nat then r else s
    | EmptyString => s
    end in
  let int :=
    match unsigned with
    | String c r => if (code c =? 48)%nat then Some r else digits unsigned
    | EmptyString => None
    end in
  match int with
  | None => None
  | Some after_int =>
      let frac :=
        match after_int with
        | String c r => if (code c =? 46)%nat then digits r else Some after_int
        | EmptyString => Some after_int
        end in
      match frac with
      | None => None
      | Some after_frac =>
          match after_frac with
          | String c r =>
              if ((code c =? 101) || (code c =? 69))%nat then
                digits match r with
                       | String sign r' =>
                           if ((code sign =? 43) || (code sign =? 45))%nat
                           then r' else r
                       | EmptyString => r
                       end
              else Some after_frac
          | EmptyString => Some after_frac
          end
      end
  end.

(** The characters of a string after its opening quote, up to and
    including the closing quote. *)
Fixpoint json_string_body (s : string) : option string :=
  match s with
  | EmptyString => None
  | String c r =>
      if (code c =? 34)%nat then Some r
      else if (code c =? 92)%nat then
        match r with
        | String e r' =>
            if is_escape e then json_string_body r'
            else if (code e =? 117)%nat then
              match r' with
              | String h1 (String h2 (String h3 (String h4 r''))) =>
                  if is_hex h1 && is_hex h2 && is_hex h3 && is_hex h4
                  then json_string_body r'' else None
              | _ => None
              end
            else None
        | EmptyString => None
        end
      else if (code c <? 32)%nat then None
      else json_string_body r
  end.

(** What the recognizer is about to read: a value, the elements of an
    array after its bracket, or the members of an object after its brace
    (white space already skipped). *)
Inductive Expect := AValue | Elements | Members.

(** Every call reads at least one character before it calls itself with
    [AValue] or [Members], and [Elements] starts with a value: twice the
    length of the text bounds the depth of the calls. *)
Fixpoint json_read (fuel : nat) (e : Expect) (s : string) : option string :=
  match fuel with
  | O => None
  | S fuel =>
      match e with
      | AValue =>
          match s with
          | EmptyString => None
          | String c r =>
              if (code c =? 91)%nat then
                match skip_ws r with
                | String c' r' =>
                    if (code c' =? 93)%nat then Some r'
                    else json_read fuel Elements (String c' r')
                | EmptyString => None
                end
              else if (code c =? 123)%nat then
                match skip_ws r with
                | String c' r' =>
                    if (code c' =? 125)%nat then Some r'
                    else json_read fuel Members (String c' r')
                | EmptyString => None
                end
              else if (code c =? 34)%nat then json_string_body r
              else
                match strip_prefix "true" s with
                | Some r' => Some r'
                | None =>
                    match strip_prefix "false" s with
                    | Some r' => Some r'
                    | None =>
                        match strip_prefix "null" s with
                        | Some r' => Some r'
                        | None => json_number s
                        end
                    end
                end
          end
      | Elements =>
          match json_read fuel AValue s with
          | None => None
          | Some r =>
              match skip_ws r with
              | String c r' =>
                  if (code c =? 44)%nat then json_read fuel Elements (skip_ws r')
                  else if (code c =? 93)%nat then Some r'
                  else None
              | EmptyString => None
              end
          end
      | Members =>
          match s with
          | EmptyString => None
          | String c r =>
              if (code c =? 34)%nat then
                match json_string_body r with
                | None => None
                | Some r1 =>
                    match skip_ws r1 with
                    | String c1 r2 =>
                        if (code c1 =? 58)%nat then
                          match json_read fuel AValue (skip_ws r2) with
                          | None => None
                          | Some r3 =>
                              match skip_ws r3 with
                              | String c3 r4 =>
                                  if (code c3 =? 44)%nat
                                  then json_read fuel Members (skip_ws r4)
                                  else if (code c3 =? 125)%nat then Some r4
                                  else None
                              | EmptyString => None
                              end
                          end
                        else None
                    | EmptyString => None
                    end
                end
              else None
          end
      end
  end.

(** [JSON.parse(text)] does not throw. *)
Definition JSON_parse_ok (text : string) : bool :=
  match json_read (S (S (String.length text + String.length text)))
          AValue (skip_ws text) with
  | Some r =>
      match skip_ws r with
      | EmptyString => true
      | String _ _ => false
      end
  | None => false
  end.

End JS.

(** ** cpm-optimizer.js *)

Module CPMOptimizer.

Record Factors := {
  timeOfDay : gmap string Q;
  dayOfWeek : gmap string Q;
  userTier : gmap string Q;
  geographic : gmap string Q
}.

(** The tables set up by the constructor; nothing reassigns them
    ([recalculateOptimizationFactors] only logs). *)
Definition optimizationFactors : Factors := {|
  timeOfDay := list_to_map
    [("00-06", 0.8%Q);   (* Night - lower CPM *)
     ("06-12", 1.2%Q);   (* Morning - higher CPM *)
     ("12-18", 1.0%Q);   (* Afternoon - standard *)
     ("18-24", 1.1%Q)];  (* Evening - slightly higher *)
  dayOfWeek := list_to_map
    [("0", 0.9%Q); ("1", 1.0%Q); ("2", 1.0%Q); ("3", 1.0%Q);
     ("4", 1.0%Q); ("5", 1.1%Q); ("6", 1.2%Q)];
  userTier := list_to_map
    [("free", 1.0%Q); ("basic", 1.2%Q); ("premium", 1.5%Q);
     ("enterprise", 0.0%Q)];
  geographic := list_to_map
    [("US", 1.3%Q); ("GB", 1.2%Q); ("EU", 1.1%Q); ("ZA", 1.0%Q);
     ("default", 0.8%Q)]
|}.

(** One reading of the wall clock, [new Date()], in local time. *)
Record DateReading := {
  getHours : Z;   (* 0 .. 23 *)
  getDay : Z      (* 0 (Sunday) .. 6 *)
}.

Record UserBehavior := {
  adCompletionRate : option Q;
  avgSessionDuration : option Q;
  taskCompletionRate : option Q
}.

Record Context := {
  ctx_userTier : option string;
  ctx_country : option string;
  ctx_userBehavior : option UserBehavior
}.

Definition timeSlot (hour : Z) : string :=
  if (0 <=? hour) && (hour <? 6) then "00-06"
  else if (6 <=? hour) && (hour <? 12) then "06-12"
  else if (12 <=? hour) && (hour <? 18) then "12-18"
  else "18-24".

Definition getTimeOfDayFactor (now : DateReading) : Q :=
  let hour := getHours now in
  JS.or_default (timeOfDay optimizationFactors !! timeSlot hour) 1.0.

Definition getDayOfWeekFactor (now : DateReading) : Q :=
  let day := getDay now in
  JS.or_default (dayOfWeek optimizationFactors !! pretty day) 1.0.

Definition getUserTierFactor (tier : option string) : Q :=
  JS.or_default (JS.prop (userTier optimizationFactors) tier) 1.0.

(** [geographic[country] || geographic.default]; the key ["default"] is
    present in the table, the last default only types the expression. *)
Definition getGeographicFactor (country : option string) : Q :=
  JS.or_default (JS.prop (geographic optimizationFactors) country)
    (default 0%Q (geographic optimizationFactors !! "default")).

Definition emptyBehavior : UserBehavior :=
  {| adCompletionRate := None;
     avgSessionDuration := None;
     taskCompletionRate := None |}.

Definition getBehavioralFactor (userBehavior : option UserBehavior) : Q :=
  let ub := default emptyBehavior userBehavior in
  let factor := 1.0%Q in
  let factor :=
    if JS.gt (adCompletionRate ub) 0.8 then (factor * 1.2)%Q
    else if JS.lt (adCompletionRate ub) 0.3 then (factor * 0.8)%Q
    else factor in
  let factor :=
    if JS.gt (avgSessionDuration ub) 600%Q then (factor * 1.1)%Q
    else factor in
  let factor :=
    if JS.gt (taskCompletionRate ub) 0.7 then (factor * 1.15)%Q
    else factor in
  factor.

(** [calculateOptimalCPM(baseCPM, context)].  The two clock readings are
    the [new Date()] of [getTimeOfDayFactor] and of [getDayOfWeekFactor],
    in the order the method takes them. *)
Definition calculateOptimalCPM
    (now1 now2 : DateReading) (baseCPM : Q) (context : Context) : Q :=
  let optimizedCPM := baseCPM in
  let optimizedCPM := (optimizedCPM * getTimeOfDayFactor now1)%Q in
  let optimizedCPM := (optimizedCPM * getDayOfWeekFactor now2)%Q in
  let optimizedCPM :=
    (optimizedCPM * getUserTierFactor (ctx_userTier context))%Q in
  let optimizedCPM :=
    (optimizedCPM * getGeographicFactor (ctx_country context))%Q in
  let optimizedCPM :=
    (optimizedCPM * getBehavioralFactor (ctx_userBehavior context))%Q in
  let optimizedCPM := JS.Math_max optimizedCPM (baseCPM * 0.5)%Q in
  (JS.Math_round (optimizedCPM * 100) / 100)%Q.

(** *** The performance history *)

(** The argument of [recordAdPerformance]; its own [timestamp], when it
    has one, overrides the clock (it is spread after it). *)
Record AdPerformance := {
  perf_timestamp : option Z;
  perf_revenue : Q;
  perf_completed : bool;
  perf_context : option Context
}.

(** An element of [this.historicalData]. *)
Record HistoryRecord := {
  h_timestamp : Z;
  h_revenue : Q;
  h_completed : bool;
  h_context : option Context
}.

(** [array.slice(-n)] *)
Definition slice_last {A} (n : nat) (l : list A) : list A :=
  drop (length l - n) l.

(** [recordAdPerformance(adPerformance)]: the new history.  The periodic
    [recalculateOptimizationFactors] only logs. *)
Definition recordAdPerformance
    (now : Z) (historicalData : list HistoryRecord) (p : AdPerformance)
  : list HistoryRecord :=
  let pushed :=
    (historicalData ++
       [{| h_timestamp := default now (perf_timestamp p);
           h_revenue := perf_revenue p;
           h_completed := perf_completed p;
           h_context := perf_context p |}])%list in
  if (1000 <? length pushed)%nat then slice_last 1000 pushed else pushed.

(** The object returned by [getPerformanceMetrics]; the empty case has no
    [timeframe] property. *)
Record Metrics := {
  totalImpressions : Z;
  totalRevenue : Q;
  avgCPM : Q;
  completionRate : Q;
  m_timeframe : option string
}.

(** Days subtracted from the clock by the [switch] on [timeframe]. *)
Definition window_days (timeframe : string) : Z :=
  if String.eqb timeframe "24h" then 1
  else if String.eqb timeframe "7d" then 7
  else if String.eqb timeframe "30d" then 30
  else 7.

(** The records not older than the cutoff ([now] in seconds). *)
Definition recentData
    (now : Z) (timeframe : string) (historicalData : list HistoryRecord)
  : list HistoryRecord :=
  let cutoffDate := now - window_days timeframe * 86400 in
  List.filter (fun record => cutoffDate <=? h_timestamp record) historicalData.

(** [getPerformanceMetrics(timeframe = '7d')] *)
Definition getPerformanceMetrics
    (now : Z) (historicalData : list HistoryRecord) (timeframe : option string)
  : Metrics :=
  let timeframe := default "7d" timeframe in
  let recent := recentData now timeframe historicalData in
  if (length recent =? 0)%nat then
    {| totalImpressions := 0; totalRevenue := 0%Q; avgCPM := 0%Q;
       completionRate := 0%Q; m_timeframe := None |}
  else
    let totalImpressions := Z.of_nat (length recent) in
    let totalRevenue :=
      fold_left (fun sum record => (sum + h_revenue record)%Q) recent 0%Q in
    let completions :=
      Z.of_nat (length (List.filter h_completed recent)) in
    {| totalImpressions := totalImpressions;
       totalRevenue := totalRevenue;
       avgCPM :=
         if 0 <? totalImpressions
         then (totalRevenue / inject_Z totalImpressions * 1000)%Q else 0%Q;
       completionRate :=
         if 0 <? totalImpressions
         then (inject_Z completions / inject_Z totalImpressions * 100)%Q
         else 0%Q;
       m_timeframe := Some timeframe |}.

End CPMOptimizer.

(** ** The MySQL schema (migrations/001-initial-schema.sql) *)

Module Store.

(** [TIMESTAMP] and [NOW()] values are seconds since the epoch; [DATE]
    columns and [CURDATE()] are day numbers. *)
Definition Timestamp := Z.
Definition Date := Z.

Definition DATE (t : Timestamp) : Date := t / 86400.
Definition CURDATE (now : Timestamp) : Date := DATE now.

(** A [DATE] compared with a [DATETIME], or read as a JavaScript [Date]:
    the midnight that starts the day. *)
Definition midnight (d : Date) : Timestamp := d * 86400.

(** SQL integer arithmetic on nullable columns. *)
Definition sql_add (x : option Z) (n : Z) : option Z := (fun v => v + n) <$> x.
Definition COALESCE (x : option Z) (d : Z) : option Z := Some (default d x).

(** Storing into a [DECIMAL(_, scale)] column rounds half away from zero. *)
Definition DECIMAL (scale : Z) (x : Q) : Q :=
  let m := inject_Z (10 ^ scale) in
  let y := (x * m)%Q in
  if Qle_bool 0 y
  then (inject_Z (Qfloor (y + (1 # 2))) / m)%Q
  else (inject_Z (- Qfloor (- y + (1 # 2))) / m)%Q.

(** The text of a [DECIMAL(_, scale)] value, which is what the driver
    hands to JavaScript: an optional minus sign, the integer digits, and
    [scale] digits after the point.  A row holds in such a column a value
    of that scale (every write goes through [DECIMAL]); any other value
    is rendered as storing it would round it. *)
Fixpoint fraction_digits (scale : nat) (r : Z) : string :=
  match scale with
  | O => ""
  | S k => fraction_digits k (r / 10) +:+ pretty (r mod 10)
  end.

Definition decimal_text (scale : nat) (x : Q) : string :=
  let m := 10 ^ Z.of_nat scale in
  let y := (x * inject_Z m)%Q in
  let units :=
    if Qle_bool 0 y then Qfloor (y + (1 # 2)) else - Qfloor (- y + (1 # 2)) in
  (if units <? 0 then "-" else "")
  +:+ pretty (Z.abs units / m)
  +:+ (if (scale =? 0)%nat then ""
       else "." +:+ fraction_digits scale (Z.abs units mod m)).

(** [users] *)
Record UserRow := {
  user_id : Z;
  email : string;
  password_hash : string;
  first_name : option string;
  last_name : option string;
  country : string;
  timezone : string;
  subscription_tier : string;
  subscription_status : string;
  tasks_today : option Z;
  last_task_date : option Date;
  ads_today : option Z;
  last_ad_date : option Date;
  total_ads : option Z;
  last_ad_task_count : option Z;
  user_created_at : Timestamp;
  user_updated_at : Timestamp   (* ON UPDATE CURRENT_TIMESTAMP *)
}.

#[global] Instance UserRow_eq_dec : EqDecision UserRow.
Proof. solve_decision. Defined.

(** [tasks] *)
Record TaskRow := {
  task_id : string;
  task_user_id : Z;
  task_type : string;
  task_data : string;
  result_data : string;
  task_status : string;
  task_created_at : Timestamp;
  task_completed_at : option Timestamp
}.

(** [task_usage] *)
Record TaskUsageRow := {
  usage_user_id : Z;
  usage_tier : string;
  usage_task_type : string;
  usage_created_at : Timestamp
}.

Inductive CampaignStatus := active | paused | completed | cancelled.

#[global] Instance CampaignStatus_eq_dec : EqDecision CampaignStatus.
Proof. solve_decision. Defined.

(** [ad_campaigns].  [budget] is [NOT NULL] in the schema; the selector
    still tests it against [null], so the field is kept nullable here.
    The statistics columns have [DEFAULT 0] and are only ever
    incremented. *)
Record CampaignRow := {
  campaign_id : Z;
  name : string;
  advertiser : string;
  cpm : Q;
  duration : Z;
  target_audience : list string;   (* JSON array of target tiers *)
  content_url : string;
  start_date : Date;
  end_date : option Date;
  budget : option Q;
  status : CampaignStatus;
  impressions : Z;
  completions : Z;
  revenue : Q;
  campaign_created_at : Timestamp;
  campaign_updated_at : Timestamp
}.

(** [ad_impressions] *)
Record ImpressionRow := {
  impression_id : Z;
  imp_campaign_id : Z;
  imp_user_id : Z;
  tracking_id : option string;
  imp_revenue : Q;
  imp_completed : bool;
  completed_at : option Timestamp;
  impression_date : Date;
  imp_created_at : Timestamp
}.

(** The database.  [users] is keyed by its primary key; the other tables
    keep their rows in insertion order, which is also the order in which
    a [SELECT] without [ORDER BY] is taken to return them.  [native_json]
    tells how the server declares the JSON column [target_audience]: as a
    native JSON type (MySQL; the driver then hands the column over
    already parsed) or as an alias of a text type (MariaDB; the driver
    hands over the text). *)
Record Db := {
  users : gmap Z UserRow;
  tasks : list TaskRow;
  task_usage : list TaskUsageRow;
  ad_campaigns : list CampaignRow;
  ad_impressions : list ImpressionRow;
  native_json : bool
}.

Definition with_users (db : Db) (u : gmap Z UserRow) : Db :=
  {| users := u; tasks := tasks db; task_usage := task_usage db;
     ad_campaigns := ad_campaigns db; ad_impressions := ad_impressions db;
     native_json := native_json db |}.

Definition with_tasks (db : Db) (t : list TaskRow) : Db :=
  {| users := users db; tasks := t; task_usage := task_usage db;
     ad_campaigns := ad_campaigns db; ad_impressions := ad_impressions db;
     native_json := native_json db |}.

Definition with_task_usage (db : Db) (t : list TaskUsageRow) : Db :=
  {| users := users db; tasks := tasks db; task_usage := t;
     ad_campaigns := ad_campaigns db; ad_impressions := ad_impressions db;
     native_json := native_json db |}.

Definition with_ad_campaigns (db : Db) (c : list CampaignRow) : Db :=
  {| users := users db; tasks := tasks db; task_usage := task_usage db;
     ad_campaigns := c; ad_impressions := ad_impressions db;
     native_json := native_json db |}.

Definition with_ad_impressions (db : Db) (i : list ImpressionRow) : Db :=
  {| users := users db; tasks := tasks db; task_usage := task_usage db;
     ad_campaigns := ad_campaigns db; ad_impressions := i;
     native_json := native_json db |}.

Definition with_native_json (db : Db) (native : bool) : Db :=
  {| users := users db; tasks := tasks db; task_usage := task_usage db;
     ad_campaigns := ad_campaigns db; ad_impressions := ad_impressions db;
     native_json := native |}.

(** [UPDATE t SET ... WHERE cond] on a list table, with the number of
    matched rows (what the driver reports as [affectedRows]). *)
Definition update_where {A} (cond : A -> bool) (upd : A -> A) (t : list A)
  : list A :=
  (fun r => if cond r then upd r else r) <$> t.

Definition matched {A} (cond : A -> bool) (t : list A) : Z :=
  Z.of_nat (length (List.filter cond t)).

(** Next [AUTO_INCREMENT] value of [ad_impressions.id]. *)
Definition next_impression_id (t : list ImpressionRow) : Z :=
  foldr (fun r m => Z.max (impression_id r + 1) m) 1 t.

End Store.

(** ** The ad campaign model (class [AdCampaignModel]) *)

Module AdCampaignModel.
Import JS Store.

(** [ad.id]: the numeric key of a campaign row, or the string id of the
    fallback object. *)
Inductive AdId :=
| NumId (n : Z)
| StrId (s : string).

(** [JSON_CONTAINS(target_audience, JSON.stringify(audienceTier))] on a
    JSON array of strings. *)
Definition JSON_CONTAINS (target : list string) (candidate : string) : bool :=
  existsb (String.eqb candidate) target.

(** [JSON.parse(row.target_audience)] does not throw.  Where the JSON
    type is native the driver has parsed the column, and [JSON.parse]
    receives the array, which it first converts to a string; where the
    column is text, the text is a JSON document and is accepted. *)
Definition parses (db : Db) (row : CampaignRow) : bool :=
  if native_json db
  then JSON_parse_ok (Array_toString (target_audience row))
  else true.

(** [rows.map(row => ({...row, target_audience: JSON.parse(...)}))]: the
    call throws at the first row that does not parse.  The parsed value
    replaces a property that no caller reads; the rows are returned as
    they are stored. *)
Definition parse_rows (db : Db) (rows : list CampaignRow)
  : Exn (list CampaignRow) :=
  if forallb (parses db) rows then Ok rows
  else Throw "SyntaxError: Unexpected token in JSON".

(** [getCampaignsByAudience(audienceTier)]; [ok] tells whether the
    connection and the query succeed, [now] is the server's [NOW()]. *)
Definition getCampaignsByAudience
    (ok : bool) (now : Timestamp) (db : Db) (audienceTier : string)
  : Exn (list CampaignRow) :=
  if ok then
    parse_rows db
      (List.filter
         (fun c =>
            bool_decide (status c = active)
            && (midnight (start_date c) <=? now)
            && match end_date c with
               | None => true
               | Some e => now <=? midnight e
               end
            && JSON_CONTAINS (target_audience c) audienceTier)
         (ad_campaigns db))
  else Throw "ER_CONNECTION".

(** [recordImpression(campaignId, userId, revenue)]: an [INSERT] into
    [ad_impressions], then an [UPDATE] of the campaign statistics, on one
    connection without a transaction.  [ok1] and [ok2] tell whether the
    first and the second statement succeed.  A string id cannot be stored
    in the [INT] foreign key [campaign_id]: the [INSERT] is rejected. *)
Definition recordImpression
    (ok1 ok2 : bool) (now : Timestamp) (db : Db)
    (campaignId : AdId) (userId : Z) (revenue : Q)
  : Exn Z * Db :=
  match campaignId with
  | StrId _ => (Throw "ER_TRUNCATED_WRONG_VALUE_FOR_FIELD", db)
  | NumId cid =>
      if negb ok1 then (Throw "ER_INSERT", db)
      else
        let insertId := next_impression_id (ad_impressions db) in
        let row :=
          {| impression_id := insertId;
             imp_campaign_id := cid;
             imp_user_id := userId;
             tracking_id := None;
             imp_revenue := DECIMAL 4 revenue;
             imp_completed := false;
             completed_at := None;
             impression_date := CURDATE now;
             imp_created_at := now |} in
        let db1 := with_ad_impressions db (ad_impressions db ++ [row]) in
        if negb ok2 then (Throw "ER_UPDATE", db1)
        else
          let bump c :=
            {| campaign_id := campaign_id c; name := name c;
               advertiser := advertiser c; cpm := cpm c;
               duration := duration c;
               target_audience := target_audience c;
               content_url := content_url c; start_date := start_date c;
               end_date := end_date c; budget := budget c;
               status := status c;
               impressions := impressions c + 1;
               completions := completions c;
               revenue := DECIMAL 2 (Store.revenue c + revenue);
               campaign_created_at := campaign_created_at c;
               campaign_updated_at := now |} in
          (Ok insertId,
           with_ad_campaigns db1
             (update_where (fun c => campaign_id c =? cid) bump
                (ad_campaigns db1)))
  end.

(** [SELECT campaign_id FROM ad_impressions WHERE id = ?] *)
Definition campaign_of_impression (db : Db) (impressionId : Z) : option Z :=
  imp_campaign_id <$>
    List.find (fun i => impression_id i =? impressionId) (ad_impressions db).

(** [recordCompletion(impressionId)]: marks the impression, then
    increments the completions of its campaign; [WHERE id = NULL] matches
    no row. *)
Definition recordCompletion
    (ok1 ok2 : bool) (now : Timestamp) (db : Db) (impressionId : Z)
  : Exn bool * Db :=
  if negb ok1 then (Throw "ER_UPDATE", db)
  else
    let hit i := impression_id i =? impressionId in
    let mark i :=
      {| impression_id := impression_id i;
         imp_campaign_id := imp_campaign_id i;
         imp_user_id := imp_user_id i;
         tracking_id := tracking_id i;
         imp_revenue := imp_revenue i;
         imp_completed := true;
         completed_at := Some now;
         impression_date := impression_date i;
         imp_created_at := imp_created_at i |} in
    let affectedRows := matched hit (ad_impressions db) in
    let db1 :=
      with_ad_impressions db (update_where hit mark (ad_impressions db)) in
    if negb ok2 then (Throw "ER_UPDATE", db1)
    else
      let target := campaign_of_impression db1 impressionId in
      let bump c :=
        {| campaign_id := campaign_id c; name := name c;
           advertiser := advertiser c; cpm := cpm c;
           duration := duration c;
           target_audience := target_audience c;
           content_url := content_url c; start_date := start_date c;
           end_date := end_date c; budget := budget c;
           status := status c;
           impressions := impressions c;
           completions := completions c + 1;
           revenue := revenue c;
           campaign_created_at := campaign_created_at c;
           campaign_updated_at := now |} in
      (Ok (0 <? affectedRows),
       with_ad_campaigns db1
         (update_where
            (fun c => match target with
                      | Some cid => campaign_id c =? cid
                      | None => false
                      end)
            bump (ad_campaigns db1))).

(** [getActiveCampaigns()] *)
Definition getActiveCampaigns (ok : bool) (now : Timestamp) (db : Db)
  : Exn (list CampaignRow) :=
  if ok then
    parse_rows db
      (List.filter
         (fun c =>
            bool_decide (status c = active)
            && (midnight (start_date c) <=? now)
            && match end_date c with
               | None => true
               | Some e => now <=? midnight e
               end)
         (ad_campaigns db))
  else Throw "ER_CONNECTION".

(** [UPDATE ad_campaigns SET status = ?, updated_at = NOW() WHERE id = ?] *)
Definition set_status
    (st : CampaignStatus) (now : Timestamp) (cid : Z) (db : Db) : Db :=
  with_ad_campaigns db
    (update_where (fun c => campaign_id c =? cid)
       (fun c =>
          {| campaign_id := campaign_id c; name := name c;
             advertiser := advertiser c; cpm := cpm c;
             duration := duration c;
             target_audience := target_audience c;
             content_url := content_url c; start_date := start_date c;
             end_date := end_date c; budget := budget c;
             status := st;
             impressions := impressions c;
             completions := completions c;
             revenue := revenue c;
             campaign_created_at := campaign_created_at c;
             campaign_updated_at := now |})
       (ad_campaigns db)).

(** [pauseCampaign(campaignId)] *)
Definition pauseCampaign
    (ok : bool) (now : Timestamp) (db : Db) (campaignId : Z)
  : Exn bool * Db :=
  if negb ok then (Throw "ER_CONNECTION", db)
  else
    (Ok (0 <? matched (fun c => campaign_id c =? campaignId) (ad_campaigns db)),
     set_status paused now campaignId db).

(** [resumeCampaign(campaignId)] *)
Definition resumeCampaign
    (ok : bool) (now : Timestamp) (db : Db) (campaignId : Z)
  : Exn bool * Db :=
  if negb ok then (Throw "ER_CONNECTION", db)
  else
    (Ok (0 <? matched (fun c => campaign_id c =? campaignId) (ad_campaigns db)),
     set_status active now campaignId db).

End AdCampaignModel.

(** ** ad-manager.js (class [PremiumAdManager]) *)

Module PremiumAdManager.
Import JS Store AdCampaignModel.

Record Frequency := { tasksPerAd : Z; maxAdsPerDay : Z }.

Definition adFrequency : gmap string Frequency := list_to_map
  [("free", {| tasksPerAd := 2; maxAdsPerDay := 10 |});
   ("basic", {| tasksPerAd := 5; maxAdsPerDay := 8 |});
   ("premium", {| tasksPerAd := 200; maxAdsPerDay := 1 |});
   ("enterprise", {| tasksPerAd := 0; maxAdsPerDay := 0 |})].

(** The [userStats] object; a missing property is [None]. *)
Record UserStats := {
  tasksCount : option Z;
  lastAdTaskCount : option Z;
  adsToday : option Z
}.

Definition shouldServeAd (userTier : string) (userStats : UserStats) : bool :=
  match adFrequency !! userTier with
  | None => false
  | Some frequency =>
      if tasksPerAd frequency =? 0 then false
      else
        let tasksSinceLastAd :=
          default 0 (tasksCount userStats)
          - default 0 (lastAdTaskCount userStats) in
        let adsToday := default 0 (adsToday userStats) in
        (tasksPerAd frequency <=? tasksSinceLastAd)
        && (adsToday <? maxAdsPerDay frequency)
  end.

(** The object literal returned by [getFallbackAd]. *)
Record FallbackAd := {
  fb_id : string;
  fb_content_url : string;
  fb_duration : Z;
  fb_cpm : Q;
  fb_name : string;
  fb_advertiser : string
}.

(** What [selectAd] resolves to: a campaign row or the fallback object. *)
Inductive Ad :=
| CampaignAd (c : CampaignRow)
| Fallback (f : FallbackAd).

Definition ad_id (ad : Ad) : AdId :=
  match ad with
  | CampaignAd c => NumId (campaign_id c)
  | Fallback f => StrId (fb_id f)
  end.

Definition ad_cpm (ad : Ad) : Q :=
  match ad with
  | CampaignAd c => cpm c
  | Fallback f => fb_cpm f
  end.

Definition ad_content_url (ad : Ad) : string :=
  match ad with
  | CampaignAd c => content_url c
  | Fallback f => fb_content_url f
  end.

Definition ad_duration (ad : Ad) : Z :=
  match ad with
  | CampaignAd c => duration c
  | Fallback f => fb_duration f
  end.

Definition getFallbackAd : Ad :=
  Fallback {| fb_id := "fallback";
              fb_content_url := "https://cdn.example.com/ads/fallback-ad.mp4";
              fb_duration := 30;
              fb_cpm := 50.00;
              fb_name := "Fallback Ad";
              fb_advertiser := "AI Orchestrator" |}.

(** [Array.prototype.reduce] without an initial value. *)
Definition reduce {A} (f : A -> A -> A) (l : list A) : Exn A :=
  match l with
  | [] => Throw "TypeError: Reduce of empty array with no initial value"
  | x :: rest => Ok (fold_left f rest x)
  end.

(** [campaign.cpm], [campaign.budget] and [campaign.revenue] as the
    driver delivers the [DECIMAL(10,2)] columns. *)
Definition cpm_text (campaign : CampaignRow) : string :=
  decimal_text 2 (cpm campaign).

Definition revenue_text (campaign : CampaignRow) : string :=
  decimal_text 2 (revenue campaign).

(** The filter callback of [selectAd]; [now] is its [new Date()].  Both
    operands of [campaign.revenue < campaign.budget] are strings. *)
Definition available (now : Timestamp) (campaign : CampaignRow) : bool :=
  bool_decide (status campaign = active)
  && match budget campaign with
     | None => true
     | Some b => str_lt (revenue_text campaign) (decimal_text 2 b)
     end
  && match end_date campaign with
     | None => true
     | Some e => now <=? midnight e
     end.

(** The callback of the [reduce]: [(prev.cpm > current.cpm) ? prev :
    current], again between two strings. *)
Definition higherCPM (prev current : CampaignRow) : CampaignRow :=
  if str_gt (cpm_text prev) (cpm_text current) then prev else current.

(** [selectAd(userTier)].  [ok] and [now_sql] belong to the catalog query,
    [now_js] is the clock of the filter callback. *)
Definition selectAd
    (ok : bool) (now_sql now_js : Timestamp) (db : Db) (userTier : string)
  : Ad :=
  try_catch
    (campaigns ← getCampaignsByAudience ok now_sql db userTier;
     if (length campaigns =? 0)%nat then Ok getFallbackAd
     else
       let availableCampaigns := List.filter (available now_js) campaigns in
       if (length availableCampaigns =? 0)%nat then Ok getFallbackAd
       else
         selectedCampaign ← reduce higherCPM availableCampaigns;
         Ok (CampaignAd selectedCampaign))
    (fun _ => getFallbackAd).

(** [trackingId] of a served ad: the [insertId] of the impression row, or
    the string built locally when recording fails. *)
Inductive TrackingId :=
| InsertId (n : Z)
| LocalId (s : string).

(** [trackImpression(userId, ad)]; [rnd] stands for the random suffix. *)
Definition trackImpression
    (ok1 ok2 : bool) (now : Timestamp) (rnd : string) (db : Db)
    (userId : Z) (ad : Ad)
  : TrackingId * Db :=
  let revenue := (ad_cpm ad / 1000)%Q in
  match recordImpression ok1 ok2 now db (ad_id ad) userId revenue with
  | (Ok impressionId, db') => (InsertId impressionId, db')
  | (Throw _, db') =>
      (LocalId ("tracking_" +:+ pretty now +:+ "_" +:+ rnd), db')
  end.

(** [updateUserAdStats(userId, currentTaskCount)]; a failed statement is
    logged and swallowed. *)
Definition updateUserAdStats
    (ok : bool) (now : Timestamp) (db : Db) (userId : Z)
    (currentTaskCount : Z)
  : Db :=
  if ok then
    with_users db
      (alter
         (fun u =>
            {| user_id := user_id u; email := email u;
               password_hash := password_hash u;
               first_name := first_name u; last_name := last_name u;
               country := country u; timezone := timezone u;
               subscription_tier := subscription_tier u;
               subscription_status := subscription_status u;
               tasks_today := tasks_today u;
               last_task_date := last_task_date u;
               ads_today := sql_add (COALESCE (ads_today u) 0) 1;
               last_ad_date := Some (CURDATE now);
               total_ads := sql_add (COALESCE (total_ads u) 0) 1;
               last_ad_task_count := Some currentTaskCount;
               user_created_at := user_created_at u;
               user_updated_at := now |})
         userId (users db))
  else db.

(** The object returned by [serveAd]. *)
Inductive AdResult :=
| NoAd                               (* { adRequired: false } *)
| AdRequired (adContent : string) (adDuration : Z) (adCpm : Q)
             (campaignId : AdId) (trackingId : TrackingId).

Definition adRequired (r : AdResult) : bool :=
  match r with
  | NoAd => false
  | AdRequired _ _ _ _ _ => true
  end.

(** What one call of [serveAd] takes from outside: the outcome of each
    statement it issues and the clock readings. *)
Record ServeEnv := {
  select_ok : bool;
  select_now_sql : Timestamp;
  select_now_js : Timestamp;
  insert_ok : bool;
  update_ok : bool;
  track_now : Timestamp;
  track_rnd : string;
  stats_ok : bool;
  stats_now : Timestamp
}.

(** [serveAd(userId, userTier, userStats)].  Every callee catches its own
    errors and [selectAd] always yields an object, so neither the
    [if (!ad)] branch nor the outer [catch] is taken. *)
Definition serveAd
    (env : ServeEnv) (db : Db) (userId : Z) (userTier : string)
    (userStats : UserStats)
  : AdResult * Db :=
  if negb (shouldServeAd userTier userStats) then (NoAd, db)
  else
    let ad :=
      selectAd (select_ok env) (select_now_sql env) (select_now_js env)
        db userTier in
    let '(impressionId, db1) :=
      trackImpression (insert_ok env) (update_ok env) (track_now env)
        (track_rnd env) db userId ad in
    let db2 :=
      updateUserAdStats (stats_ok env) (stats_now env) db1 userId
        (default 0 (tasksCount userStats)) in
    (AdRequired (ad_content_url ad) (ad_duration ad) (ad_cpm ad)
       (ad_id ad) impressionId,
     db2).

(** [getActiveCampaigns()] of the manager: a failed query gives [[]]. *)
Definition getActiveCampaigns (ok : bool) (now : Timestamp) (db : Db)
  : list CampaignRow :=
  try_catch (AdCampaignModel.getActiveCampaigns ok now db) (fun _ => []).

(** The object returned by [optimizeAdServing]: a copy of the base
    frequency, empty when the tier is unknown. *)
Record OptimizedFrequency := {
  opt_tasksPerAd : option Z;
  opt_maxAdsPerDay : option Z
}.

(** [optimizeAdServing(userId, userTier, userBehavior = {})]; reading a
    property of the [undefined] base frequency throws. *)
Definition optimizeAdServing
    (userTier : string) (userBehavior : option CPMOptimizer.UserBehavior)
  : Exn OptimizedFrequency :=
  let ub := default CPMOptimizer.emptyBehavior userBehavior in
  let baseFrequency := adFrequency !! userTier in
  let optimizedFrequency :=
    {| opt_tasksPerAd := tasksPerAd <$> baseFrequency;
       opt_maxAdsPerDay := maxAdsPerDay <$> baseFrequency |} in
  step1 ←
    (if JS.gt (CPMOptimizer.avgSessionDuration ub) 300%Q then
       match baseFrequency with
       | None => Throw "TypeError: Cannot read properties of undefined"
       | Some base =>
           Ok {| opt_tasksPerAd := Some (Z.max 1 (tasksPerAd base - 1));
                 opt_maxAdsPerDay := opt_maxAdsPerDay optimizedFrequency |}
       end
     else Ok optimizedFrequency);
  if JS.gt (CPMOptimizer.adCompletionRate ub) 0.8%Q then
    match baseFrequency with
    | None => Throw "TypeError: Cannot read properties of undefined"
    | Some base =>
        Ok {| opt_tasksPerAd := opt_tasksPerAd step1;
              opt_maxAdsPerDay := Some (Z.min 15 (maxAdsPerDay base + 2)) |}
    end
  else Ok step1.

(** [a - b] and [Math.min] where [null] counts as 0. *)
Definition remainingBudget (campaign : CampaignRow) : Q :=
  (default 0%Q (budget campaign) - revenue campaign)%Q.

Definition Math_min (a b : Q) : Q := if Qle_bool a b then a else b.

(** [predictRevenue(timeframe = 'monthly')] *)
Definition predictRevenue
    (ok : bool) (now : Timestamp) (db : Db) (timeframe : string) : Q :=
  let campaigns := getActiveCampaigns ok now db in
  fold_left
    (fun predictedRevenue campaign =>
       let dailyImpressions := (inject_Z (impressions campaign) / 30)%Q in
       let daysInTimeframe :=
         if String.eqb timeframe "monthly" then 30%Q else 7%Q in
       let campaignRevenue :=
         (cpm campaign / 1000 * dailyImpressions * daysInTimeframe)%Q in
       (predictedRevenue
        + Math_min campaignRevenue (remainingBudget campaign))%Q)
    campaigns 0%Q.

End PremiumAdManager.

(** ** The user model (class [UserModel]) *)

Module UserModel.
Import JS Store.

(** A row written by an [UPDATE] that does not assign [updated_at]: the
    column is refreshed ([ON UPDATE CURRENT_TIMESTAMP]) exactly when some
    other column changes its value. *)
Definition on_update (now : Timestamp) (old new : UserRow) : UserRow :=
  if decide (old = new) then old
  else
    {| user_id := user_id new; email := email new;
       password_hash := password_hash new;
       first_name := first_name new; last_name := last_name new;
       country := country new; timezone := timezone new;
       subscription_tier := subscription_tier new;
       subscription_status := subscription_status new;
       tasks_today := tasks_today new;
       last_task_date := last_task_date new;
       ads_today := ads_today new;
       last_ad_date := last_ad_date new;
       total_ads := total_ads new;
       last_ad_task_count := last_ad_task_count new;
       user_created_at := user_created_at new;
       user_updated_at := now |}.

(** [incrementTaskCount(userId)] *)
Definition incrementTaskCount
    (ok : bool) (now : Timestamp) (db : Db) (userId : Z)
  : Exn bool * Db :=
  if negb ok then (Throw "ER_CONNECTION", db)
  else
    (Ok (bool_decide (is_Some (users db !! userId))),
     with_users db
       (alter
          (fun u =>
             {| user_id := user_id u; email := email u;
                password_hash := password_hash u;
                first_name := first_name u; last_name := last_name u;
                country := country u; timezone := timezone u;
                subscription_tier := subscription_tier u;
                subscription_status := subscription_status u;
                tasks_today := sql_add (tasks_today u) 1;
                last_task_date := last_task_date u;
                ads_today := ads_today u;
                last_ad_date := last_ad_date u;
                total_ads := total_ads u;
                last_ad_task_count := last_ad_task_count u;
                user_created_at := user_created_at u;
                user_updated_at := now |})
          userId (users db))).

(** [WHERE DATE(updated_at) < CURDATE()] *)
Definition stale (now : Timestamp) (u : UserRow) : bool :=
  DATE (user_updated_at u) <? CURDATE now.

(** [SET tasks_today = 0, ads_today = 0] *)
Definition zero_counts (u : UserRow) : UserRow :=
  {| user_id := user_id u; email := email u;
     password_hash := password_hash u;
     first_name := first_name u; last_name := last_name u;
     country := country u; timezone := timezone u;
     subscription_tier := subscription_tier u;
     subscription_status := subscription_status u;
     tasks_today := Some 0;
     last_task_date := last_task_date u;
     ads_today := Some 0;
     last_ad_date := last_ad_date u;
     total_ads := total_ads u;
     last_ad_task_count := last_ad_task_count u;
     user_created_at := user_created_at u;
     user_updated_at := user_updated_at u |}.

Definition reset_row (now : Timestamp) (u : UserRow) : UserRow :=
  if stale now u then on_update now u (zero_counts u) else u.

(** [resetDailyCounts()]: resolves to the number of matched rows. *)
Definition resetDailyCounts (ok : bool) (now : Timestamp) (db : Db)
  : Exn Z * Db :=
  if negb ok then (Throw "ER_CONNECTION", db)
  else
    (Ok (Z.of_nat (size (filter (fun kv => stale now kv.2 = true) (users db)))),
     with_users db (reset_row now <$> users db)).

(** The columns [updateUser] accepts. *)
Definition allowedFields : list string :=
  ["first_name"; "last_name"; "country"; "timezone";
   "subscription_tier"; "subscription_status"].

(** [SET key = value] for one accepted column. *)
Definition assign (u : UserRow) (kv : string * string) : UserRow :=
  let '(key, value) := kv in
  {| user_id := user_id u; email := email u;
     password_hash := password_hash u;
     first_name :=
       if String.eqb key "first_name" then Some value else first_name u;
     last_name :=
       if String.eqb key "last_name" then Some value else last_name u;
     country := if String.eqb key "country" then value else country u;
     timezone := if String.eqb key "timezone" then value else timezone u;
     subscription_tier :=
       if String.eqb key "subscription_tier" then value
       else subscription_tier u;
     subscription_status :=
       if String.eqb key "subscription_status" then value
       else subscription_status u;
     tasks_today := tasks_today u;
     last_task_date := last_task_date u;
     ads_today := ads_today u;
     last_ad_date := last_ad_date u;
     total_ads := total_ads u;
     last_ad_task_count := last_ad_task_count u;
     user_created_at := user_created_at u;
     user_updated_at := user_updated_at u |}.

Definition touch (now : Timestamp) (u : UserRow) : UserRow :=
  {| user_id := user_id u; email := email u;
     password_hash := password_hash u;
     first_name := first_name u; last_name := last_name u;
     country := country u; timezone := timezone u;
     subscription_tier := subscription_tier u;
     subscription_status := subscription_status u;
     tasks_today := tasks_today u;
     last_task_date := last_task_date u;
     ads_today := ads_today u;
     last_ad_date := last_ad_date u;
     total_ads := total_ads u;
     last_ad_task_count := last_ad_task_count u;
     user_created_at := user_created_at u;
     user_updated_at := now |}.

(** [updateUser(userId, updateData)] with string values; [updateData] is
    the list of the object's own properties in key order.  [connected]
    is the outcome of [createConnection], [ok] that of the [UPDATE]. *)
Definition updateUser
    (connected ok : bool) (now : Timestamp) (db : Db) (userId : Z)
    (updateData : list (string * string))
  : Exn bool * Db :=
  let accepted :=
    List.filter (fun kv => existsb (String.eqb kv.1) allowedFields)
      updateData in
  if negb connected then (Throw "ER_CONNECTION", db)
  else if (length accepted =? 0)%nat then
    (Throw "No valid fields to update", db)
  else if negb ok then (Throw "ER_UPDATE", db)
  else
    (Ok (bool_decide (is_Some (users db !! userId))),
     with_users db
       (alter (fun u => touch now (fold_left assign accepted u)) userId
          (users db))).

End UserModel.

(** ** ad-middleware.js *)

Module AdMiddleware.
Import JS Store.

(** The HTTP answers of [trackAdCompletion]. *)
Inductive Response :=
| BadRequest       (* 400, 'Tracking ID required' *)
| Success          (* { success: true, message: 'Ad completion tracked' } *)
| ServerError.     (* 500, 'Failed to track ad completion' *)

(** [trackAdCompletion(req, res, next)] with [req.body.trackingId] and
    [req.user?.id]. *)
Definition trackAdCompletion
    (ok : bool) (now : Timestamp) (db : Db)
    (trackingId : option string) (userId : Z)
  : Response * Db :=
  match trackingId with
  | None => (BadRequest, db)
  | Some tid =>
      if String.eqb tid "" then (BadRequest, db)
      else if negb ok then (ServerError, db)
      else
        let hit i :=
          match tracking_id i with
          | Some t => String.eqb t tid && (imp_user_id i =? userId)
          | None => false
          end in
        let mark i :=
          {| impression_id := impression_id i;
             imp_campaign_id := imp_campaign_id i;
             imp_user_id := imp_user_id i;
             tracking_id := tracking_id i;
             imp_revenue := imp_revenue i;
             imp_completed := true;
             completed_at := Some now;
             impression_date := impression_date i;
             imp_created_at := imp_created_at i |} in
        (Success,
         with_ad_impressions db (update_where hit mark (ad_impressions db)))
  end.

(** A row object as the driver returns it: column name to value, [None]
    for SQL [NULL]. *)
Definition RowObject := gmap string (option Z).

(** [getUserStats(userId)] (the same helper stands in routes/ads.js): the
    selected columns of the user's row, or [{}]. *)
Definition getUserStats (ok : bool) (db : Db) (userId : option Z) : RowObject :=
  match userId with
  | None => ∅
  | Some uid =>
      if uid =? 0 then ∅
      else
        try_catch
          (if ok then
             Ok match users db !! uid with
                | Some u =>
                    list_to_map
                      [("tasks_today", tasks_today u);
                       ("ads_today", ads_today u);
                       ("last_ad_task_count", last_ad_task_count u)]
                | None => ∅
                end
           else Throw "ER_CONNECTION")
          (fun _ => ∅)
  end.

(** The properties [serveAd] and [shouldServeAd] read from the object
    they are given. *)
Definition asUserStats (o : RowObject) : PremiumAdManager.UserStats :=
  {| PremiumAdManager.tasksCount := mjoin (o !! "tasksCount");
     PremiumAdManager.lastAdTaskCount := mjoin (o !! "lastAdTaskCount");
     PremiumAdManager.adsToday := mjoin (o !! "adsToday") |}.

(** The answers of [GET /premium] in routes/ads.js. *)
Inductive PremiumResponse :=
| NotFound                                   (* 404 *)
| Served (ad : PremiumAdManager.AdResult).   (* { success: true, ad } *)

(** The handler of [GET /premium]: [getUserStats], then [serveAd] (the
    audit log is external).  A request without user id is served as
    user 0 would be at the store. *)
Definition servePremium
    (stats_read_ok : bool) (env : PremiumAdManager.ServeEnv) (db : Db)
    (userId : option Z) (subscriptionTier : option string)
  : PremiumResponse * Db :=
  let userTier :=
    match subscriptionTier with
    | Some t => if String.eqb t "" then "free" else t
    | None => "free"
    end in
  let userStats := getUserStats stats_read_ok db userId in
  let '(adResult, db') :=
    PremiumAdManager.serveAd env db (default 0 userId) userTier
      (asUserStats userStats) in
  if negb (PremiumAdManager.adRequired adResult) then (NotFound, db')
  else (Served adResult, db').

End AdMiddleware.

(** ** The task orchestrator (class [SyntheticIntelligenceOrchestrator]) *)

Module Orchestrator.
Import JS Store.

Definition taskLimits : gmap string (gmap string Z) := list_to_map
  [("free", list_to_map
      [("text", 5); ("image", 1); ("code", 1); ("research", 1);
       ("analysis", 1); ("voice", 0)]);
   ("basic", list_to_map
      [("text", 50); ("image", 10); ("code", 10); ("research", 10);
       ("analysis", 10); ("voice", 5)]);
   ("premium", list_to_map
      [("text", 200); ("image", 50); ("code", 50); ("research", 50);
       ("analysis", 50); ("voice", 20)]);
   ("enterprise", list_to_map
      [("text", -1); ("image", -1); ("code", -1); ("research", -1);
       ("analysis", -1); ("voice", -1)])].

Record Task := {
  type : option string;
  agentType : option string;
  prompt : option string;
  sensitiveData : option string
}.

Record User := {
  id : Z;
  subscriptionTier : option string
}.

Record QueuedTask := {
  q_id : string;
  q_userId : Z;
  q_userTier : string;
  q_task : Task;
  q_type : string;
  q_status : string;
  q_createdAt : Timestamp
}.

(** The orchestrator instance (its in-memory queue) and the database. *)
Record State := {
  taskQueue : list QueuedTask;
  db : Db
}.

(** What [processTask] resolves to. *)
Record Receipt := {
  taskId : string;
  r_status : string;
  position : Z;
  estimatedWait : Z
}.

(** Truthiness of a string that may be [undefined]. *)
Definition truthy (s : option string) : bool :=
  match s with
  | Some v => negb (String.eqb v "")
  | None => false
  end.

(** [user.subscriptionTier || 'free'] *)
Definition tierOf (user : User) : string :=
  if truthy (subscriptionTier user)
  then default "free" (subscriptionTier user) else "free".

Definition tierAccess : gmap string (list string) := list_to_map
  [("free", ["research"; "creative"; "coding"; "analysis"]);
   ("basic", ["research"; "creative"; "coding"; "analysis"; "voice"]);
   ("premium", ["research"; "creative"; "coding"; "analysis"; "voice"]);
   ("enterprise",
    ["research"; "creative"; "coding"; "analysis"; "voice"; "custom"])].

Definition validateAgentAccess (userTier : string) (agentType : option string)
  : bool :=
  match tierAccess !! userTier, agentType with
  | Some agents, Some a => existsb (String.eqb a) agents
  | _, _ => false
  end.

(** ASCII case folding, as the [i] flag of the patterns below needs. *)
Definition lower_ascii (c : Ascii.ascii) : Ascii.ascii :=
  let n := Ascii.nat_of_ascii c in
  if ((65 <=? n) && (n <=? 90))%nat then Ascii.ascii_of_nat (n + 32) else c.

Fixpoint toLowerCase (s : string) : string :=
  match s with
  | EmptyString => EmptyString
  | String c rest => String (lower_ascii c) (toLowerCase rest)
  end.

(** [/pattern/i.test(text)] for a literal lower-case pattern. *)
Definition test_i (pattern text : string) : bool :=
  match String.index 0 pattern (toLowerCase text) with
  | Some _ => true
  | None => false
  end.

Definition containsInappropriateContent (text : string) : bool :=
  existsb (fun pattern => test_i pattern text)
    ["violence"; "hate speech"; "illegal activities"; "adult content"].

(** [validateTask]: [None] is [{ valid: true }], [Some e] carries the
    error text. *)
Definition validateTask (task : Task) (userTier : string) : option string :=
  if negb (validateAgentAccess userTier (agentType task)) then
    Some ("Agent " +:+ default "undefined" (agentType task)
          +:+ " not available for your subscription tier")
  else if negb (truthy (type task)) || negb (truthy (prompt task)) then
    Some "Task must include type and prompt"
  else if containsInappropriateContent (default "" (prompt task)) then
    Some "Task contains inappropriate content"
  else None.

(** [getTodayTaskCount(userId, taskType)]: the count of today's rows of
    [tasks], or [0] when the query fails. *)
Definition getTodayTaskCount
    (ok : bool) (now : Timestamp) (db : Db) (userId : Z) (taskType : string)
  : Z :=
  try_catch
    (if ok then
       Ok (matched
             (fun t =>
                (task_user_id t =? userId)
                && String.eqb (task_type t) taskType
                && (DATE (task_created_at t) =? CURDATE now))
             (tasks db))
     else Throw "ER_CONNECTION")
    (fun _ => 0).

(** [canProcessTask(userId, userTier, taskType)]; reading a property of
    the [undefined] limits of an unknown tier throws.  (A tier named like
    a member of [Object.prototype] would find that member instead of
    [undefined]; [processTask] never passes one on, its [validateTask]
    fails first, and such names are outside the model.) *)
Definition canProcessTask
    (ok : bool) (now : Timestamp) (db : Db)
    (userId : Z) (userTier : string) (taskType : string)
  : Exn bool :=
  match taskLimits !! userTier with
  | None => Throw "TypeError: Cannot read properties of undefined"
  | Some limits =>
      if bool_decide (limits !! taskType = Some (-1)) then Ok true
      else
        let todayTasks := getTodayTaskCount ok now db userId taskType in
        Ok match limits !! taskType with
           | Some limit => todayTasks <? limit
           | None => false
           end
  end.

(** [recordTaskUsage(userId, userTier, taskType)] *)
Definition recordTaskUsage
    (ok : bool) (now : Timestamp) (db : Db)
    (userId : Z) (userTier : string) (taskType : string)
  : Db :=
  if ok then
    with_task_usage db
      (task_usage db ++
         [{| usage_user_id := userId; usage_tier := userTier;
             usage_task_type := taskType; usage_created_at := now |}])
  else db.

Definition generateTaskId (now : Timestamp) (rnd : string) : string :=
  "task_" +:+ pretty now +:+ "_" +:+ rnd.

Definition estimateWaitTime (queue : list QueuedTask) : Z :=
  let avgProcessingTime := 5000 in
  Z.of_nat (length queue) * avgProcessingTime.

(** The keys of [this.agents]. *)
Definition agents : list string :=
  ["research"; "creative"; "coding"; "analysis"; "voice"].

(** What one call of [processTask] takes from outside. *)
Record ProcessEnv := {
  count_ok : bool;          (* outcome of the count query *)
  count_now : Timestamp;    (* its [CURDATE()] *)
  queue_now : Timestamp;    (* [new Date()] and [Date.now()] when queued *)
  id_rnd : string;          (* random suffix of the task id *)
  usage_ok : bool;          (* outcome of the [task_usage] insert *)
  usage_now : Timestamp
}.

Section WithCollaborators.

(** The security manager and the JSON serializer are external. *)
Variable encrypt : string -> string.
Variable stringify : Task -> string.
Variable stringify_error : string -> string.

Definition encryptTaskData (task : Task) : Task :=
  {| type := type task;
     agentType := agentType task;
     prompt := encrypt <$> prompt task;
     sensitiveData := encrypt <$> sensitiveData task |}.

(** First part of [processTask]: validation and the daily limit.  It
    resolves to the tier, or throws the error the caller sees. *)
Definition checkLimit
    (ok : bool) (now : Timestamp) (db : Db) (task : Task) (user : User)
  : Exn string :=
  let userTier := tierOf user in
  match validateTask task userTier with
  | Some error => Throw error
  | None =>
      let taskType := default "" (type task) in
      canProcessTask ok now db (id user) userTier taskType ≫=
        (fun allowed : bool =>
           if allowed then Ok userTier
           else Throw ("Daily " +:+ taskType +:+ " task limit reached for "
                       +:+ userTier +:+ " tier."))
  end.

(** Second part of [processTask], from the answer of the count query to
    the [await] of [recordTaskUsage]: the task is pushed on the queue and
    the usage insert is sent. *)
Definition enqueue
    (env : ProcessEnv) (st : State) (task : Task) (user : User)
    (userTier : string)
  : QueuedTask * State :=
  let taskType := default "" (type task) in
  let queuedTask :=
    {| q_id := generateTaskId (queue_now env) (id_rnd env);
       q_userId := id user;
       q_userTier := userTier;
       q_task := encryptTaskData task;
       q_type := taskType;
       q_status := "queued";
       q_createdAt := queue_now env |} in
  let queue := (taskQueue st ++ [queuedTask])%list in
  let db' :=
    recordTaskUsage (usage_ok env) (usage_now env) (db st) (id user)
      userTier taskType in
  (queuedTask, {| taskQueue := queue; db := db' |}).

(** Last part of [processTask], after the [await] of [recordTaskUsage]:
    the object it returns reads the queue as it is at that moment. *)
Definition receiptFor (st : State) (queuedTask : QueuedTask) : Receipt :=
  {| taskId := q_id queuedTask;
     r_status := "queued";
     position := Z.of_nat (length (taskQueue st));
     estimatedWait := estimateWaitTime (taskQueue st) |}.

(** [processTask(task, user)], for a call that nothing else interleaves
    with (module [EventLoop] has the call in its three segments). *)
Definition processTask
    (env : ProcessEnv) (st : State) (task : Task) (user : User)
  : Exn Receipt * State :=
  match checkLimit (count_ok env) (count_now env) (db st) task user with
  | Throw error => (Throw error, st)
  | Ok userTier =>
      let '(queuedTask, st') := enqueue env st task user userTier in
      (Ok (receiptFor st' queuedTask), st')
  end.

(** [storeTaskResult(task, result)].  [completedAt] is [task.completedAt],
    the last bind parameter of the insert: when it is [undefined] the
    driver rejects the statement (TypeError: Bind parameters must not
    contain undefined) and nothing reaches the server.  That error, like
    a failed insert ([ok] false), is caught and logged. *)
Definition storeTaskResult
    (ok : bool) (db : Db) (task : QueuedTask)
    (completedAt : option Timestamp) (status result : string)
  : Db :=
  match completedAt with
  | None => db
  | Some stamp =>
      if ok then
        with_tasks db
          (tasks db ++
             [{| task_id := q_id task;
                 task_user_id := q_userId task;
                 task_type := q_type task;
                 task_data := stringify (q_task task);
                 result_data := result;
                 task_status := status;
                 task_created_at := q_createdAt task;
                 task_completed_at := Some stamp |}])
      else db
  end.

(** [this.agents.get(queuedTask.task.agentType)] is defined. *)
Definition knownAgent (queuedTask : QueuedTask) : bool :=
  match agentType (q_task queuedTask) with
  | Some a => existsb (String.eqb a) agents
  | None => false
  end.

(** The rest of [processQueuedTask] once the agent call is over;
    [outcome] is what [execute] resolved to (serialized) or the message it
    threw.  At both calls of [storeTaskResult] the queued object has no
    [completedAt] property: the object literal of [processTask] has none,
    and the property is assigned only after the first call has
    returned. *)
Definition settle
    (outcome : Exn string) (ok : bool) (db : Db) (queuedTask : QueuedTask)
  : Db :=
  match outcome with
  | Ok result => storeTaskResult ok db queuedTask None "processing" result
  | Throw error =>
      storeTaskResult ok db queuedTask None "failed" (stringify_error error)
  end.



End WithCollaborators.

(** [queuedTask.status = 'processing'] *)
Definition processing_status (t : QueuedTask) : QueuedTask :=
  {| q_id := q_id t; q_userId := q_userId t; q_userTier := q_userTier t;
     q_task := q_task t; q_type := q_type t; q_status := "processing";
     q_createdAt := q_createdAt t |}.

(** The object returned by [getQueueStats]. *)
Record QueueStats := {
  queueLength : Z;
  processing : Z;
  waiting : Z;
  qs_estimatedWait : Z
}.

Definition getQueueStats (st : State) : QueueStats :=
  {| queueLength := Z.of_nat (length (taskQueue st));
     processing :=
       Z.of_nat (length (List.filter
                           (fun t => String.eqb (q_status t) "processing")
                           (taskQueue st)));
     waiting :=
       Z.of_nat (length (List.filter
                           (fun t => String.eqb (q_status t) "queued")
                           (taskQueue st)));
     qs_estimatedWait := estimateWaitTime (taskQueue st) |}.

End Orchestrator.

(** ** Requests and the queue timer interleaved on the event loop

    [processTask] suspends twice: at the [await] of the count query and,
    after the task has been pushed, at the [await] of [recordTaskUsage].
    Other requests and the queue timer run in between.  A request is
    therefore three atomic events: [Arrive] (validation and the count
    query, the segment [checkLimit]), [Resume] (the thrown error, or the
    segment [enqueue]) and [Finish] (the receipt, [receiptFor]).

    A firing of the timer is two events: [Tick] takes the head of the
    queue and starts the agent call, [Settle] is the rest of
    [processQueuedTask] when that call is over; a task without a known
    agent is settled within the [Tick].  Request numbers name the calls; an
    [Arrive] under a number that is still suspended is no event. *)

Module EventLoop.
Import JS Store Orchestrator.

(** A request suspended after its count query. *)
Record InFlight := {
  if_task : Task;
  if_user : User;
  if_decision : Exn string
}.

Record Sys := {
  state : State;
  inflight : gmap nat InFlight;      (* suspended at the count query *)
  recording : gmap nat QueuedTask;   (* suspended at the usage insert *)
  running : list QueuedTask;         (* off the queue, agent call pending *)
  responses : list (nat * Exn Receipt)   (* what each caller received *)
}.

Inductive Event :=
| Arrive (r : nat) (task : Task) (user : User) (env : ProcessEnv)
| Resume (r : nat) (env : ProcessEnv)
| Finish (r : nat)
| Tick (ok : bool)
| Settle (i : nat) (outcome : Exn string) (ok : bool).

Section WithCollaborators.

Variable encrypt : string -> string.
Variable stringify : Task -> string.
Variable stringify_error : string -> string.

Definition step (s : Sys) (e : Event) : Sys :=
  match e with
  | Arrive r task user env =>
      match inflight s !! r, recording s !! r with
      | None, None =>
          {| state := state s;
             inflight :=
               <[r := {| if_task := task; if_user := user;
                         if_decision :=
                           checkLimit (count_ok env) (count_now env)
                             (db (state s)) task user |}]> (inflight s);
             recording := recording s;
             running := running s;
             responses := responses s |}
      | _, _ => s
      end
  | Resume r env =>
      match inflight s !! r with
      | None => s
      | Some req =>
          match if_decision req with
          | Throw error =>
              {| state := state s;
                 inflight := delete r (inflight s);
                 recording := recording s;
                 running := running s;
                 responses := responses s ++ [(r, Throw error)] |}
          | Ok userTier =>
              let '(queuedTask, st') :=
                enqueue encrypt env (state s) (if_task req) (if_user req)
                  userTier in
              {| state := st';
                 inflight := delete r (inflight s);
                 recording := <[r := queuedTask]> (recording s);
                 running := running s;
                 responses := responses s |}
          end
      end
  | Finish r =>
      match recording s !! r with
      | None => s
      | Some queuedTask =>
          {| state := state s;
             inflight := inflight s;
             recording := delete r (recording s);
             running := running s;
             responses :=
               responses s ++ [(r, Ok (receiptFor (state s) queuedTask))] |}
      end
  | Tick ok =>
      match taskQueue (state s) with
      | [] => s
      | task :: rest =>
          if knownAgent task then
            {| state := {| taskQueue := rest; db := db (state s) |};
               inflight := inflight s;
               recording := recording s;
               running := running s ++ [processing_status task];
               responses := responses s |}
          else
            {| state :=
                 {| taskQueue := rest;
                    db := settle stringify stringify_error
                            (Throw ("Unknown agent type: "
                                    +:+ default "undefined"
                                          (agentType (q_task task))))
                            ok (db (state s)) task |};
               inflight := inflight s;
               recording := recording s;
               running := running s;
               responses := responses s |}
      end
  | Settle i outcome ok =>
      match running s !! i with
      | None => s
      | Some task =>
          {| state :=
               {| taskQueue := taskQueue (state s);
                  db := settle stringify stringify_error outcome ok
                          (db (state s)) task |};
             inflight := inflight s;
             recording := recording s;
             running := delete i (running s);
             responses := responses s |}
      end
  end.

Definition run (events : list Event) (s : Sys) : Sys :=
  fold_left step events s.

End WithCollaborators.

Definition is_accepted (r : nat * Exn Receipt) : bool :=
  match r.2 with
  | Ok _ => true
  | Throw _ => false
  end.

(** Number of requests that were answered with a receipt. *)
Definition accepted (s : Sys) : nat :=
  length (List.filter is_accepted (responses s)).

End EventLoop.

(** ** Derived notions used to state the properties *)

Module Spec.
Import JS Store AdCampaignModel PremiumAdManager Orchestrator.

(** The campaigns left after the catalog query and the filter of
    [selectAd]; empty when the query fails or one of its rows does not
    parse. *)
Definition eligible
    (ok : bool) (now_sql now_js : Timestamp) (db : Db) (userTier : string)
  : list CampaignRow :=
  match getCampaignsByAudience ok now_sql db userTier with
  | Ok campaigns => List.filter (available now_js) campaigns
  | Throw _ => []
  end.

(** The schedule window of a campaign contains [now]. *)
Definition in_window (now : Timestamp) (c : CampaignRow) : Prop :=
  midnight (start_date c) <= now
  /\ match end_date c with
     | None => True
     | Some e => now <= midnight e
     end.

(** [cumulativeRevenue < budget] *)
Definition under_budget (c : CampaignRow) : Prop :=
  match budget c with
  | Some b => (revenue c < b)%Q
  | None => False
  end.

(** On the campaigns of [l], the decimal texts of the [cpm] values
    compare like the numbers. *)
Definition cpm_texts_ordered (l : list CampaignRow) : Prop :=
  forall a b, In a l -> In b l ->
    str_gt (cpm_text a) (cpm_text b) = Qltb (cpm b) (cpm a).

(** The completion counters of the campaigns with a given id. *)
Definition completions_of (db : Db) (cid : Z) : list Z :=
  completions <$> List.filter (fun c => campaign_id c =? cid) (ad_campaigns db).

(** Every column of a [users] row other than [tasks_today], [ads_today]
    and [updated_at] is the same in [u] and [u']. *)
Definition same_other_columns (u u' : UserRow) : Prop :=
  user_id u' = user_id u
  /\ email u' = email u
  /\ password_hash u' = password_hash u
  /\ first_name u' = first_name u
  /\ last_name u' = last_name u
  /\ country u' = country u
  /\ timezone u' = timezone u
  /\ subscription_tier u' = subscription_tier u
  /\ subscription_status u' = subscription_status u
  /\ last_task_date u' = last_task_date u
  /\ last_ad_date u' = last_ad_date u
  /\ total_ads u' = total_ads u
  /\ last_ad_task_count u' = last_ad_task_count u
  /\ user_created_at u' = user_created_at u.

Definition is_receipt (r : Exn Receipt) : bool :=
  match r with
  | Ok _ => true
  | Throw _ => false
  end.

(** The request an event belongs to; the timer's events belong to none. *)
Definition request_of (e : EventLoop.Event) : option nat :=
  match e with
  | EventLoop.Arrive r _ _ _ => Some r
  | EventLoop.Resume r _ => Some r
  | EventLoop.Finish r => Some r
  | EventLoop.Tick _ => None
  | EventLoop.Settle _ _ _ => None
  end.

(** The usage insert of the event, if it sends one, succeeds. *)
Definition usage_succeeds (e : EventLoop.Event) : Prop :=
  match e with
  | EventLoop.Resume _ env => usage_ok env = true
  | _ => True
  end.

(** No request is suspended at both [await]s at once. *)
Definition well_formed (s : EventLoop.Sys) : Prop :=
  forall r, is_Some (EventLoop.inflight s !! r) ->
            EventLoop.recording s !! r = None.

(** The positions reported by the receipts, in the order of the answers. *)
Definition positions (s : EventLoop.Sys) : list Z :=
  omap (fun r => match r.2 with
                 | Ok receipt => Some (position receipt)
                 | Throw _ => None
                 end)
    (EventLoop.responses s).

End Spec.

(** ** Sample data *)

Module Fixtures.
Import JS Store AdCampaignModel PremiumAdManager Orchestrator EventLoop.

(** An active campaign for every paying and free tier, open-ended, with
    budget left. *)
Definition campaign (cid : Z) (price : Q) : CampaignRow :=
  {| campaign_id := cid; name := "AI Tools Platform";
     advertiser := "AITools Co"; cpm := price; duration := 30;
     target_audience := ["free"; "basic"; "premium"];
     content_url := "https://cdn.example.com/ads/ai-tools.mp4";
     start_date := 0; end_date := None; budget := Some 5000%Q;
     status := active; impressions := 0; completions := 0;
     revenue := 0%Q; campaign_created_at := 0; campaign_updated_at := 0 |}.

Definition impression (iid cid uid : Z) : ImpressionRow :=
  {| impression_id := iid; imp_campaign_id := cid; imp_user_id := uid;
     tracking_id := None; imp_revenue := 0.1%Q; imp_completed := false;
     completed_at := None; impression_date := 0; imp_created_at := 0 |}.

(** A free-tier user last updated on day 0, with 3 tasks and 1 ad counted
    and the watermark at 2. *)
Definition john : UserRow :=
  {| user_id := 1; email := "john.doe@example.com";
     password_hash := "hash"; first_name := Some "John";
     last_name := Some "Doe"; country := "US"; timezone := "UTC";
     subscription_tier := "free"; subscription_status := "active";
     tasks_today := Some 3; last_task_date := None;
     ads_today := Some 1; last_ad_date := Some 0;
     total_ads := Some 5; last_ad_task_count := Some 2;
     user_created_at := 0; user_updated_at := 100 |}.

(** One user, no stored task, two campaigns at the same CPM, one
    impression of campaign 1, on a server that keeps JSON as text. *)
Definition db0 : Db :=
  {| users := {[ 1 := john ]};
     tasks := [];
     task_usage := [];
     ad_campaigns := [campaign 1 100; campaign 2 100];
     ad_impressions := [impression 1 1 1];
     native_json := false |}.

(** Three campaigns at 120.00, 250.00 and 180.00. *)
Definition db_prices : Db :=
  with_ad_campaigns db0 [campaign 1 120; campaign 2 250; campaign 3 180].

(** Campaign 1 after it has earned 1000.00 against a budget of 500.00. *)
Definition spent : CampaignRow :=
  {| campaign_id := 1; name := "AI Tools Platform";
     advertiser := "AITools Co"; cpm := 100; duration := 30;
     target_audience := ["free"; "basic"; "premium"];
     content_url := "https://cdn.example.com/ads/ai-tools.mp4";
     start_date := 0; end_date := None; budget := Some 500%Q;
     status := active; impressions := 10000; completions := 0;
     revenue := 1000%Q; campaign_created_at := 0; campaign_updated_at := 0 |}.

Definition db_spent : Db := with_ad_campaigns db0 [spent].

Definition st0 : State := {| taskQueue := []; db := db0 |}.

Definition text_task : Task :=
  {| type := Some "text"; agentType := Some "creative";
     prompt := Some "Test task"; sensitiveData := None |}.

Definition free_user : User :=
  {| id := 1; subscriptionTier := Some "free" |}.

(** The [n]-th request of second 1000: every statement succeeds. *)
Definition env (n : nat) : ProcessEnv :=
  {| count_ok := true; count_now := 1000; queue_now := 1000;
     id_rnd := pretty n; usage_ok := true; usage_now := 1000 |}.

Definition sys0 : Sys :=
  {| state := st0; inflight := ∅; recording := ∅; running := [];
     responses := [] |}.

(** The [n]-th of a series of requests made one after the other: the
    call runs to its end, then the queue timer fires and the agent call
    it starts settles. *)
Definition sequential (n : nat) : list Event :=
  [Arrive n text_task free_user (env n); Resume n (env n); Finish n;
   Tick true; Settle 0 (Ok "done") true].

(** A text task of user 1 stored at second 1000. *)
Definition stored_text_task (n : nat) : TaskRow :=
  {| task_id := "task_900_" +:+ pretty n; task_user_id := 1;
     task_type := "text"; task_data := "data"; result_data := "result";
     task_status := "completed"; task_created_at := 900;
     task_completed_at := Some 950 |}.

(** [db0] with five text tasks of user 1 stored on the current day. *)
Definition db_five : Db := with_tasks db0 (stored_text_task <$> seq 0 5).

(** An ad is due for these statistics of a free-tier user. *)
Definition due_stats : UserStats :=
  {| tasksCount := Some 2; lastAdTaskCount := None; adsToday := None |}.

(** A call of [serveAd] at second 1000 whose impression insert fails. *)
Definition failing_insert : ServeEnv :=
  {| select_ok := true; select_now_sql := 1000; select_now_js := 1000;
     insert_ok := false; update_ok := true; track_now := 1000;
     track_rnd := "x"; stats_ok := true; stats_now := 1000 |}.

(** Stand-ins for the external collaborators. *)
Definition plain (s : string) : string := s.
Definition prompt_of (t : Task) : string := default "" (prompt t).

End Fixtures.

(* ===================================================================== *)
(** * Part II: properties                                                 *)
(* ===================================================================== *)

Local Open Scope list_scope.

(** ** Numbers *)

Section Numbers.
Import JS.

Lemma Qltb_lt (a b : Q) : Qltb a b = true <-> (a < b)%Q.
Proof.
  unfold Qltb. rewrite negb_true_iff. split.
  - intros H. apply Qnot_le_lt. intros Hle.
    apply Qle_bool_iff in Hle. congruence.
  - intros H. destruct (Qle_bool b a) eqn:E; [|reflexivity].
    apply Qle_bool_iff in E. exfalso. exact (Qlt_not_le _ _ H E).
Qed.

Lemma Qltb_ge (a b : Q) : Qltb a b = false <-> (b <= a)%Q.
Proof.
  unfold Qltb. rewrite negb_false_iff. apply Qle_bool_iff.
Qed.

Lemma Math_max_ge_r (a b : Q) : (b <= Math_max a b)%Q.
Proof.
  unfold Math_max. destruct (Qle_bool a b) eqn:E.
  - apply Qle_refl.
  - apply Qlt_le_weak, Qnot_le_lt. intros H.
    apply Qle_bool_iff in H. congruence.
Qed.

Lemma Math_round_mono (x y : Q) :
  (x <= y)%Q -> (Math_round x <= Math_round y)%Q.
Proof.
  intros H. unfold Math_round. rewrite <- Zle_Qle.
  apply Qfloor_resp_le. apply Qplus_le_compat; [exact H | apply Qle_refl].
Qed.

Lemma Math_round_pos (x : Q) : (1 # 2 <= x)%Q -> (1 <= Math_round x)%Q.
Proof.
  intros H. unfold Math_round.
  change 1%Q with (inject_Z 1). rewrite <- Zle_Qle.
  change 1%Z with (Qfloor ((1 # 2) + (1 # 2))).
  apply Qfloor_resp_le. apply Qplus_le_compat; [exact H | apply Qle_refl].
Qed.

Lemma Qdiv100_mono (x y : Q) : (x <= y)%Q -> (x / 100 <= y / 100)%Q.
Proof.
  intros H. unfold Qdiv. apply Qmult_le_compat_r; [exact H | discriminate].
Qed.

End Numbers.

(** ** The CPM optimizer *)

Section CPMOptimizerProperties.
Import JS CPMOptimizer.

(** C4, counterexample: on a Monday at 13h, for an enterprise identity in
    ZA without behaviour signals, a base CPM of 100 comes back as 100,
    not 0. *)
Lemma enterprise_cpm_not_zero :
  ~ (calculateOptimalCPM
       {| getHours := 13; getDay := 1 |} {| getHours := 13; getDay := 1 |}
       100
       {| ctx_userTier := Some "enterprise"; ctx_country := Some "ZA";
          ctx_userBehavior := None |} == 0)%Q.
Proof. vm_compute. discriminate. Qed.

(** C4, amended: for an enterprise context the result is never below the
    floor [baseCPM * 0.5] rounded to two decimals, so it is positive as
    soon as [baseCPM] is at least one cent. *)
Theorem enterprise_cpm_floor
    (now1 now2 : DateReading) (baseCPM : Q) (context : Context) :
  ctx_userTier context = Some "enterprise" ->
  (Math_round (baseCPM * 0.5 * 100) / 100
   <= calculateOptimalCPM now1 now2 baseCPM context)%Q
  /\ ((1 # 100 <= baseCPM)%Q ->
      (0 < calculateOptimalCPM now1 now2 baseCPM context)%Q).
Proof.
  intros _.
  assert (Hfloor :
    (Math_round (baseCPM * 0.5 * 100) / 100
     <= calculateOptimalCPM now1 now2 baseCPM context)%Q).
  { unfold calculateOptimalCPM. cbv zeta.
    apply Qdiv100_mono, Math_round_mono.
    apply Qmult_le_compat_r; [apply Math_max_ge_r | discriminate]. }
  split; [exact Hfloor|].
  intros Hcent.
  eapply Qlt_le_trans; [|exact Hfloor].
  apply Qlt_le_trans with (1 / 100)%Q; [reflexivity|].
  apply Qdiv100_mono, Math_round_pos.
  apply Qle_trans with ((1 # 100) * 0.5 * 100)%Q; [discriminate|].
  apply Qmult_le_compat_r; [|discriminate].
  apply Qmult_le_compat_r; [exact Hcent | discriminate].
Qed.

Lemma enterprise_cpm_floor_witness :
  (Math_round (100 * 0.5 * 100) / 100
   <= calculateOptimalCPM
        {| getHours := 13; getDay := 1 |} {| getHours := 13; getDay := 1 |}
        100
        {| ctx_userTier := Some "enterprise"; ctx_country := Some "ZA";
           ctx_userBehavior := None |})%Q
  /\ (0 < calculateOptimalCPM
            {| getHours := 13; getDay := 1 |}
            {| getHours := 13; getDay := 1 |}
            100
            {| ctx_userTier := Some "enterprise"; ctx_country := Some "ZA";
               ctx_userBehavior := None |})%Q.
Proof.
  destruct (enterprise_cpm_floor
              {| getHours := 13; getDay := 1 |}
              {| getHours := 13; getDay := 1 |}
              100
              {| ctx_userTier := Some "enterprise"; ctx_country := Some "ZA";
                 ctx_userBehavior := None |} eq_refl) as [H1 H2].
  split; [exact H1 | apply H2; discriminate].
Defined.

(** C5, counterexample: the same base CPM and the same context give 80 at
    03h and 120 at 07h of the same Monday. *)
Lemma same_arguments_different_cpm :
  ~ (calculateOptimalCPM
       {| getHours := 3; getDay := 1 |} {| getHours := 3; getDay := 1 |}
       100
       {| ctx_userTier := Some "free"; ctx_country := Some "ZA";
          ctx_userBehavior := None |}
     == calculateOptimalCPM
          {| getHours := 7; getDay := 1 |} {| getHours := 7; getDay := 1 |}
          100
          {| ctx_userTier := Some "free"; ctx_country := Some "ZA";
             ctx_userBehavior := None |})%Q.
Proof. vm_compute. discriminate. Qed.

(** C5, amended: the result is a function of the arguments together with
    the six-hour slot and the weekday read from the clock; two calls with
    identical arguments made in the same slot of the same weekday return
    the identical number. *)
Theorem cpm_deterministic_per_slot
    (a1 a2 b1 b2 : DateReading) (baseCPM : Q) (context : Context) :
  timeSlot (getHours a1) = timeSlot (getHours b1) ->
  getDay a2 = getDay b2 ->
  calculateOptimalCPM a1 a2 baseCPM context
  = calculateOptimalCPM b1 b2 baseCPM context.
Proof.
  intros Hslot Hday.
  unfold calculateOptimalCPM, getTimeOfDayFactor, getDayOfWeekFactor.
  cbv zeta. rewrite Hslot, Hday. reflexivity.
Qed.

Lemma cpm_deterministic_per_slot_witness :
  calculateOptimalCPM
    {| getHours := 3; getDay := 1 |} {| getHours := 3; getDay := 1 |}
    100
    {| ctx_userTier := Some "free"; ctx_country := Some "ZA";
       ctx_userBehavior := None |}
  = calculateOptimalCPM
      {| getHours := 5; getDay := 1 |} {| getHours := 5; getDay := 1 |}
      100
      {| ctx_userTier := Some "free"; ctx_country := Some "ZA";
         ctx_userBehavior := None |}.
Proof.
  apply cpm_deterministic_per_slot; reflexivity.
Defined.

End CPMOptimizerProperties.

(** ** Campaign selection *)

Section SelectionProperties.
Import JS Store AdCampaignModel PremiumAdManager Spec.

(** The fold of [selectAd] returns one of the campaigns it folds. *)
Lemma fold_higherCPM_In (rest : list CampaignRow) (x : CampaignRow) :
  In (fold_left higherCPM rest x) (x :: rest).
Proof.
  revert x. induction rest as [|y rest IH]; intros x; [left; reflexivity|].
  cbn [fold_left]. unfold higherCPM at 2.
  destruct (str_gt (cpm_text x) (cpm_text y)).
  - destruct (IH x) as [H|H]; [left; exact H | right; right; exact H].
  - right. apply IH.
Qed.

(** Where the texts of the CPM values compare like the numbers, the fold
    returns the last campaign of maximal CPM. *)
Lemma fold_higherCPM_split (rest : list CampaignRow) (x : CampaignRow) :
  cpm_texts_ordered (x :: rest) ->
  exists l1 l2,
    x :: rest = l1 ++ fold_left higherCPM rest x :: l2
    /\ Forall (fun c => (cpm c <= cpm (fold_left higherCPM rest x))%Q) l1
    /\ Forall (fun c => (cpm c < cpm (fold_left higherCPM rest x))%Q) l2.
Proof.
  induction rest as [|y rest IH] using rev_ind; intros Hord.
  - exists [], []. repeat split; constructor.
  - rewrite fold_left_app. cbn [fold_left].
    destruct IH as (l1 & l2 & Heq & H1 & H2).
    { intros a b Ha Hb. apply Hord.
      - rewrite app_comm_cons. apply in_or_app. left. exact Ha.
      - rewrite app_comm_cons. apply in_or_app. left. exact Hb. }
    set (m := fold_left higherCPM rest x) in *.
    assert (Hm : In m ((x :: rest) ++ [y])).
    { apply in_or_app. left. apply fold_higherCPM_In. }
    assert (Hy : In y ((x :: rest) ++ [y])).
    { apply in_or_app. right. left. reflexivity. }
    unfold higherCPM. rewrite (Hord m y Hm Hy).
    destruct (Qltb (cpm y) (cpm m)) eqn:E.
    + apply Qltb_lt in E.
      exists l1, (l2 ++ [y]). split; [|split].
      * rewrite app_comm_cons, Heq, <- app_assoc. reflexivity.
      * exact H1.
      * apply Forall_app. split; [exact H2|]. repeat constructor. exact E.
    + apply Qltb_ge in E.
      exists (l1 ++ m :: l2), []. split; [|split].
      * rewrite app_comm_cons, Heq. reflexivity.
      * apply Forall_app. split; [|constructor].
        -- eapply Forall_impl; [exact H1|]. cbn. intros c Hc.
           eapply Qle_trans; eassumption.
        -- exact E.
        -- eapply Forall_impl; [exact H2|]. cbn. intros c Hc.
           apply Qlt_le_weak. eapply Qlt_le_trans; eassumption.
      * constructor.
Qed.

(** The two outcomes of [selectAd]. *)
Lemma selectAd_cases
    (ok : bool) (now_sql now_js : Timestamp) (db : Db) (userTier : string) :
  (eligible ok now_sql now_js db userTier = []
   /\ selectAd ok now_sql now_js db userTier = getFallbackAd)
  \/ (exists x rest,
        eligible ok now_sql now_js db userTier = x :: rest
        /\ selectAd ok now_sql now_js db userTier
           = CampaignAd (fold_left higherCPM rest x)).
Proof.
  unfold eligible, selectAd.
  destruct (getCampaignsByAudience ok now_sql db userTier)
    as [campaigns|e]; cbn; [|left; split; reflexivity].
  destruct campaigns as [|c0 campaigns]; [left; split; reflexivity|].
  cbn [length Nat.eqb].
  destruct (List.filter (available now_js) (c0 :: campaigns))
    as [|x rest] eqn:Hf; [left; split; reflexivity|].
  right. cbn. exists x, rest. split; reflexivity.
Qed.

(** A campaign that [selectAd] returns is one of those the query and the
    filter let through. *)
Lemma selectAd_In
    (ok : bool) (now_sql now_js : Timestamp) (db : Db) (userTier : string)
    (c : CampaignRow) :
  selectAd ok now_sql now_js db userTier = CampaignAd c ->
  In c (eligible ok now_sql now_js db userTier).
Proof.
  intros Hsel.
  destruct (selectAd_cases ok now_sql now_js db userTier)
    as [[_ Hfb]|(x & rest & Hel & Hc)].
  - rewrite Hfb in Hsel. discriminate.
  - rewrite Hc in Hsel. injection Hsel as <-. rewrite Hel.
    apply fold_higherCPM_In.
Qed.

Lemma tier_list_is_not_json (t : string) (rest : list string) :
  t ∈ ["free"; "basic"; "premium"; "enterprise"] ->
  JSON_parse_ok (Array_toString (t :: rest)) = false.
Proof.
  intros Ht. unfold JSON_parse_ok, Array_toString.
  repeat (apply elem_of_cons in Ht; destruct Ht as [->|Ht];
          [destruct rest; reflexivity|]).
  inversion Ht.
Qed.

(** On a server with a native JSON type a catalog whose audiences are
    lists of tier names is never served: [JSON.parse] throws at the first
    row the query returns, and [selectAd] falls back. *)
Lemma native_json_serves_the_fallback
    (ok : bool) (now_sql now_js : Timestamp) (db : Db) (userTier : string) :
  native_json db = true ->
  Forall (fun c => exists t rest,
                     target_audience c = t :: rest
                     /\ t ∈ ["free"; "basic"; "premium"; "enterprise"])
    (ad_campaigns db) ->
  selectAd ok now_sql now_js db userTier = getFallbackAd.
Proof.
  intros Hnative Htiers. unfold selectAd, getCampaignsByAudience.
  destruct ok; [|reflexivity].
  set (rows := List.filter _ (ad_campaigns db)).
  assert (Hrows : Forall (fun c => parses db c = false) rows).
  { apply Forall_forall. intros c Hc. apply list_elem_of_In in Hc.
    apply filter_In in Hc. destruct Hc as [Hc _].
    rewrite Forall_forall in Htiers.
    destruct (Htiers c) as (t & rest & Ha & Ht); [apply list_elem_of_In, Hc|].
    unfold parses. rewrite Hnative, Ha. apply tier_list_is_not_json, Ht. }
  unfold parse_rows. destruct Hrows as [|c rows' Hc _]; [reflexivity|].
  cbn [forallb]. rewrite Hc. reflexivity.
Qed.

Lemma JSON_CONTAINS_elem (target : list string) (tier : string) :
  JSON_CONTAINS target tier = true -> tier ∈ target.
Proof.
  unfold JSON_CONTAINS. intros H. apply existsb_exists in H.
  destruct H as (x & Hin & Heq). apply String.eqb_eq in Heq. subst x.
  apply list_elem_of_In. exact Hin.
Qed.

(** What the query and the filter of [selectAd] let through.  The budget
    test is the one the code makes, between the two decimal texts. *)
Lemma eligible_sound
    (ok : bool) (now_sql now_js : Timestamp) (db : Db) (userTier : string)
    (c : CampaignRow) :
  In c (eligible ok now_sql now_js db userTier) ->
  In c (ad_campaigns db)
  /\ status c = active
  /\ midnight (start_date c) <= now_sql
  /\ match end_date c with None => True | Some e => now_js <= midnight e end
  /\ userTier ∈ target_audience c
  /\ match budget c with
     | None => True
     | Some b => str_lt (revenue_text c) (decimal_text 2 b) = true
     end.
Proof.
  unfold eligible, getCampaignsByAudience, parse_rows.
  destruct ok; [|intros []].
  destruct (forallb (parses db) _); [|intros []].
  intros H. apply filter_In in H. destruct H as [H Hav].
  apply filter_In in H. destruct H as [Hin Hsql].
  unfold available in Hav.
  repeat (apply andb_prop in Hav; destruct Hav as [Hav ?]).
  repeat (apply andb_prop in Hsql; destruct Hsql as [Hsql ?]).
  apply bool_decide_eq_true in Hav.
  repeat split; auto.
  - lia.
  - destruct (end_date c); [lia|exact I].
  - apply JSON_CONTAINS_elem. assumption.
  - destruct (budget c); [assumption | exact I].
Qed.

(** The tests of the query and of the filter that do hold of a selected
    campaign, for a clock that does not run backwards between the two. *)
Lemma selected_campaign_passes_filters
    (ok : bool) (now_sql now_js : Timestamp) (db : Db) (userTier : string)
    (c : CampaignRow) :
  now_sql <= now_js ->
  selectAd ok now_sql now_js db userTier = CampaignAd c ->
  status c = active
  /\ in_window now_js c
  /\ userTier ∈ target_audience c.
Proof.
  intros Hclock Hsel. apply selectAd_In, eligible_sound in Hsel.
  destruct Hsel as (_ & Hst & Hstart & Hend & Htier & _).
  unfold in_window. repeat split; auto. lia.
Qed.

End SelectionProperties.

Section SelectionClaims.
Import JS Store AdCampaignModel PremiumAdManager Spec Fixtures.

(** C2, counterexample: two eligible campaigns with the same CPM, listed
    as ids 1 and 2; the selector returns campaign 2, not the lowest id. *)
Lemma tie_goes_to_later_campaign :
  eligible true 1000 1000 db0 "free" = [campaign 1 100; campaign 2 100]
  /\ ad_id (selectAd true 1000 1000 db0 "free") = NumId 2.
Proof. split; vm_compute; reflexivity. Qed.

(** C2, amended: for a non-empty filtered set, [selectAd] ranks the
    campaigns by their raw stored [cpm] (the optimizer is not consulted).
    Where the decimal texts in which the driver delivers the [cpm] values
    compare in the order of the numbers, it returns a campaign of maximal
    [cpm], and among campaigns of equal maximal [cpm] the one that comes
    last in the query result. *)
Theorem selectAd_highest_raw_cpm
    (ok : bool) (now_sql now_js : Timestamp) (db : Db) (userTier : string) :
  eligible ok now_sql now_js db userTier <> [] ->
  cpm_texts_ordered (eligible ok now_sql now_js db userTier) ->
  exists c l1 l2,
    selectAd ok now_sql now_js db userTier = CampaignAd c
    /\ eligible ok now_sql now_js db userTier = l1 ++ c :: l2
    /\ Forall (fun c' => (cpm c' <= cpm c)%Q) l1
    /\ Forall (fun c' => (cpm c' < cpm c)%Q) l2.
Proof.
  intros Hne Hord.
  destruct (selectAd_cases ok now_sql now_js db userTier)
    as [[Hnil _]|(x & rest & Hel & Hc)]; [contradiction|].
  rewrite Hel in Hord.
  destruct (fold_higherCPM_split rest x Hord) as (l1 & l2 & Heq & H1 & H2).
  exists (fold_left higherCPM rest x), l1, l2.
  rewrite Hel. auto.
Qed.

Lemma selectAd_highest_raw_cpm_witness :
  exists c l1 l2,
    selectAd true 1000 1000 db_prices "free" = CampaignAd c
    /\ eligible true 1000 1000 db_prices "free" = l1 ++ c :: l2
    /\ Forall (fun c' => (cpm c' <= cpm c)%Q) l1
    /\ Forall (fun c' => (cpm c' < cpm c)%Q) l2.
Proof.
  apply (selectAd_highest_raw_cpm true 1000 1000 db_prices "free").
  - vm_compute. discriminate.
  - intros a b Ha Hb. vm_compute in Ha, Hb.
    destruct Ha as [<-|[<-|[<-|[]]]]; destruct Hb as [<-|[<-|[<-|[]]]];
      vm_compute; reflexivity.
Defined.

(** Where the texts do not compare like the numbers the fold follows the
    texts: of two eligible campaigns at 100.00 and at 9.00, in either
    order, [selectAd] returns the one at 9.00. *)
Lemma selectAd_follows_the_texts :
  selectAd true 1000 1000
    (with_ad_campaigns db0 [campaign 1 100; campaign 2 9]) "free"
  = CampaignAd (campaign 2 9)
  /\ selectAd true 1000 1000
       (with_ad_campaigns db0 [campaign 2 9; campaign 1 100]) "free"
     = CampaignAd (campaign 2 9).
Proof. split; vm_compute; reflexivity. Qed.

(** C3, at the failing input: a campaign that has earned 1000.00 against
    a budget of 500.00, active, open-ended and aimed at the free tier, is
    the only row of the catalog, on a server that delivers the JSON
    column as text.  The filter compares the two decimal texts, finds
    1000.00 below 500.00, and [selectAd] returns that campaign although
    its revenue is not below its budget.  (On a server with a native JSON
    type the same catalog gives the fallback: parsing the row throws.) *)
Lemma over_budget_campaign_is_selected :
  revenue spent = 1000%Q
  /\ budget spent = Some 500%Q
  /\ ~ under_budget spent
  /\ revenue_text spent = "1000.00"
  /\ str_lt "1000.00" "500.00" = true
  /\ selectAd true 1000 1000 db_spent "free" = CampaignAd spent
  /\ selectAd true 1000 1000 (with_native_json db_spent true) "free"
     = getFallbackAd.
Proof.
  split; [reflexivity|]. split; [reflexivity|].
  split; [|repeat split; vm_compute; reflexivity].
  unfold under_budget. cbn. intros H. vm_compute in H. discriminate.
Qed.

(** C6: [selectAd] always resolves to an ad.  When the filtered set is
    empty, and in particular when the catalog query fails, it is the
    fixed fallback (id 'fallback', CPM 50.00); otherwise it is one of the
    eligible campaigns.  No error reaches the caller, and [serveAd]
    serves an ad whenever one is due. *)
Theorem selectAd_always_an_ad
    (ok : bool) (now_sql now_js : Timestamp) (db : Db) (userTier : string) :
  (eligible ok now_sql now_js db userTier = [] ->
   selectAd ok now_sql now_js db userTier = getFallbackAd)
  /\ (ok = false -> selectAd ok now_sql now_js db userTier = getFallbackAd)
  /\ (eligible ok now_sql now_js db userTier <> [] ->
      exists c, selectAd ok now_sql now_js db userTier = CampaignAd c
                /\ In c (eligible ok now_sql now_js db userTier))
  /\ ad_id getFallbackAd = StrId "fallback"
  /\ (ad_cpm getFallbackAd == 50)%Q
  /\ (forall env userId userStats,
        shouldServeAd userTier userStats = true ->
        adRequired (serveAd env db userId userTier userStats).1 = true).
Proof.
  destruct (selectAd_cases ok now_sql now_js db userTier)
    as [[Hnil Hfb]|(x & rest & Hel & Hc)].
  - repeat split; auto; try reflexivity.
    + intros H. contradiction.
    + intros env userId userStats Hdue. unfold serveAd. rewrite Hdue. cbn.
      destruct trackImpression. reflexivity.
  - repeat split; try reflexivity.
    + intros H. rewrite Hel in H. discriminate.
    + intros ->. reflexivity.
    + intros _. exists (fold_left higherCPM rest x). split; [exact Hc|].
      rewrite Hel. apply fold_higherCPM_In.
    + intros env userId userStats Hdue. unfold serveAd. rewrite Hdue. cbn.
      destruct trackImpression. reflexivity.
Qed.

Lemma selectAd_always_an_ad_witness :
  selectAd false 1000 1000 db0 "free" = getFallbackAd.
Proof.
  apply (proj1 (selectAd_always_an_ad false 1000 1000 db0 "free")).
  reflexivity.
Defined.

End SelectionClaims.

(** ** Completion of an impression *)

Section CompletionProperties.
Import JS Store AdCampaignModel Spec Fixtures.

Lemma find_update_where
    (hit : ImpressionRow -> bool) (mark : ImpressionRow -> ImpressionRow)
    (l : list ImpressionRow) :
  (forall i, hit (mark i) = hit i) ->
  (forall i, imp_campaign_id (mark i) = imp_campaign_id i) ->
  imp_campaign_id <$> List.find hit (update_where hit mark l)
  = imp_campaign_id <$> List.find hit l.
Proof.
  intros Hhit Hcid. induction l as [|i l IH]; [reflexivity|].
  cbn. destruct (hit i) eqn:E.
  - rewrite Hhit, E. cbn. rewrite Hcid. reflexivity.
  - rewrite E. exact IH.
Qed.

Lemma matched_update_where
    (hit : ImpressionRow -> bool) (mark : ImpressionRow -> ImpressionRow)
    (l : list ImpressionRow) :
  (forall i, hit (mark i) = hit i) ->
  matched hit (update_where hit mark l) = matched hit l.
Proof.
  intros Hhit. unfold matched. f_equal.
  induction l as [|i l IH]; [reflexivity|].
  cbn. destruct (hit i) eqn:E.
  - rewrite Hhit, E. cbn. f_equal. exact IH.
  - rewrite E. exact IH.
Qed.

Lemma completed_update_where_twice
    (hit : ImpressionRow -> bool) (mark1 mark2 : ImpressionRow -> ImpressionRow)
    (l : list ImpressionRow) :
  (forall i, hit (mark1 i) = hit i) ->
  (forall i, imp_completed (mark1 i) = true) ->
  (forall i, imp_completed (mark2 i) = true) ->
  imp_completed <$> update_where hit mark2 (update_where hit mark1 l)
  = imp_completed <$> update_where hit mark1 l.
Proof.
  intros Hhit H1 H2. induction l as [|i l IH]; [reflexivity|].
  cbn. destruct (hit i) eqn:E.
  - rewrite Hhit, E, H1, H2. f_equal. exact IH.
  - rewrite E. f_equal. exact IH.
Qed.

Lemma completions_bumped
    (cid : Z) (bump : CampaignRow -> CampaignRow) (cs : list CampaignRow) :
  (forall c, campaign_id (bump c) = campaign_id c) ->
  (forall c, completions (bump c) = completions c + 1) ->
  completions <$>
    List.filter (fun c => campaign_id c =? cid)
      (update_where (fun c => campaign_id c =? cid) bump cs)
  = Z.succ <$> (completions <$> List.filter (fun c => campaign_id c =? cid) cs).
Proof.
  intros Hid Hk. induction cs as [|c cs IH]; [reflexivity|].
  cbn. destruct (campaign_id c =? cid) eqn:E.
  - rewrite Hid, E. cbn. rewrite Hk. f_equal. exact IH.
  - rewrite E. exact IH.
Qed.

(** The first successful call: the campaign of the impression gains one
    completion and the impression keeps its campaign. *)
Lemma recordCompletion_once
    (now : Timestamp) (db : Db) (impressionId cid : Z) :
  campaign_of_impression db impressionId = Some cid ->
  let s1 := (recordCompletion true true now db impressionId).2 in
  campaign_of_impression s1 impressionId = Some cid
  /\ completions_of s1 cid = Z.succ <$> completions_of db cid.
Proof.
  intros Hc. cbn zeta.
  assert (Hc1 :
    campaign_of_impression
      (with_ad_impressions db
         (update_where (fun i => impression_id i =? impressionId)
            (fun i =>
               {| impression_id := impression_id i;
                  imp_campaign_id := imp_campaign_id i;
                  imp_user_id := imp_user_id i;
                  tracking_id := tracking_id i;
                  imp_revenue := imp_revenue i;
                  imp_completed := true;
                  completed_at := Some now;
                  impression_date := impression_date i;
                  imp_created_at := imp_created_at i |})
            (ad_impressions db))) impressionId = Some cid).
  { unfold campaign_of_impression in *.
    cbn [ad_impressions with_ad_impressions].
    rewrite find_update_where; auto. }
  unfold recordCompletion. cbn [negb snd].
  rewrite Hc1. split.
  - unfold campaign_of_impression in *. exact Hc1.
  - unfold completions_of.
    cbn [ad_campaigns with_ad_campaigns with_ad_impressions].
    apply completions_bumped; reflexivity.
Qed.

(** The completion beacon of the middleware marks impressions only: it
    never reaches the campaign counters, and repeating it at the same
    instant changes nothing more. *)
Lemma trackAdCompletion_repeated
    (ok : bool) (now : Timestamp) (db : Db)
    (trackingId : option string) (userId : Z) :
  let first := AdMiddleware.trackAdCompletion ok now db trackingId userId in
  ad_campaigns first.2 = ad_campaigns db
  /\ AdMiddleware.trackAdCompletion ok now first.2 trackingId userId = first.
Proof.
  cbn zeta. unfold AdMiddleware.trackAdCompletion.
  destruct trackingId as [tid|]; [|split; reflexivity].
  destruct (String.eqb tid ""); [split; reflexivity|].
  destruct ok; cbn [negb]; [|split; reflexivity].
  split; [reflexivity|]. cbn [snd]. f_equal.
  destruct db as [us ts tu cs imps]. unfold with_ad_impressions. cbn. f_equal.
  unfold update_where. rewrite <- list_fmap_compose.
  apply list_fmap_ext. intros _ i _. cbn.
  destruct i as [iid cid uid [t|] rev done at_ day created]; cbn;
    [|reflexivity].
  destruct (String.eqb t tid && (uid =? userId)) eqn:E; cbn; rewrite E;
    reflexivity.
Qed.

End CompletionProperties.

Section CompletionClaims.
Import JS Store AdCampaignModel Spec Fixtures.

(** C8, counterexample: impression 1 belongs to campaign 1, which starts
    with 0 completions.  Reporting the completion twice, both times at
    second 2000, leaves the counter at 1 after the first call and at 2
    after the second. *)
Lemma second_completion_counts_again :
  let s1 := (recordCompletion true true 2000 db0 1).2 in
  let s2 := (recordCompletion true true 2000 s1 1).2 in
  completions_of db0 1 = [0]
  /\ completions_of s1 1 = [1]
  /\ completions_of s2 1 = [2]
  /\ s2 <> s1.
Proof.
  cbn zeta. repeat split.
  intros H. apply (f_equal (fun s => completions_of s 1)) in H.
  vm_compute in H. discriminate.
Qed.

(** C8, amended: a repeated [recordCompletion] of a known impression is
    idempotent on the impressions only: the second call leaves every
    impression's [completed] flag as the first call set it and returns
    the same value, and no other table is touched; the campaign's
    [completions] counter, however, is incremented by each call, so that
    after two calls it is two above its initial value. *)
Theorem recordCompletion_twice
    (now1 now2 : Timestamp) (db : Db) (impressionId cid : Z) :
  campaign_of_impression db impressionId = Some cid ->
  let first := recordCompletion true true now1 db impressionId in
  let second := recordCompletion true true now2 first.2 impressionId in
  imp_completed <$> ad_impressions second.2
  = imp_completed <$> ad_impressions first.2
  /\ second.1 = first.1
  /\ users second.2 = users db
  /\ tasks second.2 = tasks db
  /\ completions_of first.2 cid = Z.succ <$> completions_of db cid
  /\ completions_of second.2 cid
     = Z.succ <$> (Z.succ <$> completions_of db cid).
Proof.
  intros Hc. cbn zeta.
  destruct (recordCompletion_once now1 db impressionId cid Hc) as [Hc1 Hk1].
  destruct (recordCompletion_once now2 _ impressionId cid Hc1) as [_ Hk2].
  cbn zeta in *. rewrite Hk2, Hk1.
  repeat split.
  - unfold recordCompletion.
    cbn [negb fst snd ad_impressions with_ad_campaigns with_ad_impressions].
    apply completed_update_where_twice; reflexivity.
  - unfold recordCompletion.
    cbn [negb fst snd ad_impressions with_ad_campaigns with_ad_impressions].
    rewrite matched_update_where; reflexivity.
Qed.

Lemma recordCompletion_twice_witness :
  completions_of
    (recordCompletion true true 2000
       (recordCompletion true true 2000 db0 1).2 1).2 1
  = Z.succ <$> (Z.succ <$> completions_of db0 1).
Proof.
  apply (recordCompletion_twice 2000 2000 db0 1 1). reflexivity.
Defined.

End CompletionClaims.

(** ** The daily reset *)

Section ResetClaims.
Import JS Store UserModel Spec Fixtures.

Lemma zero_counts_fixed (u : UserRow) :
  u = zero_counts u <-> tasks_today u = Some 0 /\ ads_today u = Some 0.
Proof.
  split.
  - intros H. split.
    + rewrite H. reflexivity.
    + rewrite H. reflexivity.
  - intros [Ht Ha]. destruct u; cbn in *. subst. reflexivity.
Qed.

(** C10, counterexample: the user was last updated on day 0 with 3 tasks
    counted; a reset on day 1 (second 86400) also moves [updated_at]
    from 100 to 86400. *)
Lemma reset_refreshes_updated_at :
  user_updated_at <$> users db0 !! 1 = Some 100
  /\ user_updated_at <$> users (resetDailyCounts true 86400 db0).2 !! 1
     = Some 86400.
Proof. split; reflexivity. Qed.

(** C10, amended: the daily reset touches only [users] rows whose last
    update predates the current day; there it sets [tasks_today] and
    [ads_today] to 0 and, through the column's ON UPDATE rule, refreshes
    [updated_at] when one of the two counters actually changes.  Every
    other column, in particular [last_ad_task_count] and [total_ads], and
    every other table is unchanged. *)
Theorem resetDailyCounts_frame
    (ok : bool) (now : Timestamp) (db : Db) (userId : Z) (u : UserRow) :
  users db !! userId = Some u ->
  let db' := (resetDailyCounts ok now db).2 in
  tasks db' = tasks db
  /\ task_usage db' = task_usage db
  /\ ad_campaigns db' = ad_campaigns db
  /\ ad_impressions db' = ad_impressions db
  /\ exists u',
       users db' !! userId = Some u'
       /\ same_other_columns u u'
       /\ if ok && stale now u
          then tasks_today u' = Some 0
               /\ ads_today u' = Some 0
               /\ user_updated_at u'
                  = if decide (tasks_today u = Some 0 /\ ads_today u = Some 0)
                    then user_updated_at u else now
          else u' = u.
Proof.
  intros Hu. cbn zeta. unfold resetDailyCounts.
  destruct ok; cbn [negb snd andb].
  2:{ repeat split; try reflexivity. exists u.
      split; [exact Hu|]. split; [|reflexivity].
      unfold same_other_columns. repeat split. }
  repeat split; try reflexivity.
  exists (reset_row now u). split.
  { cbn [users with_users]. rewrite lookup_fmap, Hu. reflexivity. }
  unfold reset_row. destruct (stale now u) eqn:Hs.
  2:{ split; [|reflexivity]. unfold same_other_columns. repeat split. }
  unfold on_update.
  destruct (decide (u = zero_counts u)) as [Heq|Hne].
  - pose proof (proj1 (zero_counts_fixed u) Heq) as [Ht Ha].
    split; [unfold same_other_columns; repeat split|].
    rewrite decide_True by auto. auto.
  - split; [unfold same_other_columns; repeat split|].
    cbn. rewrite decide_False; [auto|].
    intros H. apply Hne. apply zero_counts_fixed. exact H.
Qed.

Lemma resetDailyCounts_frame_witness :
  exists u',
    users (resetDailyCounts true 86400 db0).2 !! 1 = Some u'
    /\ same_other_columns john u'
    /\ tasks_today u' = Some 0
    /\ ads_today u' = Some 0
    /\ user_updated_at u' = 86400.
Proof.
  destruct (resetDailyCounts_frame true 86400 db0 1 john eq_refl)
    as (_ & _ & _ & _ & u' & Hu' & Hsame & Hrest).
  exists u'. cbn in Hrest. destruct Hrest as (Ht & Ha & Hup).
  repeat split; try assumption; apply Hsame.
Defined.

End ResetClaims.

(** ** The daily quota *)

Section QuotaProperties.
Import JS Store Orchestrator EventLoop Spec Fixtures.

Lemma canProcessTask_limit
    (ok : bool) (now : Timestamp) (db : Db) (userId : Z)
    (userTier taskType : string) (limits : gmap string Z) (L : Z) :
  taskLimits !! userTier = Some limits ->
  limits !! taskType = Some L ->
  canProcessTask ok now db userId userTier taskType
  = Ok (bool_decide (L = -1)
        || (getTodayTaskCount ok now db userId taskType <? L)).
Proof.
  intros Ht Hl. unfold canProcessTask. rewrite Ht, Hl.
  destruct (decide (L = -1)) as [->|Hne].
  - rewrite !bool_decide_eq_true_2 by reflexivity. reflexivity.
  - rewrite !bool_decide_eq_false_2 by congruence. reflexivity.
Qed.

(** A request handled without interruption is [Arrive], [Resume] and
    [Finish] in a row: the three events split [processTask] at its two
    [await]s. *)
Lemma processTask_as_events
    (encrypt : string -> string) (stringify : Task -> string)
    (stringify_error : string -> string)
    (r : nat) (task : Task) (user : User) (env : ProcessEnv) (s : Sys) :
  inflight s !! r = None ->
  recording s !! r = None ->
  let s' :=
    run encrypt stringify stringify_error
      [Arrive r task user env; Resume r env; Finish r] s in
  state s' = (processTask encrypt env (state s) task user).2
  /\ responses s'
     = responses s ++ [(r, (processTask encrypt env (state s) task user).1)].
Proof.
  intros Hfresh1 Hfresh2. cbn zeta. unfold run, processTask.
  cbn [fold_left]. cbn [step]. rewrite Hfresh1, Hfresh2.
  cbn [inflight state responses recording running].
  rewrite lookup_insert_eq. cbn [if_decision if_task if_user].
  destruct (checkLimit (count_ok env) (count_now env) (db (state s)) task user)
    as [userTier|error].
  - destruct (enqueue encrypt env (state s) task user userTier)
      as [queuedTask st'].
    cbn [recording state responses]. rewrite lookup_insert_eq.
    split; reflexivity.
  - cbn [recording state responses]. rewrite Hfresh2.
    split; reflexivity.
Qed.

(** The two outcomes of [processTask] on a valid task. *)
Lemma processTask_outcome
    (encrypt : string -> string) (env : ProcessEnv) (st : State)
    (task : Task) (user : User) (taskType : string)
    (limits : gmap string Z) (L : Z) :
  validateTask task (tierOf user) = None ->
  type task = Some taskType ->
  taskLimits !! tierOf user = Some limits ->
  limits !! taskType = Some L ->
  processTask encrypt env st task user
  = if bool_decide (L = -1)
       || (getTodayTaskCount (count_ok env) (count_now env) (db st)
             (id user) taskType <? L)
    then (Ok (receiptFor (enqueue encrypt env st task user (tierOf user)).2
                (enqueue encrypt env st task user (tierOf user)).1),
          (enqueue encrypt env st task user (tierOf user)).2)
    else (Throw ("Daily " +:+ taskType +:+ " task limit reached for "
                 +:+ tierOf user +:+ " tier."),
          st).
Proof.
  intros Hvalid Htype Ht Hl.
  unfold processTask, checkLimit. cbv zeta. rewrite Hvalid, Htype.
  cbn [default].
  rewrite (canProcessTask_limit _ _ _ _ _ _ _ _ Ht Hl).
  cbn [mbind Exn_bind].
  destruct (bool_decide (L = -1)
            || (getTodayTaskCount (count_ok env) (count_now env) (db st)
                  (id user) taskType <? L)).
  - destruct (enqueue encrypt env st task user (tierOf user)). reflexivity.
  - reflexivity.
Qed.

End QuotaProperties.

Section QuotaClaims.
Import JS Store Orchestrator EventLoop Spec Fixtures.

(** C1, at the failing input: the free tier allows 5 text tasks a day,
    and the check does deny a request once five text tasks of the day
    are stored for the identity.  But nothing stores them: six calls of
    [processTask] made one after the other, each run to its end and
    followed by a firing of the queue timer that processes the task, are
    all six answered with a receipt; the timer has emptied the queue and
    the [tasks] table, which the check counts, is still empty. *)
Lemma sequential_requests_exceed_limit :
  let s' := run plain prompt_of plain (concat (sequential <$> seq 0 6)) sys0 in
  (taskLimits !! "free") ≫= (fun limits => limits !! "text") = Some 5
  /\ getTodayTaskCount true 1000 db_five 1 "text" = 5
  /\ canProcessTask true 1000 db_five 1 "free" "text" = Ok false
  /\ is_accepted <$> responses s' = [true; true; true; true; true; true]
  /\ taskQueue (state s') = []
  /\ running s' = []
  /\ tasks (db (state s')) = []
  /\ getTodayTaskCount true 1000 (db (state s')) 1 "text" = 0.
Proof. cbn zeta. repeat split; vm_compute; reflexivity. Qed.

(** C9, at the failing input: ten requests for a text task of one
    free-tier identity (limit 5) reach the count query before any of them
    is stored; all ten are accepted, and each receipt, built after the
    ten tasks were pushed, reports position 10. *)
Lemma concurrent_requests_exceed_limit :
  (taskLimits !! "free") ≫= (fun limits => limits !! "text") = Some 5
  /\ accepted
       (run plain prompt_of plain
          (((fun n => Arrive n text_task free_user (env n)) <$> seq 0 10)
           ++ ((fun n => Resume n (env n)) <$> seq 0 10)
           ++ (Finish <$> seq 0 10))
          sys0)
     = 10%nat
  /\ positions
       (run plain prompt_of plain
          (((fun n => Arrive n text_task free_user (env n)) <$> seq 0 10)
           ++ ((fun n => Resume n (env n)) <$> seq 0 10)
           ++ (Finish <$> seq 0 10))
          sys0)
     = replicate 10 10.
Proof. repeat split; vm_compute; reflexivity. Qed.

End QuotaClaims.

(** ** Persistence failures *)

Section FailureClaims.
Import JS Store AdCampaignModel PremiumAdManager Orchestrator Spec Fixtures.

(** C7, counterexample: the count query fails, and the free-tier text
    request is allowed and queued instead of being denied. *)
Lemma failed_count_read_is_allowed :
  canProcessTask false 1000 db0 1 "free" "text" = Ok true
  /\ is_receipt
       (processTask plain
          {| count_ok := false; count_now := 1000; queue_now := 1000;
             id_rnd := "a"; usage_ok := true; usage_now := 1000 |}
          st0 text_task free_user).1
     = true.
Proof. split; vm_compute; reflexivity. Qed.

(** C7, amended: both paths fail open.  When the read of the quota check
    fails the count is taken to be 0, so the request is allowed unless
    the limit is 0; when recording the impression fails after an ad was
    found due, [serveAd] still returns the ad that [selectAd] selected,
    with a tracking id built locally, and raises no error. *)
Theorem persistence_failures_fail_open :
  (forall now db userId userTier taskType limits L,
      taskLimits !! userTier = Some limits ->
      limits !! taskType = Some L ->
      getTodayTaskCount false now db userId taskType = 0
      /\ canProcessTask false now db userId userTier taskType
         = Ok (bool_decide (L = -1) || (0 <? L)))
  /\ (forall env db userId userTier userStats,
        shouldServeAd userTier userStats = true ->
        insert_ok env = false \/ update_ok env = false ->
        let ad :=
          selectAd (select_ok env) (select_now_sql env) (select_now_js env)
            db userTier in
        (serveAd env db userId userTier userStats).1
        = AdRequired (ad_content_url ad) (ad_duration ad) (ad_cpm ad)
            (ad_id ad)
            (LocalId ("tracking_" +:+ pretty (track_now env) +:+ "_"
                      +:+ track_rnd env))).
Proof.
  split.
  - intros now db userId userTier taskType limits L Ht Hl.
    split; [reflexivity|].
    rewrite (canProcessTask_limit _ _ _ _ _ _ _ _ Ht Hl). reflexivity.
  - intros env db userId userTier userStats Hdue Hfail. cbn zeta.
    unfold serveAd. rewrite Hdue. cbn [negb].
    set (ad := selectAd _ _ _ _ _).
    unfold trackImpression, recordImpression.
    destruct (ad_id ad) as [cid|s]; [|reflexivity].
    destruct (insert_ok env); cbn [negb]; [|reflexivity].
    destruct Hfail as [Hfail|Hfail]; [discriminate|].
    rewrite Hfail. reflexivity.
Qed.

Lemma persistence_failures_fail_open_witness :
  (canProcessTask false 1000 db0 1 "free" "text"
   = Ok (bool_decide (5 = -1) || (0 <? 5)))
  /\ (serveAd failing_insert db0 1 "free" due_stats).1
     = AdRequired "https://cdn.example.com/ads/ai-tools.mp4" 30 100
         (NumId 2) (LocalId "tracking_1000_x").
Proof.
  split.
  - apply (proj1 persistence_failures_fail_open 1000 db0 1 "free" "text"
             (list_to_map
                [("text", 5); ("image", 1); ("code", 1);
                 ("research", 1); ("analysis", 1); ("voice", 0)])
             5 eq_refl eq_refl).
  - apply (proj2 persistence_failures_fail_open failing_insert db0 1 "free"
             due_stats eq_refl (or_introl eq_refl)).
Defined.

End FailureClaims.

(* ===================================================================== *)
(** * Part III: further properties of the code                            *)
(* ===================================================================== *)

(** ** The factors of the CPM optimizer *)

Section OptimizerFactors.
Import JS CPMOptimizer.

Lemma table_value (l : list (string * Q)) (k : string) (v : Q) (P : Q -> Prop) :
  Forall (fun kv => P kv.2) l ->
  (list_to_map l : gmap string Q) !! k = Some v ->
  P v.
Proof.
  intros HF H. apply elem_of_list_to_map_2 in H.
  rewrite Forall_forall in HF. exact (HF _ H).
Qed.

Lemma or_default_range (v : option Q) (d lo hi : Q) :
  (forall x, v = Some x -> Qeq_bool x 0 = true \/ (lo <= x <= hi)%Q) ->
  (lo <= d <= hi)%Q ->
  (lo <= or_default v d <= hi)%Q.
Proof.
  intros Hv Hd. unfold or_default. destruct v as [x|]; [|exact Hd].
  destruct (Hv x eq_refl) as [Hz|Hr].
  - rewrite Hz. exact Hd.
  - destruct (Qeq_bool x 0); [exact Hd | exact Hr].
Qed.

Lemma table_factor_range
    (l : list (string * Q)) (k : option string) (d lo hi : Q) :
  Forall (fun kv => Qeq_bool kv.2 0 = true \/ (lo <= kv.2 <= hi)%Q) l ->
  (lo <= d <= hi)%Q ->
  (lo <= or_default (prop (list_to_map l) k) d <= hi)%Q.
Proof.
  intros HF Hd. apply or_default_range; [|exact Hd].
  intros x Hx. destruct k as [k|]; [|discriminate].
  exact (table_value l k x
           (fun y => Qeq_bool y 0 = true \/ (lo <= y <= hi)%Q) HF Hx).
Qed.

Ltac closed_range := split; apply Qle_bool_iff; reflexivity.

Ltac table_range :=
  repeat (apply List.Forall_cons;
          [cbn; first [ left; reflexivity | right; closed_range ] |]);
  apply List.Forall_nil.

(** X1: whatever the clock, the tier, the country and the behaviour
    signals, each of the five factors is strictly positive and stays in a
    fixed range; the tier factor in particular is never 0, not even for
    the enterprise tier. *)
Theorem factors_in_range
    (now : DateReading) (tier country : option string)
    (behavior : option UserBehavior) :
  (0.8 <= getTimeOfDayFactor now <= 1.2)%Q
  /\ (0.9 <= getDayOfWeekFactor now <= 1.2)%Q
  /\ (1 <= getUserTierFactor tier <= 1.5)%Q
  /\ (0.8 <= getGeographicFactor country <= 1.3)%Q
  /\ (0.8 <= getBehavioralFactor behavior <= 1.518)%Q.
Proof.
  split; [|split; [|split; [|split]]].
  - apply (table_factor_range
             [("00-06", 0.8%Q); ("06-12", 1.2%Q); ("12-18", 1.0%Q);
              ("18-24", 1.1%Q)]
             (Some (timeSlot (getHours now))));
      [table_range | closed_range].
  - apply (table_factor_range
             [("0", 0.9%Q); ("1", 1.0%Q); ("2", 1.0%Q); ("3", 1.0%Q);
              ("4", 1.0%Q); ("5", 1.1%Q); ("6", 1.2%Q)]
             (Some (pretty (getDay now))));
      [table_range | closed_range].
  - apply (table_factor_range
             [("free", 1.0%Q); ("basic", 1.2%Q); ("premium", 1.5%Q);
              ("enterprise", 0.0%Q)] tier);
      [table_range | closed_range].
  - apply (table_factor_range
             [("US", 1.3%Q); ("GB", 1.2%Q); ("EU", 1.1%Q); ("ZA", 1.0%Q);
              ("default", 0.8%Q)] country);
      [table_range | closed_range].
  - unfold getBehavioralFactor. cbv zeta.
    destruct (gt (adCompletionRate (default emptyBehavior behavior)) 0.8);
      destruct (lt (adCompletionRate (default emptyBehavior behavior)) 0.3);
      destruct (gt (avgSessionDuration (default emptyBehavior behavior)) 600);
      destruct (gt (taskCompletionRate (default emptyBehavior behavior)) 0.7);
      closed_range.
Qed.

Lemma Math_round_near (x : Q) :
  (x - (1 # 2) <= Math_round x <= x + (1 # 2))%Q.
Proof.
  unfold Math_round.
  pose proof (Qfloor_le (x + (1 # 2))) as Hlo.
  pose proof (Qlt_floor (x + (1 # 2))) as Hhi.
  rewrite inject_Z_plus in Hhi. change (inject_Z 1) with 1%Q in Hhi.
  split; lra.
Qed.

Lemma Math_max_le (a b u : Q) :
  (a <= u)%Q -> (b <= u)%Q -> (Math_max a b <= u)%Q.
Proof. intros Ha Hb. unfold Math_max. destruct (Qle_bool a b); assumption. Qed.

Lemma scale_step (p u f h : Q) :
  (0 <= p <= u)%Q -> (0 <= f <= h)%Q -> (0 <= p * f <= u * h)%Q.
Proof.
  intros Hp Hf. split.
  - apply Qmult_le_0_compat; tauto.
  - apply Qmult_le_compat_nonneg; tauto.
Qed.

(** X2: for a base CPM that is not negative the effective CPM lies, up to
    the half cent of the final rounding, between half the base CPM (the
    floor) and 4.262544 times the base CPM (the product of the largest
    factors). *)
Theorem cpm_within_bounds
    (now1 now2 : DateReading) (baseCPM : Q) (context : Context) :
  (0 <= baseCPM)%Q ->
  (baseCPM * 0.5 - 0.005
   <= calculateOptimalCPM now1 now2 baseCPM context
   <= baseCPM * 4.262544 + 0.005)%Q.
Proof.
  intros Hbase.
  destruct (factors_in_range now1 (ctx_userTier context)
              (ctx_country context) (ctx_userBehavior context))
    as (H1 & _ & H3 & H4 & H5).
  destruct (factors_in_range now2 (ctx_userTier context)
              (ctx_country context) (ctx_userBehavior context))
    as (_ & H2 & _).
  unfold calculateOptimalCPM. cbv zeta.
  set (f1 := getTimeOfDayFactor now1) in *.
  set (f2 := getDayOfWeekFactor now2) in *.
  set (f3 := getUserTierFactor (ctx_userTier context)) in *.
  set (f4 := getGeographicFactor (ctx_country context)) in *.
  set (f5 := getBehavioralFactor (ctx_userBehavior context)) in *.
  assert (Hp : (0 <= baseCPM * f1 * f2 * f3 * f4 * f5
                <= baseCPM * 1.2 * 1.2 * 1.5 * 1.3 * 1.518)%Q).
  { repeat apply scale_step; try (split; lra). }
  set (o := (baseCPM * f1 * f2 * f3 * f4 * f5)%Q) in *.
  assert (Hm : (baseCPM * 0.5 <= Math_max o (baseCPM * 0.5)
                <= baseCPM * 4.262544)%Q).
  { split; [apply Math_max_ge_r|]. apply Math_max_le; lra. }
  set (m := Math_max o (baseCPM * 0.5)%Q) in *.
  pose proof (Math_round_near (m * 100)) as [Hlo Hhi].
  set (r := Math_round (m * 100)) in *.
  split.
  - apply Qle_trans with ((m * 100 - (1 # 2)) / 100)%Q.
    + apply Qle_trans with (m - 0.005)%Q; [lra|].
      apply Qle_lteq. right. field.
    + apply Qdiv100_mono. exact Hlo.
  - apply Qle_trans with ((m * 100 + (1 # 2)) / 100)%Q.
    + apply Qdiv100_mono. exact Hhi.
    + apply Qle_trans with (m + 0.005)%Q; [|lra].
      apply Qle_lteq. right. field.
Qed.

Lemma cpm_within_bounds_witness :
  (100 * 0.5 - 0.005
   <= calculateOptimalCPM
        {| getHours := 20; getDay := 6 |} {| getHours := 20; getDay := 6 |}
        100
        {| ctx_userTier := Some "premium"; ctx_country := Some "US";
           ctx_userBehavior := None |}
   <= 100 * 4.262544 + 0.005)%Q.
Proof.
  apply cpm_within_bounds. discriminate.
Defined.

End OptimizerFactors.

(** ** The performance history of the optimizer *)

Section OptimizerHistory.
Import JS CPMOptimizer.

(** X3: [recordAdPerformance] appends the new record and keeps the last
    1000 records only: whatever the history was, the new history has
    [min (n + 1) 1000] records, is a suffix of the old history followed by
    the new record, and ends with the new record. *)
Theorem history_keeps_last_1000
    (now : Z) (historicalData : list HistoryRecord) (p : AdPerformance) :
  let record :=
    {| h_timestamp := default now (perf_timestamp p);
       h_revenue := perf_revenue p;
       h_completed := perf_completed p;
       h_context := perf_context p |} in
  let history := recordAdPerformance now historicalData p in
  length history = Nat.min (S (length historicalData)) 1000
  /\ last history = Some record
  /\ exists k, history = drop k historicalData ++ [record].
Proof.
  cbn zeta. unfold recordAdPerformance. cbv zeta.
  set (record := {| h_timestamp := default now (perf_timestamp p);
                    h_revenue := perf_revenue p;
                    h_completed := perf_completed p;
                    h_context := perf_context p |}).
  rewrite length_app. cbn [length].
  destruct (1000 <? length historicalData + 1)%nat eqn:E.
  - apply Nat.ltb_lt in E. unfold slice_last.
    rewrite length_app. cbn [length].
    rewrite drop_app_le by lia.
    repeat split.
    + rewrite length_app, length_drop. cbn [length]. lia.
    + apply last_snoc.
    + eexists. reflexivity.
  - apply Nat.ltb_ge in E. repeat split.
    + rewrite length_app. cbn [length]. lia.
    + apply last_snoc.
    + exists 0%nat. reflexivity.
Qed.

Lemma filter_length_le {A} (f : A -> bool) (l : list A) :
  (length (List.filter f l) <= length l)%nat.
Proof.
  induction l as [|x l IH]; cbn; [lia|]. destruct (f x); cbn; lia.
Qed.

Lemma filter_length_mono {A} (f g : A -> bool) (l : list A) :
  (forall x, f x = true -> g x = true) ->
  (length (List.filter f l) <= length (List.filter g l))%nat.
Proof.
  intros Himp. induction l as [|x l IH]; cbn; [lia|].
  destruct (f x) eqn:Ef.
  - rewrite (Himp x Ef). cbn. lia.
  - destruct (g x); cbn; lia.
Qed.

(** X4: the metrics of [getPerformanceMetrics] are consistent for every
    history, clock and time frame: the completion rate is a percentage
    between 0 and 100, the number of impressions does not exceed the size
    of the history, and a window without records reports zeros and no
    time frame. *)
Theorem metrics_are_consistent
    (now : Z) (historicalData : list HistoryRecord)
    (timeframe : option string) :
  let m := getPerformanceMetrics now historicalData timeframe in
  (0 <= completionRate m <= 100)%Q
  /\ 0 <= totalImpressions m <= Z.of_nat (length historicalData)
  /\ (totalImpressions m = 0 ->
      totalRevenue m = 0%Q /\ avgCPM m = 0%Q /\ completionRate m = 0%Q
      /\ m_timeframe m = None).
Proof.
  cbn zeta. unfold getPerformanceMetrics. cbv zeta.
  set (recent := recentData now (default "7d" timeframe) historicalData).
  assert (Hlen : (length recent <= length historicalData)%nat)
    by apply filter_length_le.
  destruct (length recent =? 0)%nat eqn:E.
  - cbn. repeat split; try lia; discriminate.
  - apply Nat.eqb_neq in E. cbn [completionRate totalImpressions].
    assert (Hpos : (0 <? Z.of_nat (length recent)) = true)
      by (apply Z.ltb_lt; lia).
    rewrite Hpos.
    pose proof (filter_length_le h_completed recent) as Hc.
    set (c := length (List.filter h_completed recent)) in *.
    set (t := length recent) in *.
    assert (Ht : (0 < inject_Z (Z.of_nat t))%Q).
    { change 0%Q with (inject_Z 0). rewrite <- Zlt_Qlt. lia. }
    assert (Hc0 : (0 <= inject_Z (Z.of_nat c))%Q).
    { change 0%Q with (inject_Z 0). rewrite <- Zle_Qle. lia. }
    assert (Hct : (inject_Z (Z.of_nat c) <= inject_Z (Z.of_nat t))%Q).
    { rewrite <- Zle_Qle. lia. }
    split; [|split; [lia | intros H; lia]].
    split.
    + apply Qmult_le_0_compat; [|discriminate].
      apply Qle_shift_div_l; [exact Ht|]. lra.
    + apply Qle_trans with (1 * 100)%Q; [|discriminate].
      apply Qmult_le_compat_r; [|discriminate].
      apply Qle_shift_div_r; [exact Ht|]. lra.
Qed.

Lemma metrics_are_consistent_witness :
  totalRevenue (getPerformanceMetrics 1000 [] (Some "24h")) = 0%Q.
Proof.
  apply (proj2 (proj2 (metrics_are_consistent 1000 [] (Some "24h")))).
  reflexivity.
Defined.

(** X5: the three named time frames are nested: the last 24 hours report
    at most as many impressions as the last 7 days, and these at most as
    many as the last 30 days; any other time frame name counts as 7
    days. *)
Theorem metrics_windows_nested
    (now : Z) (historicalData : list HistoryRecord) (other : string) :
  totalImpressions (getPerformanceMetrics now historicalData (Some "24h"))
  <= totalImpressions (getPerformanceMetrics now historicalData (Some "7d"))
  /\ totalImpressions (getPerformanceMetrics now historicalData (Some "7d"))
     <= totalImpressions (getPerformanceMetrics now historicalData (Some "30d"))
  /\ (other <> "24h" -> other <> "30d" ->
      totalImpressions (getPerformanceMetrics now historicalData (Some other))
      = totalImpressions (getPerformanceMetrics now historicalData None)).
Proof.
  assert (Htotal : forall tf,
    totalImpressions (getPerformanceMetrics now historicalData tf)
    = Z.of_nat (length (recentData now (default "7d" tf) historicalData))).
  { intros tf. unfold getPerformanceMetrics. cbv zeta.
    destruct (length (recentData now (default "7d" tf) historicalData) =? 0)%nat
      eqn:E; cbn; [|reflexivity].
    apply Nat.eqb_eq in E. rewrite E. reflexivity. }
  rewrite !Htotal. cbn [default]. unfold id, recentData. cbv zeta.
  split; [|split].
  - apply inj_le, filter_length_mono. intros x. cbn. lia.
  - apply inj_le, filter_length_mono. intros x. cbn. lia.
  - intros H24 H30. unfold window_days.
    destruct (String.eqb_spec other "24h"); [contradiction|].
    destruct (String.eqb_spec other "7d"); [reflexivity|].
    destruct (String.eqb_spec other "30d"); [contradiction|].
    reflexivity.
Qed.

Lemma metrics_windows_nested_witness :
  totalImpressions (getPerformanceMetrics 1000 [] (Some "1h"))
  = totalImpressions (getPerformanceMetrics 1000 [] None).
Proof.
  apply (proj2 (proj2 (metrics_windows_nested 1000 [] "1h"))); discriminate.
Defined.

End OptimizerHistory.

(** ** Ad frequency and serving *)

Section AdFrequency.
Import JS Store AdCampaignModel PremiumAdManager AdMiddleware Spec Fixtures.

Lemma adFrequency_entries (userTier : string) (f : Frequency) :
  adFrequency !! userTier = Some f ->
  (userTier = "free" /\ f = {| tasksPerAd := 2; maxAdsPerDay := 10 |})
  \/ (userTier = "basic" /\ f = {| tasksPerAd := 5; maxAdsPerDay := 8 |})
  \/ (userTier = "premium" /\ f = {| tasksPerAd := 200; maxAdsPerDay := 1 |})
  \/ (userTier = "enterprise" /\ f = {| tasksPerAd := 0; maxAdsPerDay := 0 |}).
Proof.
  intros H. unfold adFrequency in H. apply elem_of_list_to_map_2 in H.
  repeat (apply elem_of_cons in H; destruct H as [H|H];
          [injection H as -> ->; tauto|]).
  inversion H.
Qed.

Lemma shouldServeAd_true (userTier : string) (userStats : UserStats) :
  shouldServeAd userTier userStats = true ->
  exists f,
    adFrequency !! userTier = Some f
    /\ userTier <> "enterprise"
    /\ 2 <= tasksPerAd f
       <= default 0 (tasksCount userStats)
          - default 0 (lastAdTaskCount userStats)
    /\ default 0 (adsToday userStats) < maxAdsPerDay f <= 10.
Proof.
  unfold shouldServeAd. destruct (adFrequency !! userTier) as [f|] eqn:Ef;
    [|discriminate].
  intros H. exists f. split; [reflexivity|].
  destruct (tasksPerAd f =? 0) eqn:E0; [discriminate|].
  apply Z.eqb_neq in E0. apply andb_prop in H. destruct H as [Hgap Hcap].
  apply Z.leb_le in Hgap. apply Z.ltb_lt in Hcap.
  destruct (adFrequency_entries _ _ Ef)
    as [[-> ->]|[[-> ->]|[[-> ->]|[-> ->]]]]; cbn in *;
    repeat split; try lia; discriminate.
Qed.

(** X6: an ad is due only within the frequency policy: the tier is a
    known tier other than enterprise, at least [tasksPerAd] (never fewer
    than 2) tasks were counted since the last ad, and fewer ads than the
    tier's daily cap (never more than 10) were shown today. *)
Theorem ad_due_only_within_policy
    (userTier : string) (userStats : UserStats) :
  shouldServeAd userTier userStats = true ->
  exists f,
    adFrequency !! userTier = Some f
    /\ userTier <> "enterprise"
    /\ 2 <= tasksPerAd f
       <= default 0 (tasksCount userStats)
          - default 0 (lastAdTaskCount userStats)
    /\ default 0 (adsToday userStats) < maxAdsPerDay f <= 10.
Proof. exact (shouldServeAd_true userTier userStats). Qed.

Lemma ad_due_only_within_policy_witness :
  exists f,
    adFrequency !! "free" = Some f
    /\ "free" <> "enterprise"
    /\ 2 <= tasksPerAd f <= 3 - 1
    /\ 0 < maxAdsPerDay f <= 10.
Proof.
  apply (ad_due_only_within_policy "free"
           {| tasksCount := Some 3; lastAdTaskCount := Some 1;
              adsToday := None |}).
  reflexivity.
Defined.

Lemma getUserStats_keys (ok : bool) (db : Db) (userId : option Z) :
  asUserStats (getUserStats ok db userId)
  = {| tasksCount := None; lastAdTaskCount := None; adsToday := None |}.
Proof.
  unfold getUserStats. destruct userId as [uid|]; [|reflexivity].
  destruct (uid =? 0); [reflexivity|].
  destruct ok; [|reflexivity]. cbn [try_catch].
  destruct (users db !! uid) as [u|]; reflexivity.
Qed.

(** X7: the handler of [GET /premium] never serves an ad.  The statistics
    it reads carry the column names [tasks_today], [ads_today] and
    [last_ad_task_count], whereas [shouldServeAd] reads [tasksCount],
    [lastAdTaskCount] and [adsToday]; the gap since the last ad is thus
    always 0, no ad is due, the answer is 404 and nothing is written. *)
Theorem premium_route_never_serves
    (stats_read_ok : bool) (env : ServeEnv) (db : Db)
    (userId : option Z) (subscriptionTier : option string) :
  servePremium stats_read_ok env db userId subscriptionTier = (NotFound, db).
Proof.
  unfold servePremium. cbv zeta. rewrite getUserStats_keys.
  set (userTier := match subscriptionTier with
                   | Some t => if String.eqb t "" then "free" else t
                   | None => "free"
                   end).
  unfold serveAd.
  destruct (shouldServeAd userTier
              {| tasksCount := None; lastAdTaskCount := None;
                 adsToday := None |}) eqn:E; [|reflexivity].
  apply shouldServeAd_true in E. destruct E as (f & _ & _ & Hgap & _).
  cbn in Hgap. lia.
Qed.

(** X9: the fallback ad is never booked.  When no campaign is eligible
    and an ad is due, [serveAd] returns the fallback with a locally built
    tracking id, and neither an impression row nor any campaign counter is
    written, whatever the outcome of the statements. *)
Theorem fallback_ad_is_never_booked
    (env : ServeEnv) (db : Db) (userId : Z) (userTier : string)
    (userStats : UserStats) :
  shouldServeAd userTier userStats = true ->
  eligible (select_ok env) (select_now_sql env) (select_now_js env) db
    userTier = [] ->
  let result := serveAd env db userId userTier userStats in
  result.1
  = AdRequired "https://cdn.example.com/ads/fallback-ad.mp4" 30 50.00
      (StrId "fallback")
      (LocalId ("tracking_" +:+ pretty (track_now env) +:+ "_"
                +:+ track_rnd env))
  /\ ad_impressions result.2 = ad_impressions db
  /\ ad_campaigns result.2 = ad_campaigns db.
Proof.
  intros Hdue Hnone. cbn zeta. unfold serveAd. rewrite Hdue. cbn [negb].
  destruct (selectAd_cases (select_ok env) (select_now_sql env)
              (select_now_js env) db userTier)
    as [[_ Hfb]|(x & rest & Hel & _)].
  2:{ rewrite Hel in Hnone. discriminate. }
  rewrite Hfb. cbn. unfold updateUserAdStats.
  destruct (stats_ok env); repeat split.
Qed.

Lemma fallback_ad_is_never_booked_witness :
  ad_impressions
    (serveAd
       {| select_ok := false; select_now_sql := 1000; select_now_js := 1000;
          insert_ok := true; update_ok := true; track_now := 1000;
          track_rnd := "x"; stats_ok := true; stats_now := 1000 |}
       db0 1 "free"
       {| tasksCount := Some 2; lastAdTaskCount := None;
          adsToday := None |}).2
  = ad_impressions db0.
Proof.
  apply (fallback_ad_is_never_booked
           {| select_ok := false; select_now_sql := 1000;
              select_now_js := 1000; insert_ok := true; update_ok := true;
              track_now := 1000; track_rnd := "x"; stats_ok := true;
              stats_now := 1000 |}
           db0 1 "free"
           {| tasksCount := Some 2; lastAdTaskCount := None;
              adsToday := None |}); reflexivity.
Defined.

End AdFrequency.

(** ** Booking a served campaign; revenue prediction; frequency tuning *)

Section AdBooking.
Import JS Store AdCampaignModel PremiumAdManager Spec Fixtures.

Lemma impressions_bumped
    (cid : Z) (bump : CampaignRow -> CampaignRow) (cs : list CampaignRow) :
  (forall c, impressions (bump c) = impressions c + 1) ->
  impressions <$> update_where (fun c => campaign_id c =? cid) bump cs
  = (fun c => if campaign_id c =? cid then impressions c + 1
              else impressions c) <$> cs.
Proof.
  intros Hk. unfold update_where. rewrite <- list_fmap_compose.
  apply list_fmap_ext. intros _ c _. cbn.
  destruct (campaign_id c =? cid); [apply Hk | reflexivity].
Qed.

(** X8: when an ad is due, a campaign is selected and both statements of
    [recordImpression] succeed, [serveAd] books exactly one impression:
    one row is appended to [ad_impressions] (for that campaign and user,
    not completed, with revenue [cpm / 1000] at four decimals), its key is
    the tracking id handed to the caller, and the [impressions] counter of
    the campaign, and of no other campaign, goes up by one. *)
Theorem served_campaign_is_booked
    (env : ServeEnv) (db : Db) (userId : Z) (userTier : string)
    (userStats : UserStats) (c : CampaignRow) :
  shouldServeAd userTier userStats = true ->
  selectAd (select_ok env) (select_now_sql env) (select_now_js env) db
    userTier = CampaignAd c ->
  insert_ok env = true ->
  update_ok env = true ->
  let result := serveAd env db userId userTier userStats in
  exists row,
    ad_impressions result.2 = ad_impressions db ++ [row]
    /\ imp_campaign_id row = campaign_id c
    /\ imp_user_id row = userId
    /\ imp_completed row = false
    /\ imp_revenue row = DECIMAL 4 (cpm c / 1000)
    /\ result.1
       = AdRequired (content_url c) (duration c) (cpm c)
           (NumId (campaign_id c)) (InsertId (impression_id row))
    /\ impressions <$> ad_campaigns result.2
       = (fun c' => if campaign_id c' =? campaign_id c
                    then impressions c' + 1 else impressions c')
           <$> ad_campaigns db.
Proof.
  intros Hdue Hsel Hins Hupd. cbn zeta.
  unfold serveAd. rewrite Hdue, Hsel, Hins, Hupd. cbn [negb].
  unfold trackImpression, recordImpression. cbn [ad_id ad_cpm negb].
  eexists. cbn [fst snd].
  unfold updateUserAdStats.
  destruct (stats_ok env);
    cbn [ad_impressions ad_campaigns with_users with_ad_campaigns
         with_ad_impressions];
    (repeat split; try reflexivity; apply impressions_bumped; reflexivity).
Qed.

Lemma served_campaign_is_booked_witness :
  exists row,
    ad_impressions
      (serveAd
         {| select_ok := true; select_now_sql := 1000; select_now_js := 1000;
            insert_ok := true; update_ok := true; track_now := 1000;
            track_rnd := "x"; stats_ok := true; stats_now := 1000 |}
         db0 1 "free"
         {| tasksCount := Some 2; lastAdTaskCount := None;
            adsToday := None |}).2
    = ad_impressions db0 ++ [row]
    /\ imp_campaign_id row = 2.
Proof.
  destruct (served_campaign_is_booked
              {| select_ok := true; select_now_sql := 1000;
                 select_now_js := 1000; insert_ok := true; update_ok := true;
                 track_now := 1000; track_rnd := "x"; stats_ok := true;
                 stats_now := 1000 |}
              db0 1 "free"
              {| tasksCount := Some 2; lastAdTaskCount := None;
                 adsToday := None |}
              (campaign 2 100) eq_refl eq_refl eq_refl eq_refl)
    as (row & Hrows & Hcid & _).
  exists row. split; [exact Hrows | exact Hcid].
Defined.

Lemma Math_min_le_r (a b : Q) : (Math_min a b <= b)%Q.
Proof.
  unfold Math_min. destruct (Qle_bool a b) eqn:E.
  - apply Qle_bool_iff. exact E.
  - apply Qle_refl.
Qed.

Lemma fold_sum_le
    (f g : CampaignRow -> Q) (l : list CampaignRow) (a b : Q) :
  (forall c, (f c <= g c)%Q) ->
  (a <= b)%Q ->
  (fold_left (fun s c => s + f c) l a <= fold_left (fun s c => s + g c) l b)%Q.
Proof.
  intros Hfg. revert a b. induction l as [|c l IH]; intros a b Hab; cbn.
  - exact Hab.
  - apply IH. apply Qplus_le_compat; [exact Hab | apply Hfg].
Qed.

(** X10: the predicted revenue never exceeds the budget that the active
    campaigns have left (the sum of [budget - revenue] over them), for
    either time frame; when the campaign query fails the prediction
    is 0. *)
Theorem predicted_revenue_within_budgets
    (ok : bool) (now : Timestamp) (db : Db) (timeframe : string) :
  (predictRevenue ok now db timeframe
   <= fold_left (fun sum campaign => sum + remainingBudget campaign)
        (getActiveCampaigns ok now db) 0)%Q
  /\ (ok = false -> predictRevenue ok now db timeframe = 0%Q).
Proof.
  split.
  - unfold predictRevenue. cbv zeta.
    apply (fold_sum_le
             (fun campaign =>
                Math_min
                  (cpm campaign / 1000 * (inject_Z (impressions campaign) / 30)
                   * (if String.eqb timeframe "monthly" then 30 else 7))
                  (remainingBudget campaign))
             remainingBudget).
    + intros c. apply Math_min_le_r.
    + apply Qle_refl.
  - intros ->. reflexivity.
Qed.

Lemma predicted_revenue_within_budgets_witness :
  predictRevenue false 1000 db0 "monthly" = 0%Q.
Proof.
  apply (proj2 (predicted_revenue_within_budgets false 1000 db0 "monthly")).
  reflexivity.
Defined.

(** X11: for a known tier [optimizeAdServing] never throws and stays
    close to the base policy: the daily cap is never lowered, is raised by
    at most 2 and never above 15; the tasks-per-ad interval moves by at
    most one, and is at least 1 whenever it is changed. *)
Theorem optimized_frequency_near_base
    (userTier : string) (userBehavior : option CPMOptimizer.UserBehavior)
    (base : Frequency) :
  adFrequency !! userTier = Some base ->
  exists t m,
    optimizeAdServing userTier userBehavior
    = Ok {| opt_tasksPerAd := Some t; opt_maxAdsPerDay := Some m |}
    /\ maxAdsPerDay base <= m <= maxAdsPerDay base + 2
    /\ m <= 15
    /\ tasksPerAd base - 1 <= t <= Z.max 1 (tasksPerAd base)
    /\ (t <> tasksPerAd base -> 1 <= t).
Proof.
  intros Hbase. unfold optimizeAdServing. cbv zeta. rewrite Hbase.
  assert (Hcap : 0 <= maxAdsPerDay base <= 10 /\ 0 <= tasksPerAd base).
  { unfold adFrequency in Hbase. apply elem_of_list_to_map_2 in Hbase.
    repeat (apply elem_of_cons in Hbase; destruct Hbase as [Hbase|Hbase];
            [injection Hbase as _ ->; cbn; lia|]).
    inversion Hbase. }
  destruct (gt (CPMOptimizer.avgSessionDuration
                  (default CPMOptimizer.emptyBehavior userBehavior)) 300);
    destruct (gt (CPMOptimizer.adCompletionRate
                    (default CPMOptimizer.emptyBehavior userBehavior)) 0.8);
    cbn; eexists _, _; (split; [reflexivity|]); lia.
Qed.

Lemma optimized_frequency_near_base_witness :
  exists t m,
    optimizeAdServing "enterprise"
      (Some {| CPMOptimizer.adCompletionRate := None;
               CPMOptimizer.avgSessionDuration := Some 400%Q;
               CPMOptimizer.taskCompletionRate := None |})
    = Ok {| opt_tasksPerAd := Some t; opt_maxAdsPerDay := Some m |}
    /\ 0 <= m <= 0 + 2
    /\ m <= 15
    /\ 0 - 1 <= t <= Z.max 1 0
    /\ (t <> 0 -> 1 <= t).
Proof.
  apply (optimized_frequency_near_base "enterprise" _
           {| tasksPerAd := 0; maxAdsPerDay := 0 |}).
  reflexivity.
Defined.

End AdBooking.

(** ** The impression ledger *)

Section ImpressionLedger.
Import JS Store AdCampaignModel PremiumAdManager Spec Fixtures.

Lemma next_impression_id_above (t : list ImpressionRow) (i : ImpressionRow) :
  In i t -> impression_id i < next_impression_id t.
Proof.
  unfold next_impression_id.
  induction t as [|x t IH]; [intros []|].
  intros [->|Hin]; cbn [foldr]; [lia|]. specialize (IH Hin). lia.
Qed.

Lemma find_fresh (t : list ImpressionRow) (row : ImpressionRow) :
  impression_id row = next_impression_id t ->
  List.find (fun i => impression_id i =? impression_id row) (t ++ [row])
  = Some row.
Proof.
  intros Hid.
  assert (H : forall l, (forall i, In i l -> impression_id i < impression_id row) ->
            List.find (fun i => impression_id i =? impression_id row)
              (l ++ [row]) = Some row).
  { induction l as [|x l IH]; intros Hl; cbn.
    - rewrite Z.eqb_refl. reflexivity.
    - destruct (impression_id x =? impression_id row) eqn:E.
      + apply Z.eqb_eq in E. specialize (Hl x (or_introl eq_refl)). lia.
      + apply IH. intros i Hi. apply Hl. right. exact Hi. }
  apply H. intros i Hi. rewrite Hid. apply next_impression_id_above, Hi.
Qed.

(** X12: an impression recorded for a campaign is found again under the
    id that [recordImpression] returns: the id is larger than every id
    already in the table (so unique ids stay unique), the lookup of that
    id gives the campaign it was recorded for, and the new row is not
    completed. *)
Theorem recorded_impression_is_found
    (ok2 : bool) (now : Timestamp) (db : Db) (cid userId : Z) (revenue : Q) :
  let result := recordImpression true ok2 now db (NumId cid) userId revenue in
  let insertId := next_impression_id (ad_impressions db) in
  (ok2 = true -> result.1 = Ok insertId)
  /\ (forall i, In i (ad_impressions db) -> impression_id i < insertId)
  /\ campaign_of_impression result.2 insertId = Some cid
  /\ (NoDup (impression_id <$> ad_impressions db) ->
      NoDup (impression_id <$> ad_impressions result.2))
  /\ exists row, last (ad_impressions result.2) = Some row
                 /\ impression_id row = insertId
                 /\ imp_completed row = false
                 /\ tracking_id row = None.
Proof.
  cbn zeta. unfold recordImpression. cbn [negb].
  set (insertId := next_impression_id (ad_impressions db)).
  set (row := {| impression_id := insertId; imp_campaign_id := cid;
                 imp_user_id := userId; tracking_id := None;
                 imp_revenue := DECIMAL 4 revenue; imp_completed := false;
                 completed_at := None; impression_date := CURDATE now;
                 imp_created_at := now |}).
  assert (Himps : ad_impressions
                    (if negb ok2 then
                       (Throw "ER_UPDATE",
                        with_ad_impressions db (ad_impressions db ++ [row]))
                     else
                       (Ok insertId,
                        with_ad_campaigns
                          (with_ad_impressions db (ad_impressions db ++ [row]))
                          (update_where (fun c => campaign_id c =? cid)
                             (fun c =>
                                {| campaign_id := campaign_id c;
                                   name := name c;
                                   advertiser := advertiser c; cpm := cpm c;
                                   duration := duration c;
                                   target_audience := target_audience c;
                                   content_url := content_url c;
                                   start_date := start_date c;
                                   end_date := end_date c; budget := budget c;
                                   status := status c;
                                   impressions := impressions c + 1;
                                   completions := completions c;
                                   revenue :=
                                     DECIMAL 2 (Store.revenue c + revenue);
                                   campaign_created_at := campaign_created_at c;
                                   campaign_updated_at := now |})
                             (ad_campaigns
                                (with_ad_impressions db
                                   (ad_impressions db ++ [row])))))).2
                  = ad_impressions db ++ [row]).
  { destruct ok2; reflexivity. }
  split; [intros ->; reflexivity|].
  split; [intros i Hi; apply next_impression_id_above, Hi|].
  split; [|split].
  - unfold campaign_of_impression. rewrite Himps.
    pose proof (find_fresh (ad_impressions db) row eq_refl) as Hf.
    change (impression_id row) with insertId in Hf.
    rewrite Hf. reflexivity.
  - intros Hnd. rewrite Himps, fmap_app. cbn.
    apply NoDup_app. repeat split.
    + exact Hnd.
    + intros x Hx Hx'. apply list_elem_of_fmap in Hx.
      destruct Hx as (i & -> & Hi). apply list_elem_of_In in Hi.
      apply next_impression_id_above in Hi.
      apply list_elem_of_singleton in Hx'. fold insertId in Hi. lia.
    + apply NoDup_singleton.
  - exists row. rewrite Himps, last_snoc. repeat split.
Qed.

Lemma recorded_impression_is_found_witness :
  (recordImpression true true 2000 db0 (NumId 1) 1 0.1).1
  = Ok (next_impression_id (ad_impressions db0)).
Proof.
  apply (proj1 (recorded_impression_is_found true 2000 db0 1 1 0.1)).
  reflexivity.
Defined.

Lemma find_none_update
    (hit : ImpressionRow -> bool) (mark : ImpressionRow -> ImpressionRow)
    (l : list ImpressionRow) :
  List.find hit l = None ->
  update_where hit mark l = l /\ matched hit l = 0.
Proof.
  unfold matched. induction l as [|i l IH]; [split; reflexivity|].
  cbn. destruct (hit i) eqn:E; [discriminate|].
  intros H. destruct (IH H) as [H1 H2]. split.
  - f_equal. exact H1.
  - exact H2.
Qed.

Lemma find_some_matched
    (hit : ImpressionRow -> bool) (l : list ImpressionRow) (i : ImpressionRow) :
  List.find hit l = Some i -> 0 < matched hit l.
Proof.
  unfold matched. induction l as [|x l IH]; [discriminate|].
  cbn. destruct (hit x); cbn; [lia | exact IH].
Qed.

(** X13: reporting the completion of an unknown impression fails
    silently: [recordCompletion] returns [false] and leaves every table as
    it was (also when its second statement fails). *)
Theorem unknown_completion_changes_nothing
    (ok2 : bool) (now : Timestamp) (db : Db) (impressionId : Z) :
  campaign_of_impression db impressionId = None ->
  (recordCompletion true ok2 now db impressionId).2 = db
  /\ recordCompletion true true now db impressionId = (Ok false, db).
Proof.
  intros Hnone. unfold campaign_of_impression in Hnone.
  destruct (List.find (fun i => impression_id i =? impressionId)
              (ad_impressions db)) eqn:Hfind; [discriminate|].
  assert (Hdb : forall mark,
            with_ad_impressions db
              (update_where (fun i => impression_id i =? impressionId) mark
                 (ad_impressions db)) = db).
  { intros mark. destruct (find_none_update _ mark _ Hfind) as [-> _].
    destruct db; reflexivity. }
  destruct (find_none_update _ (fun i => i) _ Hfind) as [_ Hm].
  unfold recordCompletion. cbn [negb]. rewrite Hdb, Hm.
  unfold campaign_of_impression. rewrite Hfind. cbn.
  assert (Hc : with_ad_campaigns db
                 (update_where (fun _ => false)
                    (fun c =>
                       {| campaign_id := campaign_id c; name := name c;
                          advertiser := advertiser c; cpm := cpm c;
                          duration := duration c;
                          target_audience := target_audience c;
                          content_url := content_url c;
                          start_date := start_date c;
                          end_date := end_date c; budget := budget c;
                          status := status c;
                          impressions := impressions c;
                          completions := completions c + 1;
                          revenue := revenue c;
                          campaign_created_at := campaign_created_at c;
                          campaign_updated_at := now |})
                    (ad_campaigns db)) = db).
  { unfold update_where. rewrite list_fmap_id. destruct db; reflexivity. }
  rewrite Hc. destruct ok2; split; reflexivity.
Qed.

Lemma unknown_completion_changes_nothing_witness :
  recordCompletion true true 2000 db0 99 = (Ok false, db0).
Proof.
  apply (unknown_completion_changes_nothing true 2000 db0 99). reflexivity.
Defined.

(** X14: a successful [recordCompletion] marks exactly the impressions
    that carry the given id: their [completed] flag becomes true, every
    other impression keeps its flag, and the call returns [true] exactly
    when such an impression exists. *)
Theorem completion_marks_only_that_impression
    (now : Timestamp) (db : Db) (impressionId : Z) :
  let result := recordCompletion true true now db impressionId in
  imp_completed <$> ad_impressions result.2
  = (fun i => (impression_id i =? impressionId) || imp_completed i)
      <$> ad_impressions db
  /\ result.1
     = Ok (bool_decide (is_Some (campaign_of_impression db impressionId))).
Proof.
  cbn zeta. unfold recordCompletion. cbn [negb fst snd].
  cbn [ad_impressions with_ad_campaigns with_ad_impressions]. split.
  - unfold update_where. rewrite <- list_fmap_compose.
    apply list_fmap_ext. intros _ i _. cbn.
    destruct (impression_id i =? impressionId); reflexivity.
  - f_equal. unfold campaign_of_impression.
    destruct (List.find (fun i => impression_id i =? impressionId)
                (ad_impressions db)) as [i|] eqn:Hfind.
    + rewrite bool_decide_eq_true_2 by (cbn; eauto).
      apply Z.ltb_lt. exact (find_some_matched _ _ _ Hfind).
    + destruct (find_none_update _ (fun i => i) _ Hfind) as [_ ->].
      rewrite bool_decide_eq_false_2; [reflexivity|].
      cbn. intros [x Hx]. discriminate.
Qed.

End ImpressionLedger.

(** ** Pausing a campaign *)

Section CampaignLifecycle.
Import JS Store AdCampaignModel PremiumAdManager Spec Fixtures.

(** X15: once [pauseCampaign] has succeeded for an id, [selectAd] does not
    return a campaign with that id, for any tier, any clock and whatever
    the outcome of the catalog query; pausing changes the status column
    (and [updated_at]) of that campaign only. *)
Theorem paused_campaign_is_not_selected
    (now : Timestamp) (db : Db) (campaignId : Z)
    (ok : bool) (now_sql now_js : Timestamp) (userTier : string)
    (c : CampaignRow) :
  let db' := (pauseCampaign true now db campaignId).2 in
  (selectAd ok now_sql now_js db' userTier = CampaignAd c ->
   campaign_id c <> campaignId)
  /\ campaign_id <$> ad_campaigns db' = campaign_id <$> ad_campaigns db
  /\ status <$> ad_campaigns db'
     = (fun c' => if campaign_id c' =? campaignId then paused else status c')
         <$> ad_campaigns db
  /\ ad_impressions db' = ad_impressions db
  /\ users db' = users db.
Proof.
  cbn zeta. unfold pauseCampaign. cbn [negb snd]. unfold set_status.
  cbn [ad_campaigns ad_impressions users with_ad_campaigns].
  split; [|split; [|split; [|split; reflexivity]]].
  - intros Hsel. apply selectAd_In in Hsel. rename Hsel into Hin.
    apply eligible_sound in Hin. destruct Hin as (Hrow & Hst & _).
    cbn [ad_campaigns with_ad_campaigns] in Hrow.
    unfold update_where in Hrow. apply in_map_iff in Hrow.
    destruct Hrow as (c0 & Hc0 & _).
    destruct (campaign_id c0 =? campaignId) eqn:E.
    + subst c. cbn in Hst. discriminate.
    + subst c. apply Z.eqb_neq. exact E.
  - unfold update_where. rewrite <- list_fmap_compose.
    apply list_fmap_ext. intros _ c0 _. cbn.
    destruct (campaign_id c0 =? campaignId); reflexivity.
  - unfold update_where. rewrite <- list_fmap_compose.
    apply list_fmap_ext. intros _ c0 _. cbn.
    destruct (campaign_id c0 =? campaignId); reflexivity.
Qed.

Lemma paused_campaign_is_not_selected_witness :
  campaign_id (campaign 1 100) <> 2.
Proof.
  apply (proj1 (paused_campaign_is_not_selected 1500 db0 2 true 2000 2000
                  "free" (campaign 1 100))).
  reflexivity.
Defined.

End CampaignLifecycle.

(** ** The user model *)

Section UserModelProperties.
Import JS Store UserModel Spec Fixtures.

Lemma reset_row_twice (now now' : Timestamp) (u : UserRow) :
  DATE now = DATE now' ->
  reset_row now' (reset_row now u) = reset_row now u.
Proof.
  intros Hday.
  destruct (stale now u) eqn:Hs.
  - destruct (decide (u = zero_counts u)) as [Heq|Hne].
    + assert (H1 : reset_row now u = u).
      { unfold reset_row, on_update. rewrite Hs.
        rewrite decide_True by exact Heq. reflexivity. }
      rewrite H1. unfold reset_row. destruct (stale now' u); [|reflexivity].
      unfold on_update. rewrite decide_True by exact Heq. reflexivity.
    + assert (H1 : user_updated_at (reset_row now u) = now).
      { unfold reset_row, on_update. rewrite Hs.
        rewrite decide_False by exact Hne. reflexivity. }
      unfold reset_row at 1. unfold stale at 1. unfold CURDATE.
      rewrite H1, Hday, Z.ltb_irrefl. reflexivity.
  - assert (H1 : reset_row now u = u).
    { unfold reset_row. rewrite Hs. reflexivity. }
    rewrite H1. unfold reset_row.
    unfold stale, CURDATE in *. rewrite <- Hday, Hs. reflexivity.
Qed.

(** X16: the daily reset is idempotent within a day: a second
    [resetDailyCounts] on the same calendar day, at whatever time, leaves
    the database exactly as the first one left it. *)
Theorem reset_is_idempotent_within_a_day
    (now now' : Timestamp) (db : Db) :
  DATE now = DATE now' ->
  (resetDailyCounts true now' (resetDailyCounts true now db).2).2
  = (resetDailyCounts true now db).2.
Proof.
  intros Hday. unfold resetDailyCounts. cbn [negb snd].
  destruct db as [us ts tu cs imps]. unfold with_users. cbn. f_equal.
  rewrite <- map_fmap_compose. apply map_fmap_ext.
  intros k u _. cbn. apply reset_row_twice, Hday.
Qed.

Lemma reset_is_idempotent_within_a_day_witness :
  (resetDailyCounts true 90000 (resetDailyCounts true 86400 db0).2).2
  = (resetDailyCounts true 86400 db0).2.
Proof.
  apply reset_is_idempotent_within_a_day. reflexivity.
Defined.

(** X17: a row written today is shielded from the reset: after
    [incrementTaskCount] for a known user, a [resetDailyCounts] on the same
    calendar day leaves that user's counters as they are, whatever they
    were before (counts carried over from earlier days included). *)
Theorem reset_skips_rows_updated_today
    (now now' : Timestamp) (db : Db) (userId : Z) (u : UserRow) :
  DATE now = DATE now' ->
  users db !! userId = Some u ->
  let db1 := (incrementTaskCount true now db userId).2 in
  let db2 := (resetDailyCounts true now' db1).2 in
  users db2 !! userId = users db1 !! userId
  /\ tasks_today <$> users db2 !! userId = Some (sql_add (tasks_today u) 1)
  /\ ads_today <$> users db2 !! userId = Some (ads_today u).
Proof.
  intros Hday Hu. cbn zeta.
  unfold resetDailyCounts, incrementTaskCount. cbn [negb snd users with_users].
  rewrite lookup_fmap, lookup_alter_eq, Hu. cbn.
  unfold reset_row, stale, CURDATE. cbn [user_updated_at].
  rewrite Hday, Z.ltb_irrefl. repeat split.
Qed.

Lemma reset_skips_rows_updated_today_witness :
  tasks_today <$>
    users (resetDailyCounts true 90000
             (incrementTaskCount true 86400 db0 1).2).2 !! 1
  = Some (Some 4).
Proof.
  apply (reset_skips_rows_updated_today 86400 90000 db0 1 john);
    reflexivity.
Defined.

(** X18: [incrementTaskCount] touches one row: for a known user it adds 1
    to [tasks_today] (a NULL counter stays NULL) and stamps [updated_at],
    leaving the ad counters and every other user alone; for an unknown
    user it returns [false] and changes nothing. *)
Theorem incrementTaskCount_touches_one_row
    (now : Timestamp) (db : Db) (userId : Z) :
  let result := incrementTaskCount true now db userId in
  (users db !! userId = None -> result = (Ok false, db))
  /\ (forall u, users db !! userId = Some u ->
       result.1 = Ok true
       /\ exists u',
            users result.2 !! userId = Some u'
            /\ tasks_today u' = sql_add (tasks_today u) 1
            /\ ads_today u' = ads_today u
            /\ total_ads u' = total_ads u
            /\ last_ad_task_count u' = last_ad_task_count u
            /\ user_updated_at u' = now)
  /\ (forall other, other <> userId ->
       users result.2 !! other = users db !! other).
Proof.
  cbn zeta. unfold incrementTaskCount. cbn [negb fst snd].
  split; [|split].
  - intros Hnone. f_equal.
    + f_equal. apply bool_decide_eq_false_2. rewrite Hnone.
      intros [x Hx]. discriminate.
    + destruct db as [us ts tu cs imps]. unfold with_users. cbn in *.
      f_equal. apply map_eq. intros k.
      destruct (decide (k = userId)) as [->|Hne].
      * rewrite lookup_alter_eq, Hnone. reflexivity.
      * rewrite lookup_alter_ne by congruence. reflexivity.
  - intros u Hu. split.
    + f_equal. apply bool_decide_eq_true_2. rewrite Hu. eauto.
    + eexists. cbn [users with_users].
      rewrite lookup_alter_eq, Hu. cbn. repeat split.
  - intros other Hne. cbn [users with_users].
    rewrite lookup_alter_ne by congruence. reflexivity.
Qed.

Lemma incrementTaskCount_touches_one_row_witness :
  incrementTaskCount true 1000 db0 7 = (Ok false, db0).
Proof.
  apply (proj1 (incrementTaskCount_touches_one_row 1000 db0 7)).
  reflexivity.
Defined.

Lemma assign_all_protected (l : list (string * string)) (u : UserRow) :
  let u' := fold_left assign l u in
  user_id u' = user_id u
  /\ email u' = email u
  /\ password_hash u' = password_hash u
  /\ tasks_today u' = tasks_today u
  /\ ads_today u' = ads_today u
  /\ total_ads u' = total_ads u
  /\ last_ad_task_count u' = last_ad_task_count u
  /\ user_created_at u' = user_created_at u.
Proof.
  revert u. induction l as [|[k v] l IH]; intros u; cbn zeta.
  - repeat split.
  - cbn [fold_left]. specialize (IH (assign u (k, v))). cbn zeta in IH.
    destruct IH as (H1 & H2 & H3 & H4 & H5 & H6 & H7 & H8).
    rewrite H1, H2, H3, H4, H5, H6, H7, H8. repeat split.
Qed.

Lemma no_accepted_field (updateData : list (string * string)) :
  Forall (fun kv => kv.1 ∉ allowedFields) updateData ->
  List.filter (fun kv => existsb (String.eqb kv.1) allowedFields) updateData
  = [].
Proof.
  induction 1 as [|kv l Hkv _ IH]; [reflexivity|].
  cbn [List.filter].
  destruct (existsb (String.eqb kv.1) allowedFields) eqn:E; [|exact IH].
  apply existsb_exists in E. destruct E as (x & Hin & Heq).
  apply String.eqb_eq in Heq. subst x.
  exfalso. apply Hkv. apply list_elem_of_In. exact Hin.
Qed.

(** X19: [updateUser] can only write the six accepted columns.  Whatever
    keys the update object carries, the id, e-mail, password hash, usage
    and ad counters and the creation time of every user are unchanged, and
    users other than the addressed one are untouched; an object without
    any accepted key is rejected with 'No valid fields to update' and
    nothing is written. *)
Theorem updateUser_protects_columns
    (connected ok : bool) (now : Timestamp) (db : Db) (userId : Z)
    (updateData : list (string * string)) :
  let result := updateUser connected ok now db userId updateData in
  (forall other u, users db !! other = Some u ->
     exists u',
       users result.2 !! other = Some u'
       /\ user_id u' = user_id u
       /\ email u' = email u
       /\ password_hash u' = password_hash u
       /\ tasks_today u' = tasks_today u
       /\ ads_today u' = ads_today u
       /\ total_ads u' = total_ads u
       /\ last_ad_task_count u' = last_ad_task_count u
       /\ user_created_at u' = user_created_at u
       /\ (other <> userId -> u' = u))
  /\ (connected = true ->
      Forall (fun kv => kv.1 ∉ allowedFields) updateData ->
      result = (Throw "No valid fields to update", db)).
Proof.
  cbn zeta. unfold updateUser. cbv zeta. split.
  - intros other u Hu.
    destruct connected; cbn [negb];
      [|exists u; repeat split; auto].
    destruct (length (List.filter
                        (fun kv => existsb (String.eqb kv.1) allowedFields)
                        updateData) =? 0)%nat;
      [exists u; repeat split; auto|].
    destruct ok; cbn [negb]; [|exists u; repeat split; auto].
    cbn [snd users with_users].
    destruct (decide (other = userId)) as [->|Hne].
    + rewrite lookup_alter_eq, Hu. cbn. eexists. split; [reflexivity|].
      destruct (assign_all_protected
                  (List.filter
                     (fun kv => existsb (String.eqb kv.1) allowedFields)
                     updateData) u)
        as (H1 & H2 & H3 & H4 & H5 & H6 & H7 & H8).
      cbn. repeat split; auto. congruence.
    + rewrite lookup_alter_ne by congruence. exists u. repeat split; auto.
  - intros -> Hnone. cbn [negb]. rewrite (no_accepted_field _ Hnone).
    reflexivity.
Qed.

Lemma updateUser_protects_columns_witness :
  updateUser true true 1000 db0 1
    [("password_hash", "x"); ("tasks_today", "0")]
  = (Throw "No valid fields to update", db0).
Proof.
  apply (proj2 (updateUser_protects_columns true true 1000 db0 1
                  [("password_hash", "x"); ("tasks_today", "0")]));
    [reflexivity|].
  repeat constructor; intros H; apply list_elem_of_In in H; cbn in H;
    intuition discriminate.
Defined.

End UserModelProperties.

(** ** Validation and limits of the orchestrator *)

Section OrchestratorTables.
Import JS Store Orchestrator Spec Fixtures.

Lemma taskLimits_entries (userTier : string) (limits : gmap string Z) :
  taskLimits !! userTier = Some limits ->
  userTier ∈ ["free"; "basic"; "premium"; "enterprise"]
  /\ forall taskType,
       taskType ∉ ["text"; "image"; "code"; "research"; "analysis"; "voice"] ->
       limits !! taskType = None.
Proof.
  intros H. unfold taskLimits in H. apply elem_of_list_to_map_2 in H.
  repeat (apply elem_of_cons in H; destruct H as [H|H];
          [apply pair_equal_spec in H; destruct H as [-> ->]; split;
           [repeat constructor
           |intros taskType Hty; apply not_elem_of_list_to_map_1; exact Hty]
          |]).
  inversion H.
Qed.

(** X20: for a tier name that is not the name of a member of
    [Object.prototype] (for such a name the limits table of the code
    would deliver the inherited member), the quota check throws exactly
    when the tier is not one of the four configured tiers; for a
    configured tier it always answers, and a task type outside the six
    configured types is denied, for the enterprise tier as well. *)
Theorem quota_check_error_cases
    (ok : bool) (now : Timestamp) (db : Db) (userId : Z)
    (userTier taskType : string) :
  (userTier ∉ Object_prototype_keys ->
   ((exists e, canProcessTask ok now db userId userTier taskType = Throw e)
    <-> userTier ∉ ["free"; "basic"; "premium"; "enterprise"]))
  /\ (userTier ∈ ["free"; "basic"; "premium"; "enterprise"] ->
      taskType ∉ ["text"; "image"; "code"; "research"; "analysis"; "voice"] ->
      canProcessTask ok now db userId userTier taskType = Ok false).
Proof.
  enough (H :
    ((exists e, canProcessTask ok now db userId userTier taskType = Throw e)
     <-> userTier ∉ ["free"; "basic"; "premium"; "enterprise"])
    /\ (userTier ∈ ["free"; "basic"; "premium"; "enterprise"] ->
        taskType ∉ ["text"; "image"; "code"; "research"; "analysis"; "voice"] ->
        canProcessTask ok now db userId userTier taskType = Ok false)).
  { destruct H as [H1 H2]. split; [intros _; exact H1 | exact H2]. }
  unfold canProcessTask.
  destruct (taskLimits !! userTier) as [limits|] eqn:E.
  - destruct (taskLimits_entries _ _ E) as [Hin Hty]. split.
    + split.
      * intros [e He]. destruct (bool_decide _); discriminate.
      * intros Hnot. contradiction.
    + intros _ Hout. rewrite (Hty _ Hout).
      rewrite bool_decide_eq_false_2 by discriminate. reflexivity.
  - split.
    + split; [|eauto]. intros _.
      apply (not_elem_of_list_to_map_2
               [("free",
                 (list_to_map
                    [("text", 5); ("image", 1); ("code", 1); ("research", 1);
                     ("analysis", 1); ("voice", 0)] : gmap string Z));
                ("basic",
                 list_to_map
                   [("text", 50); ("image", 10); ("code", 10);
                    ("research", 10); ("analysis", 10); ("voice", 5)]);
                ("premium",
                 list_to_map
                   [("text", 200); ("image", 50); ("code", 50);
                    ("research", 50); ("analysis", 50); ("voice", 20)]);
                ("enterprise",
                 list_to_map
                   [("text", -1); ("image", -1); ("code", -1);
                    ("research", -1); ("analysis", -1); ("voice", -1)])]
               userTier E).
    + intros Hin. exfalso.
      assert (Hsome : is_Some (taskLimits !! userTier)).
      { repeat (apply elem_of_cons in Hin; destruct Hin as [->|Hin];
                [vm_compute; eauto|]).
        inversion Hin. }
      rewrite E in Hsome. destruct Hsome as [x Hx]. discriminate.
Qed.

Lemma quota_check_error_cases_witness :
  (exists e, canProcessTask true 1000 db0 1 "gold" "text" = Throw e)
  /\ canProcessTask true 1000 db0 1 "enterprise" "video" = Ok false.
Proof.
  split.
  - apply (proj1 (quota_check_error_cases true 1000 db0 1 "gold" "text")).
    + intros H. apply list_elem_of_In in H. cbn in H. intuition discriminate.
    + intros H. apply list_elem_of_In in H. cbn in H. intuition discriminate.
  - apply (proj2 (quota_check_error_cases true 1000 db0 1 "enterprise"
                    "video")).
    + repeat constructor.
    + intros H. apply list_elem_of_In in H. cbn in H. intuition discriminate.
Defined.

(** X21: the limits table is complete and ordered by tier: every task
    type that has a free-tier limit also has a basic and a premium limit,
    none of them negative and each at least the one below, and is
    unlimited (-1) for enterprise. *)
Theorem limits_grow_with_tier (taskType : string) (free_limit : Z) :
  (taskLimits !! "free") ≫= (fun limits => limits !! taskType)
  = Some free_limit ->
  exists basic_limit premium_limit,
    (taskLimits !! "basic") ≫= (fun limits => limits !! taskType)
    = Some basic_limit
    /\ (taskLimits !! "premium") ≫= (fun limits => limits !! taskType)
       = Some premium_limit
    /\ (taskLimits !! "enterprise") ≫= (fun limits => limits !! taskType)
       = Some (-1)
    /\ 0 <= free_limit <= basic_limit
    /\ basic_limit <= premium_limit.
Proof.
  intros H.
  assert (Hfree : taskLimits !! "free"
                  = Some (list_to_map
                            [("text", 5); ("image", 1); ("code", 1);
                             ("research", 1); ("analysis", 1); ("voice", 0)]))
    by reflexivity.
  rewrite Hfree in H. cbn [mbind option_bind] in H.
  apply elem_of_list_to_map_2 in H.
  repeat (apply elem_of_cons in H; destruct H as [H|H];
          [apply pair_equal_spec in H; destruct H as [-> ->]; eexists _, _;
           repeat split; cbn; lia|]).
  inversion H.
Qed.

Lemma limits_grow_with_tier_witness :
  exists basic_limit premium_limit,
    (taskLimits !! "basic") ≫= (fun limits => limits !! "voice")
    = Some basic_limit
    /\ (taskLimits !! "premium") ≫= (fun limits => limits !! "voice")
       = Some premium_limit
    /\ (taskLimits !! "enterprise") ≫= (fun limits => limits !! "voice")
       = Some (-1)
    /\ 0 <= 0 <= basic_limit
    /\ basic_limit <= premium_limit.
Proof.
  apply (limits_grow_with_tier "voice" 0). reflexivity.
Defined.

(** X22: agent access only grows with the tier: an agent type the free
    tier may use is open to the basic tier, what basic may use is open to
    premium, and what premium may use is open to enterprise; an unknown
    tier or a task without agent type has access to nothing. *)
Theorem agent_access_grows_with_tier (agentType : option string) :
  (validateAgentAccess "free" agentType = true ->
   validateAgentAccess "basic" agentType = true)
  /\ (validateAgentAccess "basic" agentType = true ->
      validateAgentAccess "premium" agentType = true)
  /\ (validateAgentAccess "premium" agentType = true ->
      validateAgentAccess "enterprise" agentType = true)
  /\ (forall userTier,
        userTier ∉ ["free"; "basic"; "premium"; "enterprise"] ->
        validateAgentAccess userTier agentType = false)
  /\ (forall userTier, validateAgentAccess userTier None = false).
Proof.
  assert (Hf : tierAccess !! "free"
               = Some ["research"; "creative"; "coding"; "analysis"])
    by reflexivity.
  assert (Hb : tierAccess !! "basic"
               = Some ["research"; "creative"; "coding"; "analysis"; "voice"])
    by reflexivity.
  assert (Hp : tierAccess !! "premium"
               = Some ["research"; "creative"; "coding"; "analysis"; "voice"])
    by reflexivity.
  assert (He : tierAccess !! "enterprise"
               = Some ["research"; "creative"; "coding"; "analysis"; "voice";
                       "custom"])
    by reflexivity.
  unfold validateAgentAccess. rewrite Hf, Hb, Hp, He.
  split; [|split; [|split; [|split]]].
  - destruct agentType as [a|]; [|discriminate]. cbn.
    repeat (destruct (String.eqb a _)); cbn; auto.
  - destruct agentType as [a|]; [|discriminate]. cbn. auto.
  - destruct agentType as [a|]; [|discriminate]. cbn.
    repeat (destruct (String.eqb a _)); cbn; auto.
  - intros userTier Hout.
    assert (Hnone : tierAccess !! userTier = None).
    { unfold tierAccess. apply not_elem_of_list_to_map_1. exact Hout. }
    rewrite Hnone. reflexivity.
  - intros userTier. destruct (tierAccess !! userTier); reflexivity.
Qed.

Lemma agent_access_grows_with_tier_witness :
  validateAgentAccess "basic" (Some "coding") = true.
Proof.
  apply (proj1 (agent_access_grows_with_tier (Some "coding"))).
  reflexivity.
Defined.

End OrchestratorTables.

(** ** Content screening *)

Section ContentScreening.
Import JS Store Orchestrator Spec Fixtures.

Lemma toLowerCase_app (a b : string) :
  toLowerCase (a +:+ b) = toLowerCase a +:+ toLowerCase b.
Proof.
  induction a as [|c a IH]; [reflexivity|]. simpl. rewrite IH. reflexivity.
Qed.

Lemma toLowerCase_length (a : string) :
  String.length (toLowerCase a) = String.length a.
Proof.
  induction a as [|c a IH]; [reflexivity|]. simpl. f_equal. exact IH.
Qed.

Lemma substring_prefix (p s : string) :
  String.substring 0 (String.length p) (p +:+ s) = p.
Proof.
  induction p as [|c p IH]; simpl.
  - destruct s; reflexivity.
  - rewrite IH. reflexivity.
Qed.

Lemma substring_middle (a p s : string) :
  String.substring (String.length a) (String.length p) (a +:+ p +:+ s) = p.
Proof.
  induction a as [|c a IH].
  - exact (substring_prefix p s).
  - exact IH.
Qed.

Lemma test_i_finds (pattern a mid b : string) :
  pattern <> "" ->
  toLowerCase mid = pattern ->
  test_i pattern (a +:+ mid +:+ b) = true.
Proof.
  intros Hne Hmid. unfold test_i.
  destruct (String.index 0 pattern (toLowerCase (a +:+ mid +:+ b)))
    as [n|] eqn:E; [reflexivity|].
  exfalso.
  apply (String.index_correct3 0 (String.length (toLowerCase a)) _ _ E Hne);
    [lia|].
  rewrite !toLowerCase_app, Hmid. apply substring_middle.
Qed.

(** X23: a prompt is screened whatever its letter case: if one of the four
    phrases ('violence', 'hate speech', 'illegal activities', 'adult
    content') occurs anywhere in the prompt, in any mix of upper and lower
    case, a task that passes the earlier checks is rejected with 'Task
    contains inappropriate content', nothing is queued and nothing is
    written. *)
Theorem flagged_prompt_is_rejected
    (encrypt : string -> string) (env : ProcessEnv) (st : State)
    (task : Task) (user : User) (phrase before mid after : string) :
  In phrase ["violence"; "hate speech"; "illegal activities"; "adult content"] ->
  toLowerCase mid = phrase ->
  prompt task = Some (before +:+ mid +:+ after) ->
  validateAgentAccess (tierOf user) (agentType task) = true ->
  truthy (type task) = true ->
  containsInappropriateContent (before +:+ mid +:+ after) = true
  /\ processTask encrypt env st task user
     = (Throw "Task contains inappropriate content", st).
Proof.
  intros Hphrase Hmid Hprompt Haccess Htype.
  assert (Hne : phrase <> "").
  { destruct Hphrase as [<-|[<-|[<-|[<-|[]]]]]; discriminate. }
  assert (Hflag : containsInappropriateContent (before +:+ mid +:+ after)
                  = true).
  { unfold containsInappropriateContent. apply existsb_exists.
    exists phrase. split; [exact Hphrase|].
    apply test_i_finds; assumption. }
  split; [exact Hflag|].
  assert (Hnonempty : truthy (prompt task) = true).
  { rewrite Hprompt. cbn. apply negb_true_iff. apply String.eqb_neq.
    intros Hempty. apply Hne. rewrite <- Hmid.
    destruct before; [|discriminate]. cbn in Hempty.
    destruct mid; [reflexivity|discriminate]. }
  unfold processTask, checkLimit. cbv zeta. unfold validateTask.
  rewrite Haccess, Htype, Hnonempty, Hprompt. cbn [negb orb default].
  unfold Datatypes.id. rewrite Hflag. reflexivity.
Qed.

Lemma flagged_prompt_is_rejected_witness :
  processTask plain (env 0) st0
    {| type := Some "text"; agentType := Some "creative";
       prompt := Some ("Describe " +:+ "ViOLeNcE" +:+ " in films");
       sensitiveData := None |}
    free_user
  = (Throw "Task contains inappropriate content", st0).
Proof.
  apply (proj2 (flagged_prompt_is_rejected plain (env 0) st0
                  {| type := Some "text"; agentType := Some "creative";
                     prompt := Some ("Describe " +:+ "ViOLeNcE"
                                     +:+ " in films");
                     sensitiveData := None |}
                  free_user "violence" "Describe " "ViOLeNcE" " in films"
                  (or_introl eq_refl) eq_refl eq_refl eq_refl eq_refl)).
Defined.

End ContentScreening.

(** ** The task queue *)

Section TaskQueue.
Import JS Store Orchestrator EventLoop Spec Fixtures.

Variable encrypt : string -> string.
Variable stringify : Task -> string.
Variable stringify_error : string -> string.

(** The row of a processed task is never inserted: the last bind
    parameter of the statement is [undefined]. *)
Lemma settle_stores_nothing
    (outcome : Exn string) (ok : bool) (db : Db) (t : QueuedTask) :
  settle stringify stringify_error outcome ok db t = db.
Proof. destruct outcome; reflexivity. Qed.


(** No event writes the [tasks] table. *)
Lemma step_keeps_tasks (s : Sys) (e : Event) :
  tasks (db (state (step encrypt stringify stringify_error s e)))
  = tasks (db (state s)).
Proof.
  destruct e as [r task user env|r env|r|ok|i outcome ok]; cbn [step].
  - destruct (inflight s !! r), (recording s !! r); reflexivity.
  - destruct (inflight s !! r) as [req|]; [|reflexivity].
    destruct (if_decision req) as [userTier|e]; [|reflexivity].
    unfold enqueue, recordTaskUsage. cbv zeta. cbn [state db].
    destruct (usage_ok env); reflexivity.
  - destruct (recording s !! r); reflexivity.
  - destruct (taskQueue (state s)) as [|t rest]; [reflexivity|].
    destruct (knownAgent t); cbn [state db]; [reflexivity|].
    rewrite settle_stores_nothing. reflexivity.
  - destruct (running s !! i) as [t|]; [|reflexivity].
    cbn [state db]. rewrite settle_stores_nothing. reflexivity.
Qed.

Lemma run_keeps_tasks (events : list Event) (s : Sys) :
  tasks (db (state (run encrypt stringify stringify_error events s)))
  = tasks (db (state s)).
Proof.
  revert s. unfold run. induction events as [|e events IH]; intros s.
  - reflexivity.
  - cbn [fold_left]. rewrite IH. apply step_keeps_tasks.
Qed.

(** An event of another request, or of the timer, leaves a request
    suspended at its usage insert as it is. *)
Lemma step_keeps_recording (s : Sys) (e : Event) (r : nat) :
  request_of e <> Some r ->
  recording (step encrypt stringify stringify_error s e) !! r
  = recording s !! r.
Proof.
  intros Hother.
  destruct e as [r' task user env|r' env|r'|ok|i outcome ok]; cbn [step].
  - destruct (inflight s !! r'), (recording s !! r'); reflexivity.
  - destruct (inflight s !! r') as [req|]; [|reflexivity].
    destruct (if_decision req) as [userTier|e]; [|reflexivity].
    destruct (enqueue encrypt env (state s) (if_task req) (if_user req)
                userTier) as [queuedTask st'].
    cbn [recording]. apply lookup_insert_ne. intros ->. apply Hother.
    reflexivity.
  - destruct (recording s !! r') eqn:E; [|reflexivity].
    cbn [recording]. apply lookup_delete_ne. intros ->. apply Hother.
    reflexivity.
  - destruct (taskQueue (state s)) as [|t rest]; [reflexivity|].
    destruct (knownAgent t); reflexivity.
  - destruct (running s !! i); reflexivity.
Qed.

Lemma run_keeps_recording (events : list Event) (s : Sys) (r : nat) :
  Forall (fun e => request_of e <> Some r) events ->
  recording (run encrypt stringify stringify_error events s) !! r
  = recording s !! r.
Proof.
  intros H. revert s. unfold run.
  induction H as [|e events He _ IH]; intros s; [reflexivity|].
  cbn [fold_left]. rewrite IH. apply step_keeps_recording, He.
Qed.

(** X24: an accepted task joins the tail of the queue when the count
    query has returned ([Resume]): the queue grows by exactly that task,
    in status 'queued' and stamped with the time of queueing, no answer
    is given yet and the [tasks] table, which the daily count reads, is
    not written.  The receipt is built later ([Finish]), after whatever
    events of other requests and of the timer came in between, and
    reports the queue as it is then: the position is the length of the
    queue at that moment, and the estimated wait 5000 ms per position. *)
Theorem accepted_task_joins_the_tail
    (env : ProcessEnv) (s : Sys) (r : nat) (req : InFlight)
    (userTier : string) (between : list Event) :
  inflight s !! r = Some req ->
  if_decision req = Ok userTier ->
  Forall (fun e => request_of e <> Some r) between ->
  let s1 := step encrypt stringify stringify_error s (Resume r env) in
  let s2 := run encrypt stringify stringify_error between s1 in
  let s3 := step encrypt stringify stringify_error s2 (Finish r) in
  exists queued receipt,
    taskQueue (state s1) = taskQueue (state s) ++ [queued]
    /\ q_userId queued = id (if_user req)
    /\ q_status queued = "queued"
    /\ q_createdAt queued = queue_now env
    /\ responses s1 = responses s
    /\ tasks (db (state s3)) = tasks (db (state s))
    /\ state s3 = state s2
    /\ responses s3 = responses s2 ++ [(r, Ok receipt)]
    /\ taskId receipt = q_id queued
    /\ position receipt = Z.of_nat (length (taskQueue (state s2)))
    /\ estimatedWait receipt = 5000 * position receipt.
Proof.
  intros Hreq Hdec Hbetween. cbn zeta.
  set (s1 := step encrypt stringify stringify_error s (Resume r env)).
  set (s2 := run encrypt stringify stringify_error between s1).
  set (queued :=
         {| q_id := generateTaskId (queue_now env) (id_rnd env);
            q_userId := id (if_user req);
            q_userTier := userTier;
            q_task := encryptTaskData encrypt (if_task req);
            q_type := default "" (type (if_task req));
            q_status := "queued";
            q_createdAt := queue_now env |}).
  assert (H1 : taskQueue (state s1) = taskQueue (state s) ++ [queued]
               /\ responses s1 = responses s
               /\ recording s1 !! r = Some queued).
  { subst s1. cbn [step]. rewrite Hreq, Hdec. unfold enqueue. cbv zeta.
    cbn [state taskQueue responses recording].
    rewrite lookup_insert_eq. repeat split. }
  destruct H1 as (Hq & Hr & Hrec).
  assert (H2 : recording s2 !! r = Some queued).
  { subst s2. rewrite run_keeps_recording by exact Hbetween. exact Hrec. }
  exists queued, (receiptFor (state s2) queued).
  split; [exact Hq|]. do 3 (split; [reflexivity|]). split; [exact Hr|].
  split.
  { rewrite step_keeps_tasks. subst s2. rewrite run_keeps_tasks.
    subst s1. apply step_keeps_tasks. }
  cbn [step]. rewrite H2. cbn [state responses].
  do 4 (split; [reflexivity|]).
  unfold receiptFor, estimateWaitTime. cbn [position estimatedWait]. lia.
Qed.

(** X25: the queue timer takes the tasks first in, first out, and stores
    none of them: after [n] firings the queue has lost its first [n]
    tasks (or all of them), those with a known agent have been handed to
    their agents in queue order, the [tasks] table is as it was, and no
    caller has received anything. *)
Theorem timer_processes_in_order (oks : list bool) (s : Sys) :
  let s' := run encrypt stringify stringify_error (Tick <$> oks) s in
  taskQueue (state s') = drop (length oks) (taskQueue (state s))
  /\ running s'
     = running s
       ++ (processing_status
             <$> List.filter knownAgent
                   (take (length oks) (taskQueue (state s))))
  /\ tasks (db (state s')) = tasks (db (state s))
  /\ responses s' = responses s.
Proof.
  cbn zeta. split; [|split; [|split; [apply run_keeps_tasks|]]].
  - revert s. induction oks as [|ok oks IH]; intros s; [reflexivity|].
    cbn [fmap list_fmap run fold_left length]. unfold run in IH.
    rewrite IH. cbn [step].
    destruct (taskQueue (state s)) as [|t rest] eqn:Eq.
    + rewrite Eq, !drop_nil. reflexivity.
    + destruct (knownAgent t); reflexivity.
  - revert s. induction oks as [|ok oks IH]; intros s.
    + cbn. rewrite app_nil_r. reflexivity.
    + cbn [fmap list_fmap run fold_left length]. unfold run in IH.
      rewrite IH. cbn [step].
      destruct (taskQueue (state s)) as [|t rest] eqn:Eq.
      * rewrite Eq, !take_nil. reflexivity.
      * cbn [take List.filter].
        destruct (knownAgent t); cbn [state taskQueue running].
        -- rewrite <- app_assoc. reflexivity.
        -- reflexivity.
  - revert s. induction oks as [|ok oks IH]; intros s; [reflexivity|].
    cbn [fmap list_fmap run fold_left]. unfold run in IH.
    rewrite IH. cbn [step].
    destruct (taskQueue (state s)) as [|t rest]; [reflexivity|].
    destruct (knownAgent t); reflexivity.
Qed.


Lemma step_keeps_queued (s : Sys) (e : Event) :
  Forall (fun t => q_status t = "queued") (taskQueue (state s)) ->
  Forall (fun t => q_status t = "queued")
    (taskQueue (state (step encrypt stringify stringify_error s e))).
Proof.
  intros H. destruct e as [r task user env|r env|r|ok|i outcome ok];
    cbn [step].
  - destruct (inflight s !! r), (recording s !! r); exact H.
  - destruct (inflight s !! r) as [req|]; [|exact H].
    destruct (if_decision req) as [userTier|e]; [|exact H].
    unfold enqueue. cbv zeta. cbn [state taskQueue].
    apply Forall_app. split; [exact H|]. repeat constructor.
  - destruct (recording s !! r); exact H.
  - destruct (taskQueue (state s)) as [|t rest] eqn:Eq; [rewrite Eq; exact H|].
    apply Forall_cons in H.
    destruct (knownAgent t); cbn [state taskQueue]; tauto.
  - destruct (running s !! i); exact H.
Qed.

(** X27: the in-memory queue only ever holds tasks in status 'queued':
    under any interleaving of arrivals, resumptions and timer firings,
    [getQueueStats] reports no task as processing and every queued task as
    waiting. *)
Theorem queue_holds_waiting_tasks_only (events : list Event) (s : Sys) :
  Forall (fun t => q_status t = "queued") (taskQueue (state s)) ->
  let stats :=
    getQueueStats
      (state (run encrypt stringify stringify_error events s)) in
  processing stats = 0
  /\ waiting stats = queueLength stats
  /\ qs_estimatedWait stats = 5000 * queueLength stats.
Proof.
  intros H. cbn zeta.
  assert (Hinv : Forall (fun t => q_status t = "queued")
                   (taskQueue
                      (state (run encrypt stringify stringify_error events s)))).
  { revert s H. unfold run. induction events as [|e events IH]; intros s H.
    - exact H.
    - cbn [fold_left]. apply IH, step_keeps_queued, H. }
  unfold getQueueStats.
  cbn [processing waiting queueLength qs_estimatedWait].
  unfold estimateWaitTime. cbv zeta.
  induction Hinv as [|t l Ht _ IH]; [repeat split|].
  cbn [List.filter length]. rewrite Ht.
  destruct IH as (IH1 & IH2 & _).
  change (String.eqb "queued" "processing") with false.
  change (String.eqb "queued" "queued") with true.
  cbn [length]. repeat split; lia.
Qed.

End TaskQueue.
(** ** Accounting across interleavings *)

Section Conservation.
Import JS Store Orchestrator EventLoop Spec Fixtures.

Variable encrypt : string -> string.
Variable stringify : Task -> string.
Variable stringify_error : string -> string.

Lemma accepted_snoc (s : Sys) (r : nat) (receipt : Receipt) :
  length (List.filter is_accepted (responses s ++ [(r, Ok receipt)]))
  = S (accepted s).
Proof.
  unfold accepted. rewrite List.filter_app, length_app. cbn. lia.
Qed.

Lemma accepted_snoc_throw (s : Sys) (r : nat) (e : string) :
  length (List.filter is_accepted (responses s ++ [(r, Throw e)]))
  = accepted s.
Proof.
  unfold accepted. rewrite List.filter_app, length_app. cbn. lia.
Qed.

Lemma size_delete_Some (m : gmap nat QueuedTask) (i : nat) (x : QueuedTask) :
  m !! i = Some x -> size m = S (size (delete i m)).
Proof.
  intros H. rewrite <- (insert_id m i x H) at 1.
  rewrite <- insert_delete_eq. apply map_size_insert_None, lookup_delete_eq.
Qed.

(** One event: the suspended requests stay apart, and the usage rows
    follow the pushes. *)
Lemma step_accounts (s : Sys) (e : Event) :
  well_formed s ->
  usage_succeeds e ->
  let s' := step encrypt stringify stringify_error s e in
  well_formed s'
  /\ (length (task_usage (db (state s'))) + accepted s + size (recording s)
      = length (task_usage (db (state s))) + accepted s'
        + size (recording s'))%nat.
Proof.
  intros Hwf Hok. cbn zeta.
  destruct e as [r task user env|r env|r|ok|i outcome ok]; cbn [step].
  - destruct (inflight s !! r) eqn:E1; [split; [exact Hwf | reflexivity]|].
    destruct (recording s !! r) eqn:E2; [split; [exact Hwf | reflexivity]|].
    split; [|reflexivity].
    intros r'. cbn [inflight recording].
    destruct (decide (r = r')) as [<-|Hne]; [intros _; exact E2|].
    rewrite lookup_insert_ne by exact Hne. apply Hwf.
  - destruct (inflight s !! r) as [req|] eqn:E1;
      [|split; [exact Hwf | reflexivity]].
    assert (Hfree : recording s !! r = None) by (apply Hwf; rewrite E1; eauto).
    destruct (if_decision req) as [userTier|e].
    + unfold enqueue, recordTaskUsage. cbv zeta. cbn in Hok. rewrite Hok.
      split.
      * intros r'. cbn [inflight recording]. intros [x Hx].
        apply lookup_delete_Some in Hx. destruct Hx as [Hne Hx].
        rewrite lookup_insert_ne by exact Hne. apply Hwf. eauto.
      * unfold accepted.
        cbn [state responses recording db task_usage with_task_usage].
        rewrite length_app, (map_size_insert_None _ _ _ Hfree).
        cbn [length]. lia.
    + split.
      * intros r'. cbn [inflight recording]. intros [x Hx].
        apply lookup_delete_Some in Hx. destruct Hx as [_ Hx].
        apply Hwf. eauto.
      * unfold accepted at 2. cbn [state responses recording].
        rewrite accepted_snoc_throw. reflexivity.
  - destruct (recording s !! r) as [queuedTask|] eqn:E;
      [|split; [exact Hwf | reflexivity]].
    split.
    + intros r'. cbn [inflight recording]. intros Hin.
      apply lookup_delete_None. right. apply Hwf, Hin.
    + unfold accepted at 2. cbn [state responses recording].
      rewrite accepted_snoc, (size_delete_Some _ _ _ E). lia.
  - destruct (taskQueue (state s)) as [|t rest];
      [split; [exact Hwf | reflexivity]|].
    destruct (knownAgent t); (split; [exact Hwf|]);
      cbn [state db]; [reflexivity|].
    rewrite settle_stores_nothing. reflexivity.
  - destruct (running s !! i) as [t|]; [|split; [exact Hwf | reflexivity]].
    split; [exact Hwf|]. cbn [state db].
    rewrite settle_stores_nothing. reflexivity.
Qed.

Lemma run_accounts (events : list Event) (s : Sys) :
  well_formed s ->
  Forall usage_succeeds events ->
  let s' := run encrypt stringify stringify_error events s in
  (length (task_usage (db (state s'))) + accepted s + size (recording s)
   = length (task_usage (db (state s))) + accepted s'
     + size (recording s'))%nat.
Proof.
  intros Hwf Hok. cbn zeta. revert s Hwf. unfold run.
  induction Hok as [|e events He _ IH]; intros s Hwf; [reflexivity|].
  cbn [fold_left].
  destruct (step_accounts s e Hwf He) as [Hwf1 H1]. cbn zeta in H1.
  specialize (IH _ Hwf1). lia.
Qed.

(** X28: accepted tasks are counted in [task_usage] and never in [tasks].
    Under any interleaving of requests and timer events the [tasks]
    table is never written, so that the count of the daily limit never
    moves.  When the usage inserts succeed, every receipt is backed by a
    row of [task_usage] (the receipts issued do not outnumber the rows
    added and the requests that were already past their push), and every
    row added belongs to a pushed task (the rows added do not outnumber
    the receipts issued and the requests still waiting for theirs). *)
Theorem accepted_tasks_are_never_counted (events : list Event) (s : Sys) :
  let s' := run encrypt stringify stringify_error events s in
  tasks (db (state s')) = tasks (db (state s))
  /\ (forall ok now userId taskType,
        getTodayTaskCount ok now (db (state s')) userId taskType
        = getTodayTaskCount ok now (db (state s)) userId taskType)
  /\ (well_formed s ->
      Forall usage_succeeds events ->
      (length (task_usage (db (state s))) + accepted s'
       <= length (task_usage (db (state s'))) + accepted s
          + size (recording s))%nat
      /\ (length (task_usage (db (state s'))) + accepted s
          <= length (task_usage (db (state s))) + accepted s'
             + size (recording s'))%nat).
Proof.
  cbn zeta. split; [apply run_keeps_tasks|]. split.
  - intros ok now userId taskType. unfold getTodayTaskCount.
    rewrite run_keeps_tasks. reflexivity.
  - intros Hwf Hok. pose proof (run_accounts events s Hwf Hok) as H.
    cbn zeta in H. lia.
Qed.

End Conservation.

Section TaskQueueWitnesses.
Import JS Store Orchestrator EventLoop Spec Fixtures.

(** The timer fires between the push and the receipt of request 0: the
    receipt reports position 0. *)
Lemma accepted_task_joins_the_tail_witness :
  positions
    (run plain prompt_of plain
       [Arrive 0 text_task free_user (env 0); Resume 0 (env 0); Tick true;
        Finish 0] sys0)
  = [0].
Proof.
  destruct (accepted_task_joins_the_tail plain prompt_of plain (env 0)
              (step plain prompt_of plain sys0
                 (Arrive 0 text_task free_user (env 0)))
              0
              {| if_task := text_task; if_user := free_user;
                 if_decision := Ok "free" |}
              "free" [Tick true] eq_refl eq_refl
              ltac:(repeat constructor; discriminate))
    as (queued & receipt & _ & _ & _ & _ & _ & _ & _ & Hr & _ & Hp & _).
  unfold positions, run. cbn [fold_left]. cbn zeta in Hr.
  unfold run in Hr. cbn [fold_left] in Hr. rewrite Hr.
  rewrite omap_app. cbn [omap list_omap snd]. rewrite Hp. reflexivity.
Defined.

Lemma queue_holds_waiting_tasks_only_witness :
  processing
    (getQueueStats
       (state (run plain prompt_of plain
                 [Arrive 0 text_task free_user (env 0); Resume 0 (env 0)]
                 sys0)))
  = 0.
Proof.
  apply (queue_holds_waiting_tasks_only plain prompt_of plain
           [Arrive 0 text_task free_user (env 0); Resume 0 (env 0)] sys0).
  constructor.
Defined.

Lemma accepted_tasks_are_never_counted_witness :
  (length (task_usage (db (state sys0)))
   + accepted (run plain prompt_of plain (sequential 0) sys0)
   <= length (task_usage
                (db (state (run plain prompt_of plain (sequential 0) sys0))))
      + accepted sys0 + size (recording sys0))%nat.
Proof.
  apply (proj2 (proj2 (accepted_tasks_are_never_counted plain prompt_of plain
                         (sequential 0) sys0))).
  - intros r [x Hx]. cbn in Hx. rewrite lookup_empty in Hx. discriminate.
  - repeat constructor.
Defined.

End TaskQueueWitnesses.

(** ** The completion beacon *)

Section CompletionBeacon.
Import JS Store AdCampaignModel AdMiddleware Spec Fixtures.

(** X29: the completion beacon is scoped to the reporting user and the
    reported tracking id: a request without tracking id is answered 400
    and writes nothing; otherwise every impression of another user, and
    every impression with another (or no) tracking id, is left exactly as
    it was, and neither campaigns nor users are written. *)
Theorem completion_beacon_is_scoped
    (ok : bool) (now : Timestamp) (db : Db)
    (trackingId : option string) (userId : Z) :
  let result := trackAdCompletion ok now db trackingId userId in
  (trackingId = None \/ trackingId = Some "" -> result = (BadRequest, db))
  /\ ad_campaigns result.2 = ad_campaigns db
  /\ users result.2 = users db
  /\ length (ad_impressions result.2) = length (ad_impressions db)
  /\ forall n i,
       ad_impressions db !! n = Some i ->
       imp_user_id i <> userId \/ tracking_id i <> trackingId ->
       ad_impressions result.2 !! n = Some i.
Proof.
  cbn zeta. unfold trackAdCompletion.
  destruct trackingId as [tid|].
  2:{ repeat split; auto. }
  destruct (String.eqb tid "") eqn:Ee.
  { apply String.eqb_eq in Ee. subst tid. repeat split; auto. }
  destruct ok; cbn [negb].
  2:{ repeat split; auto. intros [H|H]; [discriminate|].
      injection H as ->. discriminate. }
  cbn [fst snd ad_campaigns users ad_impressions with_ad_impressions].
  split; [|split; [reflexivity|split; [reflexivity|split]]].
  - intros [H|H]; [discriminate|]. injection H as ->. discriminate.
  - unfold update_where. apply length_fmap.
  - intros n i Hi Hother. unfold update_where.
    rewrite list_lookup_fmap, Hi. cbn.
    destruct (tracking_id i) as [t|] eqn:Et; [|reflexivity].
    destruct (String.eqb t tid) eqn:E1; [|reflexivity].
    destruct (imp_user_id i =? userId) eqn:E2; [|reflexivity].
    apply String.eqb_eq in E1. apply Z.eqb_eq in E2. subst t.
    destruct Hother as [H|H]; contradiction.
Qed.

Lemma completion_beacon_is_scoped_witness :
  trackAdCompletion true 1000 db0 (Some "") 1 = (BadRequest, db0).
Proof.
  apply (proj1 (completion_beacon_is_scoped true 1000 db0 (Some "") 1)).
  right. reflexivity.
Defined.

(** X30: the beacon cannot complete what [recordImpression] recorded: the
    row that [recordImpression] inserts carries no tracking id, so
    whatever tracking id and user a later [trackAdCompletion] reports, that
    row stays not completed. *)
Theorem beacon_misses_recorded_impression
    (ok2 : bool) (now : Timestamp) (db : Db) (cid userId : Z) (revenue : Q)
    (ok' : bool) (now' : Timestamp) (trackingId : option string)
    (reporter : Z) :
  let db1 := (recordImpression true ok2 now db (NumId cid) userId revenue).2 in
  let db2 := (trackAdCompletion ok' now' db1 trackingId reporter).2 in
  last (ad_impressions db2) = last (ad_impressions db1)
  /\ impression_id <$> last (ad_impressions db2)
     = Some (next_impression_id (ad_impressions db))
  /\ imp_completed <$> last (ad_impressions db2) = Some false.
Proof.
  cbn zeta.
  set (row := {| impression_id := next_impression_id (ad_impressions db);
                 imp_campaign_id := cid;
                 imp_user_id := userId; tracking_id := None;
                 imp_revenue := DECIMAL 4 revenue; imp_completed := false;
                 completed_at := None; impression_date := CURDATE now;
                 imp_created_at := now |}).
  assert (Himps :
    ad_impressions (recordImpression true ok2 now db (NumId cid) userId
                      revenue).2
    = ad_impressions db ++ [row]).
  { unfold recordImpression. cbn [negb]. destruct ok2; reflexivity. }
  set (db1 := (recordImpression true ok2 now db (NumId cid) userId revenue).2)
    in *.
  assert (Hlast :
    last (ad_impressions (trackAdCompletion ok' now' db1 trackingId reporter).2)
    = Some row).
  { unfold trackAdCompletion.
    destruct trackingId as [tid|];
      [|cbn [snd]; rewrite Himps; apply last_snoc].
    destruct (String.eqb tid "");
      [cbn [snd]; rewrite Himps; apply last_snoc|].
    destruct ok'; cbn [negb snd];
      [|rewrite Himps; apply last_snoc].
    cbn [ad_impressions with_ad_impressions]. rewrite Himps.
    unfold update_where. rewrite fmap_app. cbn. apply last_snoc. }
  rewrite Hlast, Himps, last_snoc. repeat split.
Qed.

End CompletionBeacon.
